(** * Vertex blender: filtered selection lists and batch weight edits

    A shallow embedding of [qvertexblender.py]: the influence filter model
    ([QInfluenceFilterModel]), the selection matching between the two sibling
    lists, and the batch weight edits of the window ([QVertexBlender]). *)

From Stdlib Require Import ZArith List String Ascii Bool Lia Finite Sorted.
From stdpp Require Import gmap.
Import ListNotations.
Local Open Scope Z_scope.

(** ** Python values

    The setters receive arbitrary Python objects and check them with
    [isinstance(x, int)]; [bool] is a subclass of [int], and [True == 1]. *)

Inductive pyval : Type :=
| PyInt (z : Z)
| PyBool (b : bool)
| PyStr (s : string)
| PyNone.

(** [isinstance(x, int)] *)
Definition isinstance_int (x : pyval) : bool :=
  match x with
  | PyInt _ | PyBool _ => true
  | PyStr _ | PyNone => false
  end.

(** [isinstance(x, bool)] *)
Definition isinstance_bool (x : pyval) : bool :=
  match x with
  | PyBool _ => true
  | _ => false
  end.

(** The integer a value stands for when used as a number or an index. *)
Definition as_int (x : pyval) : option Z :=
  match x with
  | PyInt z => Some z
  | PyBool b => Some (if b then 1 else 0)
  | PyStr _ | PyNone => None
  end.

(** [x == y] *)
Definition py_eq (x y : pyval) : bool :=
  match as_int x, as_int y with
  | Some a, Some b => a =? b
  | _, _ =>
      match x, y with
      | PyStr s, PyStr t => String.eqb s t
      | PyNone, PyNone => true
      | _, _ => false
      end
  end.

(** [x in l] *)
Definition py_in (x : pyval) (l : list pyval) : bool := existsb (py_eq x) l.

(** [l.remove(x)]: drops the first element equal to [x].  Both call sites
    test [x in l] first, so the [ValueError] of an absent element never
    arises; on an absent element the list is returned as it is. *)
Fixpoint py_remove (x : pyval) (l : list pyval) : list pyval :=
  match l with
  | [] => []
  | y :: l' => if py_eq y x then l' else y :: py_remove x l'
  end.

(** [l.count(x)] *)
Fixpoint py_count (x : pyval) (l : list pyval) : nat :=
  match l with
  | [] => O
  | y :: l' => ((if py_eq y x then 1 else 0) + py_count x l')%nat
  end.

(** ** The filter model *)

Record FilterModel : Type := mkFilterModel {
  (** text of column 0 of every row of the source model *)
  labels : list string;
  _visible : list pyval;
  _selectedRows : list pyval;
  _overrides : list pyval;
  _autoSelect : bool;
  _activeInfluences : list Z;
  _inactiveInfluences : list Z;
  (** source rows selected in the view's selection model; how a selection
      model reacts to rows that enter or leave the proxy is left out *)
  viewSelection : list Z
}.

Definition with_visible (v : list pyval) (m : FilterModel) : FilterModel :=
  mkFilterModel (labels m) v (_selectedRows m) (_overrides m) (_autoSelect m)
    (_activeInfluences m) (_inactiveInfluences m) (viewSelection m).

Definition with_selectedRows (s : list pyval) (m : FilterModel) : FilterModel :=
  mkFilterModel (labels m) (_visible m) s (_overrides m) (_autoSelect m)
    (_activeInfluences m) (_inactiveInfluences m) (viewSelection m).

Definition with_overrides (o : list pyval) (m : FilterModel) : FilterModel :=
  mkFilterModel (labels m) (_visible m) (_selectedRows m) o (_autoSelect m)
    (_activeInfluences m) (_inactiveInfluences m) (viewSelection m).

Definition with_autoSelect (a : bool) (m : FilterModel) : FilterModel :=
  mkFilterModel (labels m) (_visible m) (_selectedRows m) (_overrides m) a
    (_activeInfluences m) (_inactiveInfluences m) (viewSelection m).

Definition with_active (a : list Z) (m : FilterModel) : FilterModel :=
  mkFilterModel (labels m) (_visible m) (_selectedRows m) (_overrides m)
    (_autoSelect m) a (_inactiveInfluences m) (viewSelection m).

Definition with_inactive (i : list Z) (m : FilterModel) : FilterModel :=
  mkFilterModel (labels m) (_visible m) (_selectedRows m) (_overrides m)
    (_autoSelect m) (_activeInfluences m) i (viewSelection m).

Definition with_viewSelection (s : list Z) (m : FilterModel) : FilterModel :=
  mkFilterModel (labels m) (_visible m) (_selectedRows m) (_overrides m)
    (_autoSelect m) (_activeInfluences m) (_inactiveInfluences m) s.

(** [sourceModel().rowCount()] *)
Definition rowCount (m : FilterModel) : Z := Z.of_nat (length (labels m)).

(** The text of the item at [row], when the index is valid. *)
Definition itemText (m : FilterModel) (row : Z) : option string :=
  if 0 <=? row then nth_error (labels m) (Z.to_nat row) else None.

(** [isItemNull]: an invalid index, or an item without text. *)
Definition isItemNull (m : FilterModel) (row : Z) : bool :=
  match itemText m row with
  | Some s => String.eqb s EmptyString
  | None => true
  end.

(** [filterAcceptsRow(row, parent)]: the model after the call and the value
    returned to the framework. *)
Definition filterAcceptsRow (row : Z) (m : FilterModel) : FilterModel * bool :=
  if isItemNull m row then
    (with_inactive (_inactiveInfluences m ++ [row]) m, false)
  else if py_in (PyInt row) (_visible m) || py_in (PyInt row) (_selectedRows m) then
    (with_active (_activeInfluences m ++ [row]) m, true)
  else if py_in (PyInt row) (_overrides m) then
    (with_overrides (py_remove (PyInt row) (_overrides m))
       (with_active (_activeInfluences m ++ [row]) m), true)
  else
    (with_inactive (_inactiveInfluences m ++ [row]) m, false).

(** One pass of the framework over the given source rows: it asks
    [filterAcceptsRow] once per row and collects the answers. *)
Fixpoint filterRows (rows : list Z) (m : FilterModel) : FilterModel * list (Z * bool) :=
  match rows with
  | [] => (m, [])
  | row :: rest =>
      let '(m1, b) := filterAcceptsRow row m in
      let '(m2, bs) := filterRows rest m1 in
      (m2, (row, b) :: bs)
  end.

(** The rows of the source model, [range(rowCount)]. *)
Definition sourceRows (m : FilterModel) : list Z :=
  map Z.of_nat (seq 0 (length (labels m))).

(** [invalidateFilter]: both lists are reset, then the inherited method has
    the framework filter every source row again.  The order in which it asks
    about the rows is the framework's own; here it is taken in row order,
    and [invalidateFilter_in] below is the pass in any other order. *)
Definition invalidateFilter_verdicts (m : FilterModel) : FilterModel * list (Z * bool) :=
  filterRows (sourceRows m) (with_inactive [] (with_active [] m)).

Definition invalidateFilter (m : FilterModel) : FilterModel :=
  fst (invalidateFilter_verdicts m).

(** What the contract says a pass decides for a row, on the state the pass
    starts from. *)
Definition accepts (m : FilterModel) (row : Z) : bool :=
  negb (isItemNull m row) &&
  (py_in (PyInt row) (_visible m) || py_in (PyInt row) (_selectedRows m)
   || py_in (PyInt row) (_overrides m)).

(** ** Exceptions *)

Inductive exn : Type :=
| TypeError (msg : string)
| ValueError (msg : string)
| KeyError (key : Z)
| HostError (msg : string)
| ReError
| OutOfFuel.

Inductive outcome (A : Type) : Type :=
| Ok (a : A)
| Raise (e : exn).
Arguments Ok {A} a.
Arguments Raise {A} e.

(** What a call into the host gives back: a value, or an exception of the
    host's own. *)
Inductive answer (A : Type) : Type :=
| Returned (a : A)
| Failed (msg : string).
Arguments Returned {A} a.
Arguments Failed {A} msg.

(** ** The type-checked setters of the filter model *)

(** [setVisible] (variadic): the tuple of arguments is stored as it is, then the
    filter is invalidated. *)
Definition setVisible (args : list pyval) (m : FilterModel) : outcome FilterModel :=
  if negb (forallb isinstance_int args) then
    Raise (TypeError "setVisible() expects a sequence of integers!")
  else
    Ok (invalidateFilter (with_visible args m)).

(** [setSelectedRows(selectedRows)]: a copy of the list, no check, no signal. *)
Definition setSelectedRows (selectedRows : list pyval) (m : FilterModel) : FilterModel :=
  with_selectedRows selectedRows m.

(** [setOverrides] (variadic) *)
Definition setOverrides (args : list pyval) (m : FilterModel) : outcome FilterModel :=
  if negb (forallb isinstance_int args) then
    Raise (TypeError "setOverrides() expects a sequence of integers!")
  else
    Ok (invalidateFilter (with_overrides args m)).

(** [isRowHidden(row)]: [row in self._inactiveInfluences] *)
Definition isRowHidden (m : FilterModel) (row : pyval) : bool :=
  existsb (fun r => py_eq row (PyInt r)) (_inactiveInfluences m).

(** [list(set(rows))]: the distinct rows in the iteration order of the set.
    The language does not fix that order; it is some arrangement of the
    distinct rows. *)
Record SetOrder : Type := {
  list_set : list Z -> list Z;
  list_set_distinct : forall rows, Permutation (list_set rows) (nodup Z.eq_dec rows)
}.

(** [getSelectedRows]: the rows of the view's selection, each once, in the
    order the intermediate [set] gives them. *)
Definition getSelectedRows (o : SetOrder) (m : FilterModel) : list Z :=
  list_set o (viewSelection m).

(** ** Pattern matching ([fnmatch]) *)

Inductive platform : Type := Posix | Windows.

(** A Python string is held as its UTF-8 encoding, and its characters are
    the code points the encoding spells: [need] continuation bytes are
    awaited for the code point begun in [acc].  A character cut short at the
    end, which no Python string has, reads as U+FFFD. *)
Fixpoint decode_utf8 (need : nat) (acc : N) (bytes : list ascii) : list N :=
  match bytes with
  | [] => match need with O => [] | S _ => [65533%N] end
  | b :: rest =>
      let n := N_of_ascii b in
      match need with
      | O =>
          if (n <? 128)%N then n :: decode_utf8 0 0 rest
          else if (n <? 224)%N then decode_utf8 1 (n mod 32)%N rest
          else if (n <? 240)%N then decode_utf8 2 (n mod 16)%N rest
          else decode_utf8 3 (n mod 8)%N rest
      | S k =>
          let acc' := (acc * 64 + n mod 64)%N in
          match k with
          | O => acc' :: decode_utf8 0 0 rest
          | S _ => decode_utf8 k acc' rest
          end
      end
  end.

(** The characters of a string. *)
Definition codepoints (s : string) : list N :=
  decode_utf8 0 0 (list_ascii_of_string s).

(** The code point of an ASCII character. *)
Definition ch (a : ascii) : N := N_of_ascii a.

(** What the Python at hand decides: [str.lower] on a text with characters
    outside ASCII, of which only that it never empties a text is used, and
    how the regular-expression engine reads the text of a character class,
    [None] when it rejects the class with [re.error]. *)
Record Runtime : Type := {
  unicodeLower : list N -> list N;
  unicodeLower_nonempty : forall s, unicodeLower s = [] -> s = [];
  compileClass : list N -> option (N -> bool)
}.

Definition lower_ascii (c : N) : N :=
  if ((65 <=? c) && (c <=? 90))%N then (c + 32)%N else c.

Definition is_ascii (s : list N) : bool := forallb (fun c => (c <? 128)%N) s.

(** [str.lower()]: on ASCII text the letters A to Z are folded. *)
Definition lower (rt : Runtime) (s : list N) : list N :=
  if is_ascii s then map lower_ascii s else unicodeLower rt s.

(** [os.path.normcase]: the identity on POSIX; on Windows every [/] becomes a
    backslash and the string is lower-cased. *)
Definition normcase (rt : Runtime) (p : platform) (s : list N) : list N :=
  match p with
  | Posix => s
  | Windows => lower rt (map (fun c => if (c =? ch "/")%N then ch "\" else c) s)
  end.

Inductive token : Type :=
| TStar
| TAny
| TLit (c : N)
| TClass (stuff : list N).

(** After an opening bracket: the text up to the closing bracket and what
    follows it.  A leading [!] and a [\]] right after it belong to the
    class. *)
Fixpoint scan_close (cs : list N) : option (list N * list N) :=
  match cs with
  | [] => None
  | c :: cs' =>
      if (c =? ch "]")%N then Some ([], cs')
      else match scan_close cs' with
           | Some (s, r) => Some (c :: s, r)
           | None => None
           end
  end.

Definition find_close (cs : list N) : option (list N * list N) :=
  let '(pre1, cs1) :=
    match cs with
    | c :: t => if (c =? ch "!")%N then ([c], t) else ([], cs)
    | [] => ([], cs)
    end in
  let '(pre2, cs2) :=
    match cs1 with
    | c :: t => if (c =? ch "]")%N then ([c], t) else ([], cs1)
    | [] => ([], cs1)
    end in
  match scan_close cs2 with
  | Some (s, r) => Some (pre1 ++ pre2 ++ s, r)
  | None => None
  end.

(** [fnmatch.translate]: the pattern as a sequence of regular-expression
    atoms.  An opening bracket without a closing one is a literal. *)
Fixpoint translate (fuel : nat) (pat : list N) : list token :=
  match fuel with
  | O => []
  | S fuel' =>
      match pat with
      | [] => []
      | c :: rest =>
          if (c =? ch "*")%N then TStar :: translate fuel' rest
          else if (c =? ch "?")%N then TAny :: translate fuel' rest
          else if (c =? ch "[")%N then
            match find_close rest with
            | Some (stuff, rest') => TClass stuff :: translate fuel' rest'
            | None => TLit c :: translate fuel' rest
            end
          else TLit c :: translate fuel' rest
      end
  end.

(** [re.compile] of the translated pattern: it fails when the engine rejects
    one of the classes. *)
Definition compiles (rt : Runtime) (ts : list token) : bool :=
  forallb (fun t => match t with
                    | TClass stuff =>
                        match compileClass rt stuff with
                        | Some _ => true
                        | None => false
                        end
                    | _ => true
                    end) ts.

(** Matching of the compiled pattern, anchored at both ends. *)
Fixpoint re_match (rt : Runtime) (ts : list token) (s : list N) {struct ts} : bool :=
  match ts with
  | [] => match s with [] => true | _ :: _ => false end
  | TStar :: ts' =>
      (fix skip (s : list N) : bool :=
         re_match rt ts' s ||
         match s with
         | [] => false
         | _ :: s' => skip s'
         end) s
  | TAny :: ts' =>
      match s with
      | [] => false
      | _ :: s' => re_match rt ts' s'
      end
  | TLit c :: ts' =>
      match s with
      | [] => false
      | d :: s' => (c =? d)%N && re_match rt ts' s'
      end
  | TClass stuff :: ts' =>
      match s with
      | [] => false
      | d :: s' =>
          match compileClass rt stuff with
          | Some member => member d
          | None => false
          end && re_match rt ts' s'
      end
  end.

(** [fnmatch.fnmatchcase(name, pat)]; [None] when the pattern does not
    compile. *)
Definition fnmatchcase (rt : Runtime) (name pat : list N) : option bool :=
  let ts := translate (length pat) pat in
  if compiles rt ts then Some (re_match rt ts name) else None.

(** [fnmatch.fnmatch(name, pat)] *)
Definition fnmatch (rt : Runtime) (p : platform) (name pat : string) : option bool :=
  fnmatchcase rt (normcase rt p (codepoints name)) (normcase rt p (codepoints pat)).

(** [[row for row, item in zip(rows, items) if test(item)]], where the test
    may raise. *)
Fixpoint matching_rows (test : string -> option bool) (items : list (Z * string))
  : outcome (list Z) :=
  match items with
  | [] => Ok []
  | (row, item) :: rest =>
      match test item with
      | None => Raise ReError
      | Some b =>
          match matching_rows test rest with
          | Ok rows => Ok (if b then row :: rows else rows)
          | Raise e => Raise e
          end
      end
  end.

(** [filterRowsByPattern(pattern)], on column 0. *)
Definition filterRowsByPattern (rt : Runtime) (p : platform) (pattern : pyval)
    (m : FilterModel) : outcome (list Z) :=
  match pattern with
  | PyStr pat =>
      let rows := sourceRows m in
      let items := labels m in
      matching_rows (fun item => fnmatch rt p item pat) (combine rows items)
  | _ => Raise (ValueError "Unable to filter rows using this type!")
  end.

(** ** The window: two sibling filter models and the skin *)

Inductive ModelId : Type := Influence | Weight.

(** [setSiblingModel] pairs the two filter models with each other. *)
Definition siblingModel (i : ModelId) : ModelId :=
  match i with
  | Influence => Weight
  | Weight => Influence
  end.

(** What lies outside this program: the arithmetic on weights, the skin
    function set ([dcc.fnskin.FnSkin]) and the item views.  [viewSelect] is
    the selection a view ends up with when [select(..., ClearAndSelect)] is
    asked for the given source rows, and [viewEmits] tells whether its
    selection model then emits [selectionChanged]. *)
Record Host (Float Skin : Type) : Type := mkHost {
  (** [x * -1.0] *)
  fneg : Float -> Float;
  skin_isValid : Skin -> bool;
  skin_softSelection : Skin -> list (Z * Float);
  skin_weights : Skin -> list Z -> gmap Z (gmap Z Float);
  skin_averageWeights : Skin -> list (gmap Z Float) -> gmap Z Float;
  skin_setWeights :
    Skin -> gmap Z Float -> pyval -> list pyval -> Float -> Float -> answer (gmap Z Float);
  skin_incrementWeights :
    Skin -> gmap Z Float -> pyval -> list pyval -> Float -> Float -> answer (gmap Z Float);
  skin_scaleWeights :
    Skin -> gmap Z Float -> pyval -> list pyval -> Float -> Float -> answer (gmap Z Float);
  skin_applyWeights : Skin -> gmap Z (gmap Z Float) -> answer Skin;
  skin_selectInfluence : Skin -> pyval -> Skin;
  viewSelect : FilterModel -> list Z -> list Z;
  viewEmits : list Z -> list Z -> bool;
  (** the order of Python's sets *)
  setOrder : SetOrder
}.
Arguments fneg {Float Skin} h x.
Arguments skin_isValid {Float Skin} h s.
Arguments skin_softSelection {Float Skin} h s.
Arguments skin_weights {Float Skin} h s vertices.
Arguments skin_averageWeights {Float Skin} h s weights.
Arguments skin_setWeights {Float Skin} h s weights active sources amount falloff.
Arguments skin_incrementWeights {Float Skin} h s weights active sources amount falloff.
Arguments skin_scaleWeights {Float Skin} h s weights active sources amount falloff.
Arguments skin_applyWeights {Float Skin} h s updates.
Arguments skin_selectInfluence {Float Skin} h s influence.
Arguments viewSelect {Float Skin} h m rows.
Arguments viewEmits {Float Skin} h old new.
Arguments setOrder {Float Skin} h.

(** [QAbstractItemView.SelectionMode], as far as the program uses it. *)
Inductive selectionMode : Type := SingleSelection | ExtendedSelection.

Section Window.

(** Weights are floating-point numbers; the editor only passes them on. *)
Variable Float : Type.
Variable Skin : Type.
Variable host : Host Float Skin.

(** Calls that leave the program, in the order they are made, and the marks
    of the selection matching. *)
Inductive event : Type :=
| EvBeginSelectionUpdate
| EvEndSelectionUpdate
| EvSiblingSelect (target : ModelId) (rows : list pyval)
| EvSelect (view : ModelId) (rows : list Z)
| EvScrollTo (view : ModelId) (row : Z)
| EvScrollToTop (view : ModelId)
| EvSetSelectionMode (view : ModelId) (mode : selectionMode)
| EvSkinSelectInfluence (influence : pyval)
| EvSkinApplyWeights (updates : gmap Z (gmap Z Float)).

Record World : Type := mkWorld {
  influenceFilterModel : FilterModel;
  weightFilterModel : FilterModel;
  (** the class attribute [__pending__], shared by every filter model *)
  __pending__ : bool;
  _precision : bool;
  _skin : Skin;
  _softSelection : list (Z * Float);
  _vertices : gmap Z (gmap Z Float);
  _vertexWeights : gmap Z Float;
  setterSpinBox : Float;
  incrementSpinBox : Float;
  scaleSpinBox : Float
}.

Definition filterModel (i : ModelId) (w : World) : FilterModel :=
  match i with
  | Influence => influenceFilterModel w
  | Weight => weightFilterModel w
  end.

Definition with_filterModel (i : ModelId) (m : FilterModel) (w : World) : World :=
  match i with
  | Influence =>
      mkWorld m (weightFilterModel w) (__pending__ w) (_precision w) (_skin w)
        (_softSelection w) (_vertices w) (_vertexWeights w)
        (setterSpinBox w) (incrementSpinBox w) (scaleSpinBox w)
  | Weight =>
      mkWorld (influenceFilterModel w) m (__pending__ w) (_precision w) (_skin w)
        (_softSelection w) (_vertices w) (_vertexWeights w)
        (setterSpinBox w) (incrementSpinBox w) (scaleSpinBox w)
  end.

Definition with_pending (b : bool) (w : World) : World :=
  mkWorld (influenceFilterModel w) (weightFilterModel w) b (_precision w) (_skin w)
    (_softSelection w) (_vertices w) (_vertexWeights w)
    (setterSpinBox w) (incrementSpinBox w) (scaleSpinBox w).

Definition with_precision (b : bool) (w : World) : World :=
  mkWorld (influenceFilterModel w) (weightFilterModel w) (__pending__ w) b (_skin w)
    (_softSelection w) (_vertices w) (_vertexWeights w)
    (setterSpinBox w) (incrementSpinBox w) (scaleSpinBox w).

Definition with_skin (s : Skin) (w : World) : World :=
  mkWorld (influenceFilterModel w) (weightFilterModel w) (__pending__ w) (_precision w) s
    (_softSelection w) (_vertices w) (_vertexWeights w)
    (setterSpinBox w) (incrementSpinBox w) (scaleSpinBox w).

Definition with_softSelection (s : list (Z * Float)) (w : World) : World :=
  mkWorld (influenceFilterModel w) (weightFilterModel w) (__pending__ w) (_precision w)
    (_skin w) s (_vertices w) (_vertexWeights w)
    (setterSpinBox w) (incrementSpinBox w) (scaleSpinBox w).

Definition with_vertices (v : gmap Z (gmap Z Float)) (w : World) : World :=
  mkWorld (influenceFilterModel w) (weightFilterModel w) (__pending__ w) (_precision w)
    (_skin w) (_softSelection w) v (_vertexWeights w)
    (setterSpinBox w) (incrementSpinBox w) (scaleSpinBox w).

Definition with_vertexWeights (v : gmap Z Float) (w : World) : World :=
  mkWorld (influenceFilterModel w) (weightFilterModel w) (__pending__ w) (_precision w)
    (_skin w) (_softSelection w) (_vertices w) v
    (setterSpinBox w) (incrementSpinBox w) (scaleSpinBox w).

(** *** Computations: a state, the calls made, and a value or an exception.
    A raised exception keeps the state reached and the calls made so far. *)

Record result (A : Type) : Type := Res {
  world : World;
  events : list event;
  out : outcome A
}.
Arguments Res {A} world events out.
Arguments world {A} r.
Arguments events {A} r.
Arguments out {A} r.

Definition M (A : Type) : Type := World -> result A.

Definition ret {A : Type} (a : A) : M A := fun w => Res w [] (Ok a).

Definition bind {A B : Type} (c : M A) (k : A -> M B) : M B :=
  fun w =>
    match c w with
    | Res w1 e1 (Ok a) =>
        match k a w1 with
        | Res w2 e2 o => Res w2 (e1 ++ e2) o
        end
    | Res w1 e1 (Raise e) => Res w1 e1 (Raise e)
    end.

Definition raise {A : Type} (e : exn) : M A := fun w => Res w [] (Raise e).
Definition get : M World := fun w => Res w [] (Ok w).
Definition modify (f : World -> World) : M unit := fun w => Res (f w) [] (Ok tt).
Definition emit (ev : event) : M unit := fun w => Res w [ev] (Ok tt).

(** A fallible operation of one filter model, run on the window. *)
Definition onModel (i : ModelId) (f : FilterModel -> outcome FilterModel) : M unit :=
  fun w =>
    match f (filterModel i w) with
    | Ok m' => Res (with_filterModel i m' w) [] (Ok tt)
    | Raise e => Res w [] (Raise e)
    end.

Notation "x <- c1 ;; c2" := (bind c1 (fun x => c2))
  (at level 100, c1 at next level, right associativity).
Notation "c1 ;;; c2" := (bind c1 (fun _ => c2))
  (at level 100, right associativity).

(** *** Selection matching *)

Definition beginSelectionUpdate : M unit :=
  modify (with_pending true) ;;; emit EvBeginSelectionUpdate.

Definition endSelectionUpdate : M unit :=
  modify (with_pending false) ;;; emit EvEndSelectionUpdate.

Definition isPending : M bool := fun w => Res w [] (Ok (__pending__ w)).

(** [activeInfluence()]: the first cached row of the influence list. *)
Definition activeInfluence : M pyval :=
  w <- get ;;
  match _selectedRows (influenceFilterModel w) with
  | a :: _ => ret a
  | [] => raise (TypeError "Unable to get active influence from current selection!")
  end.

(** The decorator [validate]: the method runs only on a valid skin. *)
Definition validate (body : M unit) : M unit :=
  w <- get ;;
  if skin_isValid host (_skin w) then body else ret tt.

(** [requestInfluenceChange()] *)
Definition requestInfluenceChange : M unit :=
  validate (
    a <- activeInfluence ;;
    modify (fun w => with_skin (skin_selectInfluence host (_skin w) a) w) ;;;
    emit (EvSkinSelectInfluence a)).

(** The framework delivers [selectionChanged] to the connected slot.  An
    exception raised by a slot is reported by the binding layer and does not
    reach the code that caused the signal. *)
Definition deliver (slot : ModelId -> M unit) (i : ModelId) : M unit :=
  fun w =>
    match slot i w with
    | Res w' evs (Raise OutOfFuel) => Res w' evs (Raise OutOfFuel)
    | Res w' evs _ => Res w' evs (Ok tt)
    end.

(** [selectionModel.select(rows, ClearAndSelect)] on the view of [i]. *)
Definition selectionModel_select (slot : ModelId -> M unit) (i : ModelId) (rows : list Z)
  : M unit :=
  w <- get ;;
  let m := filterModel i w in
  let old := viewSelection m in
  let new := viewSelect host m rows in
  emit (EvSelect i rows) ;;;
  modify (with_filterModel i (with_viewSelection new m)) ;;;
  if viewEmits host old new then deliver slot i else ret tt.

(** [selectInfluences(rows)] *)
Definition selectInfluences_body (slot : ModelId -> M unit) (i : ModelId) (rows : list pyval)
  : M unit :=
  if negb (forallb isinstance_int rows) then
    raise (TypeError "selectInfluences() expects a sequence of integers!")
  else
    w <- get ;;
    let hidden := List.filter (isRowHidden (filterModel i w)) rows in
    (if (0 <? length hidden)%nat then onModel i (setOverrides hidden) else ret tt) ;;;
    match rows with
    | first :: _ =>
        selectionModel_select slot i (omap as_int rows) ;;;
        emit (EvScrollTo i (default 0 (as_int first)))
    | [] =>
        w <- get ;;
        match _activeInfluences (filterModel i w) with
        | activeInfluence :: _ =>
            selectionModel_select slot i [activeInfluence] ;;;
            emit (EvScrollToTop i)
        | [] => ret tt
        end
    end.

(** [matchSelection()] *)
Definition matchSelection_body (slot : ModelId -> M unit) (i : ModelId) : M unit :=
  p <- isPending ;;
  if p then ret tt
  else
    beginSelectionUpdate ;;;
    w <- get ;;
    let rows := _selectedRows (filterModel i w) in
    emit (EvSiblingSelect (siblingModel i) rows) ;;;
    selectInfluences_body slot (siblingModel i) rows ;;;
    endSelectionUpdate.

(** [onSelectionChanged(selected, deselected)] *)
Definition onSelectionChanged_body (slot : ModelId -> M unit) (i : ModelId) : M unit :=
  w <- get ;;
  let rows := getSelectedRows (setOrder host) (filterModel i w) in
  if (length rows =? 0)%nat then ret tt
  else
    modify (fun w => with_filterModel i
                       (invalidateFilter
                          (setSelectedRows (map PyInt rows) (filterModel i w))) w) ;;;
    w <- get ;;
    (if _autoSelect (filterModel i w) then matchSelection_body slot i else ret tt) ;;;
    requestInfluenceChange.

(** The slot calls [matchSelection], which selects in the sibling's view,
    whose signal runs the sibling's slot: the recursion is cut by
    [__pending__], and is unfolded here a given number of times. *)
Fixpoint onSelectionChanged (fuel : nat) (i : ModelId) : M unit :=
  match fuel with
  | O => raise OutOfFuel
  | S fuel' => onSelectionChanged_body (onSelectionChanged fuel') i
  end.

Definition selectInfluences (fuel : nat) (i : ModelId) (rows : list pyval) : M unit :=
  selectInfluences_body (onSelectionChanged fuel) i rows.

Definition matchSelection (fuel : nat) (i : ModelId) : M unit :=
  matchSelection_body (onSelectionChanged fuel) i.

(** [setAutoSelect(autoSelect)] *)
Definition setAutoSelect (fuel : nat) (i : ModelId) (autoSelect : pyval) : M unit :=
  match autoSelect with
  | PyBool b =>
      modify (fun w => with_filterModel i (with_autoSelect b (filterModel i w)) w) ;;;
      if b then matchSelection fuel i else ret tt
  | _ => raise (TypeError "setAutoSelect() expects a bool!")
  end.

(** The user changes the selection of a view: the selection model stores it
    and emits [selectionChanged]. *)
Definition userSelects (fuel : nat) (i : ModelId) (rows : list Z) : M unit :=
  modify (fun w => with_filterModel i (with_viewSelection rows (filterModel i w)) w) ;;;
  deliver (onSelectionChanged fuel) i.

(** [precisionChanged(precision)] *)
Definition precisionChanged (fuel : nat) (precision : bool) : M unit :=
  modify (with_precision precision) ;;;
  if precision then
    emit (EvSetSelectionMode Weight ExtendedSelection) ;;;
    setAutoSelect fuel Influence (PyBool false) ;;;
    setAutoSelect fuel Weight (PyBool false)
  else
    emit (EvSetSelectionMode Weight SingleSelection) ;;;
    setAutoSelect fuel Influence (PyBool true) ;;;
    setAutoSelect fuel Weight (PyBool true).

(** *** Batch weight edits *)

(** [sourceInfluences()].  In precision mode [influenceIds] is the very list
    object cached by the weight filter model, and [remove] works in place. *)
Definition sourceInfluences : M (list pyval) :=
  w <- get ;;
  let selectedRows := _selectedRows (weightFilterModel w) in
  if (length selectedRows =? 0)%nat then
    raise (TypeError "sourceInfluences() expects a valid selection!")
  else if _precision w then
    activeInfluence <- activeInfluence ;;
    if py_in activeInfluence selectedRows then
      let influenceIds := py_remove activeInfluence selectedRows in
      modify (fun w => with_filterModel Weight
                         (with_selectedRows influenceIds (weightFilterModel w)) w) ;;;
      ret influenceIds
    else ret selectedRows
  else
    ret (map PyInt
           (List.filter (fun x => negb (py_in (PyInt x) selectedRows))
              (_activeInfluences (weightFilterModel w)))).

(** The loop over the soft selection: [updates[vertexIndex] = compute(...)]. *)
Fixpoint collectUpdates (compute : gmap Z Float -> Float -> answer (gmap Z Float))
    (vertices : gmap Z (gmap Z Float)) (items : list (Z * Float))
    (updates : gmap Z (gmap Z Float)) : outcome (gmap Z (gmap Z Float)) :=
  match items with
  | [] => Ok updates
  | (vertexIndex, falloff) :: rest =>
      match vertices !! vertexIndex with
      | None => Raise (KeyError vertexIndex)
      | Some weights =>
          match compute weights falloff with
          | Returned new =>
              collectUpdates compute vertices rest (<[vertexIndex := new]> updates)
          | Failed msg => Raise (HostError msg)
          end
      end
  end.

Definition liftOutcome {A : Type} (o : outcome A) : M A :=
  match o with
  | Ok a => ret a
  | Raise e => raise e
  end.

Definition liftAnswer {A : Type} (o : answer A) : M A :=
  match o with
  | Returned a => ret a
  | Failed msg => raise (HostError msg)
  end.

(** [self.skin.applyWeights(updates)] *)
Definition applyWeights (updates : gmap Z (gmap Z Float)) : M unit :=
  emit (EvSkinApplyWeights updates) ;;;
  w <- get ;;
  s <- liftAnswer (skin_applyWeights host (_skin w) updates) ;;
  modify (with_skin s).

(** [invalidateWeights()] (the texts of the weight column are not part of
    the model). *)
Definition invalidateWeights : M unit :=
  validate (
    modify (fun w => with_softSelection (skin_softSelection host (_skin w)) w) ;;;
    w <- get ;;
    let selection := map fst (_softSelection w) in
    modify (with_vertices (skin_weights host (_skin w) selection)) ;;;
    w <- get ;;
    match selection with
    | [] => modify (with_vertexWeights ∅)
    | [v] =>
        match _vertices w !! v with
        | Some weights => modify (with_vertexWeights weights)
        | None => raise (KeyError v)
        end
    | _ :: _ :: _ =>
        modify (with_vertexWeights
                  (skin_averageWeights host (_skin w) (map snd (map_to_list (_vertices w)))))
    end ;;;
    w <- get ;;
    if (0 <? size (_vertexWeights w))%nat then
      onModel Weight (setVisible (map (fun kv => PyInt (fst kv)) (map_to_list (_vertexWeights w))))
    else ret tt).

(** The common part of the four edits, from the resolved arguments on. *)
Definition submitUpdates
    (compute : Skin -> gmap Z Float -> pyval -> list pyval -> Float -> Float
               -> answer (gmap Z Float))
    (activeInfluence : pyval) (sourceInfluences : list pyval) (amount : Float) : M unit :=
  w <- get ;;
  updates <- liftOutcome
    (collectUpdates
       (fun weights falloff =>
          compute (_skin w) weights activeInfluence sourceInfluences amount falloff)
       (_vertices w) (_softSelection w) ∅) ;;
  applyWeights updates ;;;
  invalidateWeights.

(** [applyPreset(amount)] *)
Definition applyPreset (amount : Float) : M unit :=
  validate (
    activeInfluence <- activeInfluence ;;
    sourceInfluences <- sourceInfluences ;;
    submitUpdates (skin_setWeights host) activeInfluence sourceInfluences amount).

(** [setWeights()] *)
Definition setWeights : M unit :=
  validate (
    activeInfluence <- activeInfluence ;;
    sourceInfluences <- sourceInfluences ;;
    w <- get ;;
    let amount := setterSpinBox w in
    submitUpdates (skin_setWeights host) activeInfluence sourceInfluences amount).

(** [incrementWeights(pull)] *)
Definition incrementWeights (pull : bool) : M unit :=
  validate (
    activeInfluence <- activeInfluence ;;
    sourceInfluences <- sourceInfluences ;;
    w <- get ;;
    let amount := incrementSpinBox w in
    let amount := if pull then fneg host amount else amount in
    submitUpdates (skin_incrementWeights host) activeInfluence sourceInfluences amount).

(** [scaleWeights(pull)] *)
Definition scaleWeights (pull : bool) : M unit :=
  validate (
    activeInfluence <- activeInfluence ;;
    sourceInfluences <- sourceInfluences ;;
    w <- get ;;
    let percent := scaleSpinBox w in
    let percent := if pull then fneg host percent else percent in
    submitUpdates (skin_scaleWeights host) activeInfluence sourceInfluences percent).

(** The four batch edits. *)
Inductive edit : Type :=
| ApplyPreset (amount : Float)
| SetWeights
| IncrementWeights (pull : bool)
| ScaleWeights (pull : bool).

Definition runEdit (e : edit) : M unit :=
  match e with
  | ApplyPreset amount => applyPreset amount
  | SetWeights => setWeights
  | IncrementWeights pull => incrementWeights pull
  | ScaleWeights pull => scaleWeights pull
  end.

(** *** What can happen to the window *)

Inductive operation : Type :=
| UserSelects (i : ModelId) (rows : list Z)
| SelectInfluences (i : ModelId) (rows : list pyval)
| MatchSelection (i : ModelId)
| SetAutoSelect (i : ModelId) (autoSelect : pyval)
| SetVisible (i : ModelId) (args : list pyval)
| SetOverrides (i : ModelId) (args : list pyval)
| SetSelectedRows (i : ModelId) (rows : list pyval)
| PrecisionChanged (precision : bool)
| SourceInfluences
| InvalidateWeights
| Edit (e : edit).

Definition runOperation (fuel : nat) (o : operation) : M unit :=
  match o with
  | UserSelects i rows => userSelects fuel i rows
  | SelectInfluences i rows => selectInfluences fuel i rows
  | MatchSelection i => matchSelection fuel i
  | SetAutoSelect i autoSelect => setAutoSelect fuel i autoSelect
  | SetVisible i args => onModel i (setVisible args)
  | SetOverrides i args => onModel i (setOverrides args)
  | SetSelectedRows i rows => onModel i (fun m => Ok (setSelectedRows rows m))
  | PrecisionChanged precision => precisionChanged fuel precision
  | SourceInfluences => sourceInfluences ;;; ret tt
  | InvalidateWeights => invalidateWeights
  | Edit e => runEdit e
  end.

(** A session: one operation after the other; an exception ends the
    operation that raised it, not the session. *)
Definition runSession (fuel : nat) (os : list operation) (w : World) : World :=
  fold_left (fun w o => world (runOperation fuel o w)) os w.

End Window.

Arguments Res {Float Skin A} world events out.
Arguments world {Float Skin A} r.
Arguments events {Float Skin A} r.
Arguments out {Float Skin A} r.
Arguments ret {Float Skin A} a w.
Arguments bind {Float Skin A B} c k w.
Arguments raise {Float Skin A} e w.
Arguments get {Float Skin} w.
Arguments modify {Float Skin} f w.
Arguments emit {Float Skin} ev w.
Arguments onModel {Float Skin} i f w.
Arguments liftOutcome {Float Skin A} o w.
Arguments liftAnswer {Float Skin A} o w.
Arguments isPending {Float Skin} w.
Arguments beginSelectionUpdate {Float Skin} w.
Arguments endSelectionUpdate {Float Skin} w.
Arguments activeInfluence {Float Skin} w.
Arguments sourceInfluences {Float Skin} w.
Arguments filterModel {Float Skin} i w.
Arguments with_filterModel {Float Skin} i m w.
Arguments with_pending {Float Skin} b w.
Arguments with_precision {Float Skin} b w.
Arguments with_skin {Float Skin} s w.
Arguments influenceFilterModel {Float Skin} w.
Arguments weightFilterModel {Float Skin} w.
Arguments __pending__ {Float Skin} w.
Arguments _precision {Float Skin} w.
Arguments _skin {Float Skin} w.
Arguments _softSelection {Float Skin} w.
Arguments _vertices {Float Skin} w.
Arguments _vertexWeights {Float Skin} w.
Arguments collectUpdates {Float} compute vertices items updates.
Arguments EvBeginSelectionUpdate {Float}.
Arguments EvEndSelectionUpdate {Float}.
Arguments EvSiblingSelect {Float} target rows.
Arguments EvSelect {Float} view rows.
Arguments EvScrollTo {Float} view row.
Arguments EvScrollToTop {Float} view.
Arguments EvSetSelectionMode {Float} view mode.
Arguments EvSkinSelectInfluence {Float} influence.
Arguments EvSkinApplyWeights {Float} updates.
Arguments setterSpinBox {Float Skin} w.
Arguments incrementSpinBox {Float Skin} w.
Arguments scaleSpinBox {Float Skin} w.
Arguments with_softSelection {Float Skin} s w.
Arguments with_vertices {Float Skin} v w.
Arguments with_vertexWeights {Float Skin} v w.
Arguments validate {Float Skin} host body w.
Arguments requestInfluenceChange {Float Skin} host w.
Arguments deliver {Float Skin} slot i w.
Arguments selectionModel_select {Float Skin} host slot i rows w.
Arguments selectInfluences_body {Float Skin} host slot i rows w.
Arguments matchSelection_body {Float Skin} host slot i w.
Arguments onSelectionChanged_body {Float Skin} host slot i w.
Arguments onSelectionChanged {Float Skin} host fuel i w.
Arguments selectInfluences {Float Skin} host fuel i rows w.
Arguments matchSelection {Float Skin} host fuel i w.
Arguments setAutoSelect {Float Skin} host fuel i autoSelect w.
Arguments userSelects {Float Skin} host fuel i rows w.
Arguments precisionChanged {Float Skin} host fuel precision w.
Arguments applyWeights {Float Skin} host updates w.
Arguments invalidateWeights {Float Skin} host w.
Arguments submitUpdates {Float Skin} host compute activeInfluence sourceInfluences amount w.
Arguments applyPreset {Float Skin} host amount w.
Arguments setWeights {Float Skin} host w.
Arguments incrementWeights {Float Skin} host pull w.
Arguments scaleWeights {Float Skin} host pull w.
Arguments runEdit {Float Skin} host e w.
Arguments runOperation {Float Skin} host fuel o w.
Arguments runSession {Float Skin} host fuel os w.
Arguments UserSelects {Float} i rows.
Arguments SelectInfluences {Float} i rows.
Arguments MatchSelection {Float} i.
Arguments SetAutoSelect {Float} i autoSelect.
Arguments SetVisible {Float} i args.
Arguments SetOverrides {Float} i args.
Arguments SetSelectedRows {Float} i rows.
Arguments PrecisionChanged {Float} precision.
Arguments SourceInfluences {Float}.
Arguments InvalidateWeights {Float}.
Arguments Edit {Float} e.
Arguments ApplyPreset {Float} amount.
Arguments SetWeights {Float}.
Arguments IncrementWeights {Float} pull.
Arguments ScaleWeights {Float} pull.

(** ** The pattern language as the specification words it

    A glob over whole strings, character by character: [*] stands for any
    run of characters, [?] for any single character, [[seq]] for one
    character that the class made of [seq] holds, an opening bracket that is
    never closed for itself, and every other character for itself, compared
    case-sensitively.  Where [seq] ends is read as [find_close] reads it, and
    what the class holds is the engine's reading of [seq]. *)
Inductive glob_match (rt : Runtime) : list N -> list N -> Prop :=
| glob_empty : glob_match rt [] []
| glob_star (p run s : list N) :
    glob_match rt p s -> glob_match rt (ch "*" :: p) (run ++ s)
| glob_question (p : list N) (c : N) (s : list N) :
    glob_match rt p s -> glob_match rt (ch "?" :: p) (c :: s)
| glob_class (p stuff rest : list N) (member : N -> bool) (c : N) (s : list N) :
    find_close p = Some (stuff, rest) -> compileClass rt stuff = Some member ->
    member c = true ->
    glob_match rt rest s -> glob_match rt (ch "[" :: p) (c :: s)
| glob_bracket (p s : list N) :
    find_close p = None ->
    glob_match rt p s -> glob_match rt (ch "[" :: p) (ch "[" :: s)
| glob_literal (p : list N) (c : N) (s : list N) :
    c <> ch "*" -> c <> ch "?" -> c <> ch "[" ->
    glob_match rt p s -> glob_match rt (c :: p) (c :: s).

(** The engine accepts every class of the pattern. *)
Definition patternCompiles (rt : Runtime) (pat : list N) : bool :=
  compiles rt (translate (length pat) pat).

(** A pattern without an opening bracket has no character class. *)
Definition bracket_free (pat : list N) : bool :=
  forallb (fun c => negb (c =? ch "[")%N) pat.

(** ** Reading the calls made *)

(** The batches handed to [applyWeights]. *)
Definition appliedUpdates {Float : Type} (evs : list (event Float))
  : list (gmap Z (gmap Z Float)) :=
  omap (fun ev => match ev with
                  | EvSkinApplyWeights updates => Some updates
                  | _ => None
                  end) evs.

(** The calls of [selectInfluences] that [matchSelection] made on a sibling. *)
Definition siblingSelects {Float : Type} (evs : list (event Float))
  : list (ModelId * list pyval) :=
  omap (fun ev => match ev with
                  | EvSiblingSelect target rows => Some (target, rows)
                  | _ => None
                  end) evs.

Definition ModelId_eqb (i j : ModelId) : bool :=
  match i, j with
  | Influence, Influence | Weight, Weight => true
  | _, _ => false
  end.

(** The calls made on the selection model and the widget of one view. *)
Definition viewCalls {Float : Type} (i : ModelId) (evs : list (event Float))
  : list (event Float) :=
  List.filter (fun ev => match ev with
                         | EvSelect j _ | EvScrollTo j _ | EvScrollToTop j
                         | EvSetSelectionMode j _ => ModelId_eqb i j
                         | _ => false
                         end) evs.

(** The flag as the marks of the selection matching move it: a matching may
    only begin while none is under way.  [None] when two matchings overlap. *)
Fixpoint replayPending {Float : Type} (pending : bool) (evs : list (event Float))
  : option bool :=
  match evs with
  | [] => Some pending
  | EvBeginSelectionUpdate :: evs' =>
      if pending then None else replayPending true evs'
  | EvEndSelectionUpdate :: evs' => replayPending false evs'
  | _ :: evs' => replayPending pending evs'
  end.

(** The skin function and the amount of each of the four edits. *)
Definition editFunction {Float Skin : Type} (host : Host Float Skin) (e : edit Float)
  : Skin -> gmap Z Float -> pyval -> list pyval -> Float -> Float -> answer (gmap Z Float) :=
  match e with
  | ApplyPreset _ | SetWeights => skin_setWeights host
  | IncrementWeights _ => skin_incrementWeights host
  | ScaleWeights _ => skin_scaleWeights host
  end.

Definition editAmount {Float Skin : Type} (host : Host Float Skin) (e : edit Float)
    (w : World Float Skin) : Float :=
  match e with
  | ApplyPreset amount => amount
  | SetWeights => setterSpinBox w
  | IncrementWeights pull =>
      if pull then fneg host (incrementSpinBox w) else incrementSpinBox w
  | ScaleWeights pull =>
      if pull then fneg host (scaleSpinBox w) else scaleSpinBox w
  end.

(** ** What the proofs keep track of *)

(** The part of the state the verdict of a row depends on. *)
Definition agree_on (rows : list Z) (m0 m : FilterModel) : Prop :=
  labels m = labels m0 /\ _visible m = _visible m0 /\
  _selectedRows m = _selectedRows m0 /\
  forall r, In r rows -> py_in (PyInt r) (_overrides m) = py_in (PyInt r) (_overrides m0).

(** An override is used up by a pass when the row has a label and neither
    the visible rows nor the selected rows already show it. *)
Definition consumed (m : FilterModel) (row : Z) : bool :=
  negb (isItemNull m row) &&
  negb (py_in (PyInt row) (_visible m) || py_in (PyInt row) (_selectedRows m)) &&
  py_in (PyInt row) (_overrides m).

Section Invariants.

Context {Float Skin : Type}.

(** What every computation of the window obeys: the marks it leaves move the
    flag from its value before to its value after, the unfolding of the slot
    recursion is not exhausted, and under a pending matching the flag stays
    set and no sibling is asked to select.  With [p] the computation is only
    looked at under a pending matching. *)
Definition good {A : Type} (p : bool) (c : M Float Skin A) : Prop :=
  forall w, (p = true -> __pending__ w = true) ->
    replayPending (__pending__ w) (events (c w)) = Some (__pending__ (world (c w))) /\
    out (c w) <> Raise OutOfFuel /\
    (__pending__ w = true ->
       __pending__ (world (c w)) = true /\ siblingSelects (events (c w)) = []).

(** Events that are neither a mark of the matching nor a sibling call. *)
Definition neutral (ev : event Float) : bool :=
  match ev with
  | EvBeginSelectionUpdate | EvEndSelectionUpdate | EvSiblingSelect _ _ => false
  | _ => true
  end.

(** Under a pending matching the computation returns a value and the
    matching stays pending. *)
Definition returns {A : Type} (c : M Float Skin A) : Prop :=
  forall w, __pending__ w = true ->
    (exists a, out (c w) = Ok a) /\ __pending__ (world (c w)) = true.

(** A computation leaves the views in [V] alone: no call on them, their
    selection as it was; and a pending matching stays pending. *)
Definition calm {A : Type} (V : ModelId -> bool) (p : bool) (c : M Float Skin A) : Prop :=
  forall w, (p = true -> __pending__ w = true) ->
    (__pending__ w = true -> __pending__ (world (c w)) = true) /\
    forall j, V j = true ->
      viewCalls j (events (c w)) = [] /\
      viewSelection (filterModel j (world (c w))) = viewSelection (filterModel j w).

End Invariants.

(** * Further methods

    Counts, the search box, rows by name, and what the proofs about
    selections keep track of. *)

(** ** Counts and repeated passes *)

(** [numActiveInfluences] *)
Definition numActiveInfluences (m : FilterModel) : Z :=
  Z.of_nat (length (_activeInfluences m)).

(** [numInactiveInfluences] *)
Definition numInactiveInfluences (m : FilterModel) : Z :=
  Z.of_nat (length (_inactiveInfluences m)).

(** A pass in which the framework asks about the rows in the order [rows].
    Which order that is, is the framework's matter; [invalidateFilter] is
    the pass in row order. *)
Definition invalidateFilter_in (rows : list Z) (m : FilterModel) : FilterModel :=
  fst (filterRows rows (with_inactive [] (with_active [] m))).

(** Filtering [n] times in a row. *)
Fixpoint invalidateFilter_times (n : nat) (m : FilterModel) : FilterModel :=
  match n with
  | O => m
  | S k => invalidateFilter (invalidateFilter_times k m)
  end.

(** ** The search box *)

(** [searchChanged(search)]: the new value of [self._search]. *)
Definition searchChanged (search : string) : string :=
  ("*" ++ search ++ "*")%string.

(** [searchPressed()], with [search] the value of [self._search] (initially
    the empty string). *)
Definition searchPressed {Float Skin : Type} (rt : Runtime) (p : platform) (search : string)
  : M Float Skin unit :=
  bind get (fun w =>
  bind (liftOutcome (filterRowsByPattern rt p (PyStr search) (influenceFilterModel w)))
    (fun visible => onModel Influence (setVisible (map PyInt visible)))).

(** A text without wildcard characters. *)
Definition wildcard_free (s : list N) : bool :=
  forallb (fun c => negb (c =? ch "*")%N && negb (c =? ch "?")%N
                    && negb (c =? ch "[")%N) s.

(** The continuation bytes still awaited after [bytes]. *)
Fixpoint utf8_pending (need : nat) (bytes : list ascii) : nat :=
  match bytes with
  | [] => need
  | b :: rest =>
      let n := N_of_ascii b in
      match need with
      | O =>
          if (n <? 128)%N then utf8_pending 0 rest
          else if (n <? 224)%N then utf8_pending 1 rest
          else if (n <? 240)%N then utf8_pending 2 rest
          else utf8_pending 3 rest
      | S k => utf8_pending k rest
      end
  end.

(** The encoding of a string ends with a whole character, as that of every
    Python string does. *)
Definition utf8_whole (s : string) : bool :=
  Nat.eqb (utf8_pending 0 (list_ascii_of_string s)) 0.

(** ** Rows by name *)

(** The argument of [getRowsByText]: a list, tuple or set of strings, a
    single string, or anything else. *)
Inductive texts_arg : Type :=
| TextsSeq (texts : list string)
| TextsStr (text : string)
| TextsOther (value : pyval).

(** [sourceModel.findItems(text, column=0)]: the rows whose label is exactly
    [text], in row order. *)
Definition findItems (m : FilterModel) (text : string) : list Z :=
  List.filter (fun row => match itemText m row with
                          | Some s => String.eqb s text
                          | None => false
                          end) (sourceRows m).

(** [getRowsByText(texts)] *)
Definition getRowsByText (texts : texts_arg) (m : FilterModel) : list Z :=
  match texts with
  | TextsSeq l => flat_map (findItems m) l
  | TextsStr s => flat_map (findItems m) [s]
  | TextsOther _ => []
  end.

(** [[sourceModel.item(x, column).text() for x in rows]]; [None] when a row
    has no item, where [.text()] fails on Python's [None]. *)
Fixpoint itemTexts (m : FilterModel) (rows : list Z) : option (list string) :=
  match rows with
  | [] => Some []
  | row :: rest =>
      match itemText m row, itemTexts m rest with
      | Some s, Some ss => Some (s :: ss)
      | _, _ => None
      end
  end.

(** [getSelectedItems()] *)
Definition getSelectedItems (o : SetOrder) (m : FilterModel) : option (list string) :=
  itemTexts m (getSelectedRows o m).

(** ** Selections *)

(** The filter model that [selectInfluences] hands to the selection model:
    the hidden rows among the requested ones have been made overrides and the
    filter has run. *)
Definition revealHidden (rows : list pyval) (m : FilterModel) : FilterModel :=
  let hidden := List.filter (isRowHidden m) rows in
  if (0 <? length hidden)%nat then invalidateFilter (with_overrides hidden m) else m.

Section MoreInvariants.

Context {Float Skin : Type}.

(** A computation leaves the filter models in [V] as they are, and a pending
    matching stays pending. *)
Definition frame {A : Type} (V : ModelId -> bool) (p : bool) (c : M Float Skin A) : Prop :=
  forall w, (p = true -> __pending__ w = true) ->
    (__pending__ w = true -> __pending__ (world (c w)) = true) /\
    forall j, V j = true -> filterModel j (world (c w)) = filterModel j w.

End MoreInvariants.

(** The operations of a session that cannot put anything but row numbers in
    a cached selection: [setSelectedRows] does not check its argument. *)
Definition keepsRowsValid {Float : Type} (o : operation Float) : bool :=
  match o with
  | SetSelectedRows _ rows => forallb isinstance_int rows
  | _ => true
  end.

Section RowInvariants.

Context {Float Skin : Type}.

(** Both cached selections hold row numbers only. *)
Definition cachedRowsValid (w : World Float Skin) : bool :=
  forallb isinstance_int (_selectedRows (influenceFilterModel w)) &&
  forallb isinstance_int (_selectedRows (weightFilterModel w)).

(** A computation keeps the cached selections valid and gives the flag back
    as it found it. *)
Definition tidy {A : Type} (p : bool) (c : M Float Skin A) : Prop :=
  forall w, cachedRowsValid w = true -> (p = true -> __pending__ w = true) ->
    cachedRowsValid (world (c w)) = true /\
    __pending__ (world (c w)) = __pending__ w.

End RowInvariants.

(** * Example data *)

(** Five labelled rows: rows 0, 2 and 4 visible, row 2 selected. *)
Definition five_rows : FilterModel :=
  {| labels := ["root"; "spine"; "neck"; "head"; "arm"]%string;
     _visible := [PyInt 0; PyInt 2; PyInt 4];
     _selectedRows := [PyInt 2];
     _overrides := [];
     _autoSelect := true;
     _activeInfluences := [];
     _inactiveInfluences := [];
     viewSelection := [2] |}.

(** Three rows, the middle one without a label, which is both visible and
    overridden. *)
Definition null_row : FilterModel :=
  {| labels := ["L_Arm"; ""; "R_Arm"]%string;
     _visible := [PyInt 1];
     _selectedRows := [];
     _overrides := [PyInt 1; PyInt 2];
     _autoSelect := true;
     _activeInfluences := [];
     _inactiveInfluences := [];
     viewSelection := [] |}.

(** The labels of the pattern scenario. *)
Definition arms : FilterModel :=
  {| labels := ["L_Arm"; "Spine"; "R_Arm"]%string;
     _visible := [];
     _selectedRows := [];
     _overrides := [];
     _autoSelect := true;
     _activeInfluences := [];
     _inactiveInfluences := [];
     viewSelection := [] |}.

(** A Python whose [str.lower] leaves the characters outside ASCII alone and
    whose classes are a single range, rejected when it runs backwards, or a
    plain set of characters, complemented after a leading [!]. *)
Definition set_class (stuff : list N) : option (N -> bool) :=
  match stuff with
  | [] => None
  | [lo; dash; hi] =>
      if (dash =? ch "-")%N then
        if (hi <? lo)%N then None else Some (fun c => (lo <=? c)%N && (c <=? hi)%N)
      else Some (fun c => existsb (N.eqb c) stuff)
  | first :: rest =>
      if (first =? ch "!")%N then Some (fun c => negb (existsb (N.eqb c) rest))
      else Some (fun c => existsb (N.eqb c) stuff)
  end.

Definition demo_runtime : Runtime :=
  {| unicodeLower := fun s => s;
     unicodeLower_nonempty := fun s H => H;
     compileClass := set_class |}.

(** ** An example window

    Weights are integers, the skin is always valid, and its setter fails on a
    vertex that has no weights yet. *)

Definition demo_compute (_ : unit) (weights : gmap Z Z) (active : pyval)
    (sources : list pyval) (amount falloff : Z) : answer (gmap Z Z) :=
  if (size weights =? 0)%nat then Failed "vertex without weights"
  else Returned (<[default 0 (as_int active) := amount * falloff]> weights).

(** A view shows the requested rows that the last pass accepted, and its
    selection model emits when the selection changes. *)
Definition demo_viewSelect (m : FilterModel) (rows : list Z) : list Z :=
  List.filter (fun r => existsb (Z.eqb r) (_activeInfluences m)) rows.

Definition demo_viewEmits (old new : list Z) : bool :=
  negb (bool_decide (old = new)).

(** A Python whose sets give the rows back in the order of the selection. *)
Definition selection_order : SetOrder :=
  {| list_set := nodup Z.eq_dec;
     list_set_distinct := fun rows => Permutation_refl (nodup Z.eq_dec rows) |}.

(** A Python whose sets give the rows back in reverse. *)
Definition reversed_order : SetOrder :=
  {| list_set := fun rows => rev (nodup Z.eq_dec rows);
     list_set_distinct :=
       fun rows => Permutation_sym (Permutation_rev (nodup Z.eq_dec rows)) |}.

Definition demo_host : Host Z unit :=
  {| fneg := Z.opp;
     skin_isValid := fun _ => true;
     skin_softSelection := fun _ => [(10, 1); (11, 1); (12, 1)];
     skin_weights := fun _ _ => {[ 10 := {[ 0 := 1 ]}; 11 := {[ 0 := 1 ]}; 12 := {[ 1 := 1 ]} ]};
     skin_averageWeights := fun _ _ => {[ 0 := 1 ]};
     skin_setWeights := demo_compute;
     skin_incrementWeights := demo_compute;
     skin_scaleWeights := demo_compute;
     skin_applyWeights := fun s _ => Returned s;
     skin_selectInfluence := fun s _ => s;
     viewSelect := demo_viewSelect;
     viewEmits := demo_viewEmits;
     setOrder := selection_order |}.

(** The same host under the other Python. *)
Definition reversing_host : Host Z unit :=
  {| fneg := Z.opp;
     skin_isValid := fun _ => true;
     skin_softSelection := fun _ => [(10, 1); (11, 1); (12, 1)];
     skin_weights := fun _ _ => {[ 10 := {[ 0 := 1 ]}; 11 := {[ 0 := 1 ]}; 12 := {[ 1 := 1 ]} ]};
     skin_averageWeights := fun _ _ => {[ 0 := 1 ]};
     skin_setWeights := demo_compute;
     skin_incrementWeights := demo_compute;
     skin_scaleWeights := demo_compute;
     skin_applyWeights := fun s _ => Returned s;
     skin_selectInfluence := fun s _ => s;
     viewSelect := demo_viewSelect;
     viewEmits := demo_viewEmits;
     setOrder := reversed_order |}.

Definition four_rows (selected : list pyval) (active inactive : list Z) : FilterModel :=
  {| labels := ["root"; "spine"; "neck"; "head"]%string;
     _visible := [PyInt 0; PyInt 1; PyInt 2; PyInt 3];
     _selectedRows := selected;
     _overrides := [];
     _autoSelect := true;
     _activeInfluences := active;
     _inactiveInfluences := inactive;
     viewSelection := omap as_int selected |}.

Definition demo_window (influences weights : FilterModel) (precision : bool)
    (vertices : gmap Z (gmap Z Z)) : World Z unit :=
  {| influenceFilterModel := influences;
     weightFilterModel := weights;
     __pending__ := false;
     _precision := precision;
     _skin := tt;
     _softSelection := [(10, 1); (11, 1); (12, 1)];
     _vertices := vertices;
     _vertexWeights := ∅;
     setterSpinBox := 1;
     incrementSpinBox := 1;
     scaleSpinBox := 1 |}.

(** Single-select mode: rows 0 to 3 active in the weight list, row 1
    selected. *)
Definition single_select_window : World Z unit :=
  demo_window (four_rows [PyInt 1] [0; 1; 2; 3] [])
              (four_rows [PyInt 1] [0; 1; 2; 3] []) false
              {[ 10 := {[ 0 := 1 ]}; 11 := {[ 0 := 1 ]}; 12 := {[ 1 := 1 ]} ]}.

(** Precision mode: rows 0 and 1 selected in the weight list, row 1 the
    active influence. *)
Definition precision_window : World Z unit :=
  demo_window (four_rows [PyInt 1] [0; 1; 2; 3] [])
              (four_rows [PyInt 0; PyInt 1] [0; 1; 2; 3] []) true
              {[ 10 := {[ 0 := 1 ]}; 11 := {[ 0 := 1 ]}; 12 := {[ 1 := 1 ]} ]}.

(** Precision mode with the active influence as the only selected row of
    the weight list. *)
Definition precision_single_window : World Z unit :=
  demo_window (four_rows [PyInt 1] [0; 1; 2; 3] [])
              (four_rows [PyInt 1] [0; 1; 2; 3] []) true
              {[ 10 := {[ 0 := 1 ]}; 11 := {[ 0 := 1 ]}; 12 := {[ 1 := 1 ]} ]}.


(** Nothing is selected in the weight list. *)
Definition no_selection_window : World Z unit :=
  demo_window (four_rows [PyInt 1] [0; 1; 2; 3] [])
              (four_rows [] [0; 1; 2; 3] []) false ∅.

(** The weight list caches something that is not a row number. *)
Definition bad_rows_window : World Z unit :=
  demo_window (four_rows [PyInt 1] [0; 1; 2; 3] [])
              (four_rows [PyStr "spine"] [0; 1; 2; 3] []) false ∅.

(** No row of the weight list is active. *)
Definition hidden_rows_window : World Z unit :=
  demo_window (four_rows [PyInt 1] [0; 1; 2; 3] [])
              (four_rows [PyInt 1] [] [0; 1; 2; 3]) false ∅.

(** Three soft-selected vertices, the second of which has no weights. *)
Definition failing_window : World Z unit :=
  demo_window (four_rows [PyInt 1] [0; 1; 2; 3] [])
              (four_rows [PyInt 1] [0; 1; 2; 3] []) false
              {[ 10 := {[ 0 := 1 ]}; 11 := ∅; 12 := {[ 1 := 1 ]} ]}.

(** Precision mode as [precisionChanged] leaves it: auto-select is off in
    both lists. *)
Definition precision_mode_window : World Z unit :=
  demo_window (with_autoSelect false (four_rows [PyInt 1] [0; 1; 2; 3] []))
              (with_autoSelect false (four_rows [PyInt 0; PyInt 1] [0; 1; 2; 3] [])) true
              {[ 10 := {[ 0 := 1 ]}; 11 := {[ 0 := 1 ]}; 12 := {[ 1 := 1 ]} ]}.

(** Precision mode with different rows cached by the two lists. *)
Definition unmatched_window : World Z unit :=
  demo_window (with_autoSelect false (four_rows [PyInt 2] [0; 1; 2; 3] []))
              (with_autoSelect false (four_rows [PyInt 1] [0; 1; 2; 3] [])) true
              {[ 10 := {[ 0 := 1 ]}; 11 := {[ 0 := 1 ]}; 12 := {[ 1 := 1 ]} ]}.

(** A skin that refuses every batch of weights. *)
Definition refusing_host : Host Z unit :=
  {| fneg := Z.opp;
     skin_isValid := fun _ => true;
     skin_softSelection := fun _ => [(10, 1); (11, 1); (12, 1)];
     skin_weights := fun _ _ => {[ 10 := {[ 0 := 1 ]}; 11 := {[ 0 := 1 ]}; 12 := {[ 1 := 1 ]} ]};
     skin_averageWeights := fun _ _ => {[ 0 := 1 ]};
     skin_setWeights := demo_compute;
     skin_incrementWeights := demo_compute;
     skin_scaleWeights := demo_compute;
     skin_applyWeights := fun _ _ => Failed "locked";
     skin_selectInfluence := fun s _ => s;
     viewSelect := demo_viewSelect;
     viewEmits := demo_viewEmits;
     setOrder := selection_order |}.

(** A skin on which no vertex is selected. *)
Definition idle_host : Host Z unit :=
  {| fneg := Z.opp;
     skin_isValid := fun _ => true;
     skin_softSelection := fun _ => [];
     skin_weights := fun _ _ => ∅;
     skin_averageWeights := fun _ _ => ∅;
     skin_setWeights := demo_compute;
     skin_incrementWeights := demo_compute;
     skin_scaleWeights := demo_compute;
     skin_applyWeights := fun s _ => Returned s;
     skin_selectInfluence := fun s _ => s;
     viewSelect := demo_viewSelect;
     viewEmits := demo_viewEmits;
     setOrder := selection_order |}.

(** * Properties *)

(** ** Python equality and list operations *)

Lemma py_eq_sym (x y : pyval) : py_eq x y = py_eq y x.
Proof.
  destruct x as [a|[]|s|], y as [b|[]|t|]; simpl; try reflexivity;
    try apply Z.eqb_sym.
  apply String.eqb_sym.
Qed.

Lemma py_eq_int (a b : Z) : py_eq (PyInt a) (PyInt b) = (a =? b).
Proof. reflexivity. Qed.

(** A value equals at most one row number. *)
Lemma py_eq_int_functional (x : pyval) (a b : Z) :
  py_eq x (PyInt a) = true -> py_eq x (PyInt b) = true -> a = b.
Proof.
  unfold py_eq. destruct (as_int x) as [z|] eqn:E; simpl.
  - intros Ha Hb. apply Z.eqb_eq in Ha, Hb. congruence.
  - destruct x; discriminate.
Qed.

Lemma py_in_remove_other (a b : Z) (l : list pyval) :
  a <> b -> py_in (PyInt a) (py_remove (PyInt b) l) = py_in (PyInt a) l.
Proof.
  intros Hab. unfold py_in.
  induction l as [|y l IH]; cbn [py_remove existsb]; [reflexivity|].
  destruct (py_eq y (PyInt b)) eqn:Eb; cbn [existsb].
  - destruct (py_eq (PyInt a) y) eqn:Ea; [|reflexivity].
    rewrite py_eq_sym in Ea.
    exfalso. apply Hab. exact (py_eq_int_functional y a b Ea Eb).
  - rewrite IH. reflexivity.
Qed.

Lemma py_count_remove_other (a b : Z) (l : list pyval) :
  a <> b -> py_count (PyInt a) (py_remove (PyInt b) l) = py_count (PyInt a) l.
Proof.
  intros Hab. induction l as [|y l IH]; simpl; [reflexivity|].
  destruct (py_eq y (PyInt b)) eqn:Eb; simpl.
  - destruct (py_eq y (PyInt a)) eqn:Ea; [|reflexivity].
    exfalso. apply Hab. exact (py_eq_int_functional y a b Ea Eb).
  - rewrite IH. reflexivity.
Qed.

Lemma py_count_remove_same (x : pyval) (l : list pyval) :
  py_in x l = true -> S (py_count x (py_remove x l)) = py_count x l.
Proof.
  induction l as [|y l IH]; simpl; [discriminate|].
  rewrite (py_eq_sym x y).
  destruct (py_eq y x) eqn:E; simpl; rewrite ?E; [reflexivity|].
  intros H. apply IH in H. simpl. lia.
Qed.

Lemma py_count_zero_not_in (x : pyval) (l : list pyval) :
  py_count x l = O <-> py_in x l = false.
Proof.
  induction l as [|y l IH]; simpl; [tauto|].
  rewrite (py_eq_sym x y).
  destruct (py_eq y x); simpl; [split; [lia|discriminate]|exact IH].
Qed.

Lemma py_remove_absent (x : pyval) (l : list pyval) :
  py_in x l = false -> py_remove x l = l.
Proof.
  induction l as [|y l IH]; simpl; [reflexivity|].
  rewrite (py_eq_sym x y).
  destruct (py_eq y x); simpl; [discriminate|].
  intros H. rewrite IH by exact H. reflexivity.
Qed.

(** ** One filter pass *)


Lemma accepts_agree (rows : list Z) (m0 m : FilterModel) (r : Z) :
  agree_on rows m0 m -> In r rows -> accepts m r = accepts m0 r.
Proof.
  intros (Hl & Hv & Hs & Ho) Hr. unfold accepts, isItemNull, itemText.
  rewrite Hl, Hv, Hs, (Ho r Hr). reflexivity.
Qed.

Lemma filterAcceptsRow_verdict (row : Z) (m : FilterModel) :
  snd (filterAcceptsRow row m) = accepts m row.
Proof.
  unfold filterAcceptsRow, accepts.
  destruct (isItemNull m row); simpl; [reflexivity|].
  destruct (py_in (PyInt row) (_visible m) || py_in (PyInt row) (_selectedRows m));
    simpl; [reflexivity|].
  destruct (py_in (PyInt row) (_overrides m)); reflexivity.
Qed.

Lemma filterAcceptsRow_lists (row : Z) (m : FilterModel) :
  let m' := fst (filterAcceptsRow row m) in
  _activeInfluences m' = _activeInfluences m ++ (if accepts m row then [row] else []) /\
  _inactiveInfluences m' = _inactiveInfluences m ++ (if accepts m row then [] else [row]) /\
  _autoSelect m' = _autoSelect m /\ viewSelection m' = viewSelection m.
Proof.
  unfold filterAcceptsRow, accepts.
  destruct (isItemNull m row); simpl; [rewrite app_nil_r; tauto|].
  destruct (py_in (PyInt row) (_visible m) || py_in (PyInt row) (_selectedRows m));
    simpl; [rewrite app_nil_r; tauto|].
  destruct (py_in (PyInt row) (_overrides m)); simpl; rewrite app_nil_r; tauto.
Qed.

Lemma filterAcceptsRow_agree (row : Z) (rest : list Z) (m0 m : FilterModel) :
  ~ In row rest -> agree_on (row :: rest) m0 m ->
  agree_on rest m0 (fst (filterAcceptsRow row m)).
Proof.
  intros Hn (Hl & Hv & Hs & Ho).
  assert (Hrest : forall r, In r rest ->
            py_in (PyInt r) (_overrides m) = py_in (PyInt r) (_overrides m0))
    by (intros r Hr; apply Ho; right; exact Hr).
  unfold filterAcceptsRow.
  destruct (isItemNull m row); simpl; [repeat split; assumption|].
  destruct (py_in (PyInt row) (_visible m) || py_in (PyInt row) (_selectedRows m));
    simpl; [repeat split; assumption|].
  destruct (py_in (PyInt row) (_overrides m)); simpl; [|repeat split; assumption].
  repeat split; try assumption.
  intros r Hr. rewrite <- (Hrest r Hr).
  apply py_in_remove_other. intros ->. contradiction.
Qed.

(** A pass over distinct rows decides every row on the state the pass
    started from, and appends the rows to the two lists in the order they
    are visited. *)
Lemma filterRows_spec (rows : list Z) :
  forall m0 m, List.NoDup rows -> agree_on rows m0 m ->
  snd (filterRows rows m) = map (fun r => (r, accepts m0 r)) rows /\
  _activeInfluences (fst (filterRows rows m))
    = _activeInfluences m ++ List.filter (accepts m0) rows /\
  _inactiveInfluences (fst (filterRows rows m))
    = _inactiveInfluences m ++ List.filter (fun r => negb (accepts m0 r)) rows /\
  labels (fst (filterRows rows m)) = labels m0 /\
  _visible (fst (filterRows rows m)) = _visible m0 /\
  _selectedRows (fst (filterRows rows m)) = _selectedRows m0 /\
  _autoSelect (fst (filterRows rows m)) = _autoSelect m /\
  viewSelection (fst (filterRows rows m)) = viewSelection m.
Proof.
  induction rows as [|row rest IH]; intros m0 m Hnd Hag.
  - simpl. rewrite !app_nil_r. destruct Hag as (Hl & Hv & Hs & _). tauto.
  - inversion Hnd as [|? ? Hnot Hnd']; subst.
    pose proof (filterAcceptsRow_verdict row m) as Hverdict.
    pose proof (filterAcceptsRow_lists row m) as (Ha & Hi & Hau & Hvs).
    pose proof (filterAcceptsRow_agree row rest m0 m Hnot Hag) as Hag'.
    rewrite (accepts_agree (row :: rest) m0 m row Hag (or_introl eq_refl)) in Hverdict, Ha, Hi.
    simpl. destruct (filterAcceptsRow row m) as [m1 b]. simpl in *.
    specialize (IH m0 m1 Hnd' Hag').
    destruct (filterRows rest m1) as [m2 bs]. simpl in *.
    destruct IH as (IHv & IHa & IHi & IHl & IHvis & IHs & IHau & IHvs).
    subst b. rewrite IHv, IHa, IHi, Ha, Hi, IHau, IHvs, Hau, Hvs.
    repeat split; try assumption.
    + destruct (accepts m0 row); simpl; rewrite <- app_assoc; reflexivity.
    + destruct (accepts m0 row); simpl; rewrite <- app_assoc; reflexivity.
Qed.

Lemma sourceRows_NoDup (m : FilterModel) : List.NoDup (sourceRows m).
Proof.
  unfold sourceRows. apply Finite.Injective_map_NoDup.
  - intros a b H. lia.
  - apply List.seq_NoDup.
Qed.

Lemma agree_on_reset (rows : list Z) (m : FilterModel) :
  agree_on rows m (with_inactive [] (with_active [] m)).
Proof. repeat split. Qed.


Lemma consumed_agree (rows : list Z) (m0 m : FilterModel) (r : Z) :
  agree_on rows m0 m -> In r rows -> consumed m r = consumed m0 r.
Proof.
  intros (Hl & Hv & Hs & Ho) Hr. unfold consumed, isItemNull, itemText.
  rewrite Hl, Hv, Hs, (Ho r Hr). reflexivity.
Qed.

Lemma filterAcceptsRow_overrides (row : Z) (m : FilterModel) :
  _overrides (fst (filterAcceptsRow row m))
  = if consumed m row then py_remove (PyInt row) (_overrides m) else _overrides m.
Proof.
  unfold filterAcceptsRow, consumed.
  destruct (isItemNull m row); simpl; [reflexivity|].
  destruct (py_in (PyInt row) (_visible m) || py_in (PyInt row) (_selectedRows m));
    simpl; [reflexivity|].
  destruct (py_in (PyInt row) (_overrides m)); reflexivity.
Qed.

Lemma consumed_in_overrides (m : FilterModel) (row : Z) :
  consumed m row = true -> py_in (PyInt row) (_overrides m) = true.
Proof. unfold consumed. intros H. apply andb_true_iff in H. tauto. Qed.

Lemma existsb_eqb_In (r : Z) (rows : list Z) :
  existsb (Z.eqb r) rows = true <-> In r rows.
Proof.
  rewrite existsb_exists. split.
  - intros (x & Hx & E). apply Z.eqb_eq in E. subst. exact Hx.
  - intros H. exists r. split; [exact H|apply Z.eqb_refl].
Qed.

Lemma filterRows_overrides (rows : list Z) :
  forall m0 m, List.NoDup rows -> agree_on rows m0 m -> forall r,
  py_count (PyInt r) (_overrides (fst (filterRows rows m)))
  = (py_count (PyInt r) (_overrides m)
     - (if existsb (Z.eqb r) rows && consumed m0 r then 1 else 0))%nat.
Proof.
  induction rows as [|row rest IH]; intros m0 m Hnd Hag r.
  - simpl. lia.
  - inversion Hnd as [|? ? Hnot Hnd']; subst.
    pose proof (filterAcceptsRow_overrides row m) as Ho.
    pose proof (filterAcceptsRow_agree row rest m0 m Hnot Hag) as Hag'.
    pose proof (consumed_in_overrides m row) as Hin.
    rewrite (consumed_agree (row :: rest) m0 m row Hag (or_introl eq_refl)) in Ho, Hin.
    simpl. destruct (filterAcceptsRow row m) as [m1 b]. simpl in Ho, Hag'.
    specialize (IH m0 m1 Hnd' Hag' r).
    destruct (filterRows rest m1) as [m2 bs]. simpl in *.
    rewrite IH, Ho. clear IH Ho.
    destruct (Z.eqb_spec r row) as [->|Hne]; simpl.
    + assert (E : existsb (Z.eqb row) rest = false).
      { destruct (existsb (Z.eqb row) rest) eqn:E; [|reflexivity].
        apply existsb_eqb_In in E. contradiction. }
      rewrite E. simpl.
      destruct (consumed m0 row); [|lia].
      pose proof (py_count_remove_same (PyInt row) (_overrides m) (Hin eq_refl)). lia.
    + destruct (consumed m0 row); [|reflexivity].
      rewrite py_count_remove_other by exact Hne. reflexivity.
Qed.

Lemma itemText_sourceRows (m : FilterModel) (row : Z) :
  isItemNull m row = false -> In row (sourceRows m).
Proof.
  unfold isItemNull, itemText, sourceRows.
  destruct (Z.leb_spec 0 row) as [Hle|]; [|discriminate].
  destruct (nth_error (labels m) (Z.to_nat row)) eqn:E; [|discriminate].
  intros _. apply in_map_iff. exists (Z.to_nat row). split; [lia|].
  apply in_seq. split; [lia|]. simpl.
  apply nth_error_Some. congruence.
Qed.

(** ** The pass, the overrides and the setters *)

(** C1. In one full filter pass every source row is accepted if and only if
    its label is not empty and the row is among the visible rows, the
    selected rows or the overrides; the accepted rows make up
    [_activeInfluences] and the rejected rows, with every row without a label
    among them whatever the visible rows and the overrides are, make up
    [_inactiveInfluences], each in the order of the pass. *)
Theorem filter_pass_accepts_iff (m : FilterModel) :
  snd (invalidateFilter_verdicts m) = map (fun r => (r, accepts m r)) (sourceRows m) /\
  _activeInfluences (invalidateFilter m) = List.filter (accepts m) (sourceRows m) /\
  _inactiveInfluences (invalidateFilter m)
    = List.filter (fun r => negb (accepts m r)) (sourceRows m) /\
  forall row, In row (sourceRows m) ->
    (In row (_activeInfluences (invalidateFilter m)) <-> accepts m row = true) /\
    (In row (_inactiveInfluences (invalidateFilter m)) <-> accepts m row = false) /\
    (isItemNull m row = true ->
       In row (_inactiveInfluences (invalidateFilter m)) /\
       ~ In row (_activeInfluences (invalidateFilter m))).
Proof.
  unfold invalidateFilter, invalidateFilter_verdicts.
  set (m0 := with_inactive [] (with_active [] m)).
  assert (Hacc : forall r, accepts m0 r = accepts m r) by reflexivity.
  assert (Hrows : sourceRows m0 = sourceRows m) by reflexivity.
  destruct (filterRows_spec (sourceRows m) m m0 (sourceRows_NoDup m)
              (agree_on_reset (sourceRows m) m)) as (Hv & Ha & Hi & _).
  simpl in Ha, Hi.
  split; [exact Hv|]. split; [exact Ha|]. split; [exact Hi|].
  intros row Hrow. rewrite Ha, Hi.
  assert (Hact : In row (List.filter (accepts m) (sourceRows m)) <-> accepts m row = true).
  { rewrite filter_In. tauto. }
  assert (Hina : In row (List.filter (fun r => negb (accepts m r)) (sourceRows m))
                 <-> accepts m row = false).
  { rewrite filter_In, negb_true_iff. tauto. }
  split; [exact Hact|]. split; [exact Hina|].
  intros Hnull.
  assert (E : accepts m row = false) by (unfold accepts; rewrite Hnull; reflexivity).
  split; [apply Hina; exact E|].
  intros H. apply Hact in H. congruence.
Qed.

(** C2, as amended.  A pass removes one occurrence of row [r] from the
    overrides exactly when [r] has a label, is in the overrides and is in
    neither the visible rows nor the selected rows; every other override
    stays.  With rows 0, 2, 4 visible, row 2 selected and row 4 overridden the
    pass yields the active rows 0, 2, 4 in row order and row 4 is still
    overridden afterwards. *)
Theorem override_consumed_when_hidden (m : FilterModel) (r : Z) :
  py_count (PyInt r) (_overrides (invalidateFilter m))
  = (py_count (PyInt r) (_overrides m) - (if consumed m r then 1 else 0))%nat /\
  (consumed m r = true -> py_count (PyInt r) (_overrides m) = 1%nat ->
     py_in (PyInt r) (_overrides (invalidateFilter m)) = false) /\
  (consumed m r = false ->
     py_in (PyInt r) (_overrides (invalidateFilter m)) = py_in (PyInt r) (_overrides m)) /\
  setOverrides [PyInt 4] five_rows
  = Ok (with_inactive [1; 3] (with_active [0; 2; 4] (with_overrides [PyInt 4] five_rows))).
Proof.
  assert (Hcount :
    py_count (PyInt r) (_overrides (invalidateFilter m))
    = (py_count (PyInt r) (_overrides m) - (if consumed m r then 1 else 0))%nat).
  { unfold invalidateFilter, invalidateFilter_verdicts.
    rewrite (filterRows_overrides (sourceRows m) m _ (sourceRows_NoDup m)
               (agree_on_reset (sourceRows m) m) r).
    simpl. destruct (consumed m r) eqn:Ec; [|rewrite andb_false_r; reflexivity].
    assert (Hin : existsb (Z.eqb r) (sourceRows m) = true).
    { apply existsb_eqb_In, itemText_sourceRows.
      unfold consumed in Ec. destruct (isItemNull m r); [discriminate|reflexivity]. }
    rewrite Hin. reflexivity. }
  split; [exact Hcount|]. split; [|split; [|reflexivity]].
  - intros Hc H1. apply py_count_zero_not_in. rewrite Hcount, Hc, H1. reflexivity.
  - intros Hc. rewrite Hc in Hcount.
    destruct (py_in (PyInt r) (_overrides m)) eqn:E.
    + destruct (py_in (PyInt r) (_overrides (invalidateFilter m))) eqn:E'; [reflexivity|].
      apply py_count_zero_not_in in E'.
      assert (py_count (PyInt r) (_overrides m) = O) by lia.
      apply py_count_zero_not_in in H. congruence.
    + apply py_count_zero_not_in. apply py_count_zero_not_in in E. lia.
Qed.

Lemma invalidateFilter_visible (m : FilterModel) :
  _visible (invalidateFilter m) = _visible m.
Proof.
  unfold invalidateFilter, invalidateFilter_verdicts.
  destruct (filterRows_spec (sourceRows m) m _ (sourceRows_NoDup m)
              (agree_on_reset (sourceRows m) m)) as (_ & _ & _ & _ & Hv & _).
  exact Hv.
Qed.

(** C10. [setVisible] and [setOverrides] accept Python booleans: when every
    argument is a [bool] or an [int] the call does not raise, the arguments
    are stored as they are given and the filter is invalidated. *)
Theorem setters_accept_bools (args : list pyval) (m : FilterModel) :
  Forall (fun x => (exists b, x = PyBool b) \/ (exists z, x = PyInt z)) args ->
  setVisible args m = Ok (invalidateFilter (with_visible args m)) /\
  _visible (invalidateFilter (with_visible args m)) = args /\
  setOverrides args m = Ok (invalidateFilter (with_overrides args m)).
Proof.
  intros Hall.
  assert (E : forallb isinstance_int args = true).
  { apply forallb_forall. intros x Hx.
    rewrite List.Forall_forall in Hall. destruct (Hall x Hx) as [[b ->]|[z ->]]; reflexivity. }
  unfold setVisible, setOverrides. rewrite E. simpl.
  rewrite invalidateFilter_visible. auto.
Qed.

(** ** Pattern matching *)

Ltac ch_norm :=
  change (ch "*") with 42%N in *; change (ch "?") with 63%N in *;
  change (ch "[") with 91%N in *;
  repeat match goal with
         | H : ?x <> _ |- _ => lazymatch x with
                               | N.add _ _ => vm_compute in H
                               end
         end.

Section FnmatchFacts.

Variable rt : Runtime.

Lemma scan_close_shorter (cs : list N) :
  forall s r, scan_close cs = Some (s, r) -> (length r < length cs)%nat.
Proof.
  induction cs as [|c cs IH]; intros s r H; cbn [scan_close] in H; [discriminate|].
  destruct (c =? ch "]")%N.
  - injection H as <- <-. cbn. lia.
  - destruct (scan_close cs) as [[s' r']|]; [|discriminate].
    injection H as <- <-. specialize (IH s' r' eq_refl). cbn. lia.
Qed.

Lemma find_close_shorter (cs s r : list N) :
  find_close cs = Some (s, r) -> (length r < length cs)%nat.
Proof.
  unfold find_close. intros H.
  assert (Hscan : forall cs2 pre, (length cs2 <= length cs)%nat ->
            match scan_close cs2 with
            | Some (s', r') => Some (pre ++ s', r')
            | None => None
            end = Some (s, r) -> (length r < length cs)%nat).
  { intros cs2 pre Hle E. destruct (scan_close cs2) as [[s' r']|] eqn:Es; [|discriminate].
    injection E as _ <-. apply scan_close_shorter in Es. lia. }
  destruct cs as [|c t]; [discriminate|].
  destruct (c =? ch "!")%N.
  - destruct t as [|d t'].
    + discriminate.
    + destruct (d =? ch "]")%N.
      * apply (Hscan t' ([c] ++ [d])); [cbn; lia|].
        rewrite <- H. destruct (scan_close t') as [[s' r']|]; [|reflexivity].
        rewrite <- app_assoc. reflexivity.
      * apply (Hscan (d :: t') ([c] ++ [])); [cbn; lia|].
        rewrite <- H. destruct (scan_close (d :: t')) as [[s' r']|]; reflexivity.
  - destruct (c =? ch "]")%N.
    + apply (Hscan t ([] ++ [c])); [cbn; lia|].
      rewrite <- H. destruct (scan_close t) as [[s' r']|]; reflexivity.
    + apply (Hscan (c :: t) []); [cbn; lia|].
      rewrite <- H. destruct (scan_close (c :: t)) as [[s' r']|]; reflexivity.
Qed.

Lemma re_match_star (ts : list token) (s : list N) :
  re_match rt (TStar :: ts) s
  = re_match rt ts s ||
    match s with
    | [] => false
    | _ :: s' => re_match rt (TStar :: ts) s'
    end.
Proof. destruct s; reflexivity. Qed.

Lemma re_match_star_split (ts : list token) (s : list N) :
  re_match rt (TStar :: ts) s = true <->
  exists run s', s = run ++ s' /\ re_match rt ts s' = true.
Proof.
  induction s as [|c s IH]; rewrite re_match_star.
  - rewrite orb_false_r. split.
    + intros H. exists [], []. auto.
    + intros (run & s' & E & H). symmetry in E. apply app_eq_nil in E.
      destruct E as [_ ->]. exact H.
  - rewrite orb_true_iff, IH. split.
    + intros [H|(run & s' & -> & H)].
      * exists [], (c :: s). auto.
      * exists (c :: run), s'. auto.
    + intros (run & s' & E & H). destruct run as [|d run]; simpl in E.
      * left. subst s'. exact H.
      * right. injection E as -> ->. exists run, s'. auto.
Qed.

(** The compiled pattern matches what the glob of the specification
    matches. *)
Lemma re_match_glob (fuel : nat) :
  forall pat, (length pat <= fuel)%nat ->
  forall s, re_match rt (translate fuel pat) s = true <-> glob_match rt pat s.
Proof.
  induction fuel as [|fuel IH]; intros pat Hlen s.
  { destruct pat; [|cbn in Hlen; lia]. cbn. split.
    - destruct s; [constructor|discriminate].
    - intros H. inversion H. reflexivity. }
  destruct pat as [|c pat].
  { cbn. split.
    - destruct s; [constructor|discriminate].
    - intros H. inversion H. reflexivity. }
  cbn [length] in Hlen. cbn [translate].
  ch_norm.
  destruct (N.eqb_spec c 42) as [->|Hstar].
  { rewrite re_match_star_split. split.
    - intros (run & s' & -> & H). apply (glob_star rt), IH; [lia|exact H].
    - intros H. inversion H; subst; ch_norm; try congruence.
      eexists _, _. split; [reflexivity|]. apply IH; [lia|assumption]. }
  destruct (N.eqb_spec c 63) as [->|Hq].
  { cbn [re_match]. destruct s as [|d s].
    - split; [discriminate|]. intros H. inversion H.
    - rewrite IH by lia. split.
      + apply (glob_question rt).
      + intros H. inversion H; subst; ch_norm; try congruence. }
  destruct (N.eqb_spec c 91) as [->|Hb].
  { destruct (find_close pat) as [[stuff rest]|] eqn:Hclose.
    - pose proof (find_close_shorter _ _ _ Hclose) as Hshort.
      cbn [re_match]. destruct s as [|d s].
      + split; [discriminate|]. intros H. inversion H.
      + rewrite andb_true_iff, IH by lia. split.
        * intros [Hm H]. destruct (compileClass rt stuff) as [member|] eqn:Hc; [|discriminate].
          apply (glob_class rt pat stuff rest member); assumption.
        * intros H. inversion H; subst; ch_norm; try congruence.
          match goal with
          | H1 : find_close pat = Some _, H2 : compileClass rt _ = Some _ |- _ =>
              rewrite Hclose in H1; injection H1 as <- <-; rewrite H2
          end.
          split; assumption.
    - cbn [re_match]. destruct s as [|d s].
      + split; [discriminate|]. intros H. inversion H.
      + rewrite andb_true_iff, IH by lia. split.
        * intros [E H]. apply N.eqb_eq in E. subst d. apply (glob_bracket rt); assumption.
        * intros H. inversion H; subst; ch_norm; try congruence.
          split; [apply N.eqb_refl|assumption]. }
  cbn [re_match]. destruct s as [|d s].
  - split; [discriminate|]. intros H. inversion H; subst; ch_norm; congruence.
  - rewrite andb_true_iff, IH by lia. split.
    + intros [E H]. apply N.eqb_eq in E. subst d. apply (glob_literal rt); assumption.
    + intros H. inversion H; subst; ch_norm; try congruence.
      split; [apply N.eqb_refl|assumption].
Qed.

(** [fnmatchcase] is the glob of the specification whenever the pattern
    compiles, and fails otherwise. *)
Lemma fnmatchcase_glob (name pat : list N) :
  (patternCompiles rt pat = true ->
   exists b, fnmatchcase rt name pat = Some b /\ (b = true <-> glob_match rt pat name)) /\
  (patternCompiles rt pat = false -> fnmatchcase rt name pat = None).
Proof.
  unfold fnmatchcase, patternCompiles. cbn zeta. split; intros ->; [|reflexivity].
  eexists. split; [reflexivity|]. apply re_match_glob. lia.
Qed.

Lemma translate_bracket_free (pat : list N) :
  forall fuel, bracket_free pat = true -> compiles rt (translate fuel pat) = true.
Proof.
  induction pat as [|c pat IH]; intros [|fuel] Hbf; try reflexivity.
  cbn [bracket_free forallb] in Hbf. apply andb_true_iff in Hbf. destruct Hbf as [Hc Hbf].
  cbn [translate].
  destruct (c =? ch "*")%N; [apply (IH fuel Hbf)|].
  destruct (c =? ch "?")%N; [apply (IH fuel Hbf)|].
  destruct (c =? ch "[")%N; [discriminate|]. apply (IH fuel Hbf).
Qed.

Lemma bracket_free_compiles (pat : list N) :
  bracket_free pat = true -> patternCompiles rt pat = true.
Proof. intros H. apply translate_bracket_free, H. Qed.

End FnmatchFacts.

Lemma combine_rows_In (ls : list string) :
  forall (a : nat) (r : Z) (l : string),
  In (r, l) (combine (map Z.of_nat (seq a (length ls))) ls) <->
  (0 <= r /\ (a <= Z.to_nat r)%nat /\ nth_error ls (Z.to_nat r - a) = Some l).
Proof.
  induction ls as [|x ls IH]; intros a r l.
  - simpl. split; [tauto|]. intros (_ & _ & H). destruct (Z.to_nat r - a)%nat; discriminate.
  - simpl. rewrite IH. split.
    + intros [E|(H0 & Ha & Hn)].
      * injection E as <- <-. rewrite Nat2Z.id, Nat.sub_diag. simpl.
        repeat split; lia.
      * repeat split; try lia.
        replace (Z.to_nat r - a)%nat with (S (Z.to_nat r - S a)) by lia. exact Hn.
    + intros (H0 & Ha & Hn).
      destruct (Nat.eq_dec a (Z.to_nat r)) as [E|Hne].
      * left. subst a. rewrite Nat.sub_diag in Hn. simpl in Hn.
        injection Hn as ->. f_equal. lia.
      * right. repeat split; try lia.
        replace (Z.to_nat r - a)%nat with (S (Z.to_nat r - S a)) in Hn by lia. exact Hn.
Qed.

Lemma filtered_rows_sorted (f : string -> bool) (ls : list string) :
  forall a : nat,
  StronglySorted Z.lt
    (map fst (List.filter (fun ri : Z * string => f (snd ri))
                (combine (map Z.of_nat (seq a (length ls))) ls))).
Proof.
  induction ls as [|x ls IH]; intros a; simpl; [constructor|].
  destruct (f x); simpl; [|apply IH].
  constructor; [apply IH|].
  apply List.Forall_forall. intros r Hr.
  apply in_map_iff in Hr. destruct Hr as ([r' l] & <- & Hr).
  apply filter_In in Hr. destruct Hr as [Hr _].
  apply combine_rows_In in Hr. simpl. lia.
Qed.

(** The comprehension over a test that never raises is a filter; over a test
    that always raises it raises at the first row. *)
Lemma matching_rows_total (test : string -> option bool) (f : string -> bool)
    (items : list (Z * string)) :
  (forall item, test item = Some (f item)) ->
  matching_rows test items = Ok (map fst (List.filter (fun ri => f (snd ri)) items)).
Proof.
  intros Ht. induction items as [|[row item] items IH]; [reflexivity|].
  cbn [matching_rows List.filter snd]. rewrite Ht, IH.
  destruct (f item); reflexivity.
Qed.

Lemma matching_rows_raises (test : string -> option bool) (items : list (Z * string)) :
  (forall item, test item = None) -> items <> [] ->
  matching_rows test items = Raise ReError.
Proof.
  intros Ht Hne. destruct items as [|[row item] items]; [congruence|].
  cbn [matching_rows]. rewrite Ht. reflexivity.
Qed.

(** [filterRowsByPattern] with a pattern that compiles returns the rows whose
    label matches, in ascending order. *)
Lemma filterRowsByPattern_rows (rt : Runtime) (p : platform) (pat : string)
    (m : FilterModel) :
  patternCompiles rt (normcase rt p (codepoints pat)) = true ->
  exists rows,
    filterRowsByPattern rt p (PyStr pat) m = Ok rows /\
    StronglySorted Z.lt rows /\
    forall r, In r rows <->
      exists label, itemText m r = Some label /\
        glob_match rt (normcase rt p (codepoints pat)) (normcase rt p (codepoints label)).
Proof.
  intros Hc.
  set (f := fun label : string =>
              re_match rt (translate (length (normcase rt p (codepoints pat)))
                             (normcase rt p (codepoints pat)))
                (normcase rt p (codepoints label))).
  assert (Ht : forall item, fnmatch rt p item pat = Some (f item)).
  { intros item. unfold fnmatch, fnmatchcase. cbn zeta.
    unfold patternCompiles in Hc. rewrite Hc. reflexivity. }
  assert (Hf : forall label, f label = true <->
            glob_match rt (normcase rt p (codepoints pat)) (normcase rt p (codepoints label))).
  { intros label. apply re_match_glob. lia. }
  eexists. split.
  { unfold filterRowsByPattern. cbn zeta. apply (matching_rows_total _ f), Ht. }
  split.
  - unfold sourceRows. apply (filtered_rows_sorted f).
  - intros r. unfold sourceRows, itemText. rewrite in_map_iff. split.
    + intros ([r' l] & <- & H). apply filter_In in H. destruct H as [H Hm].
      apply combine_rows_In in H. destruct H as (H0 & _ & Hn). simpl in *.
      rewrite Nat.sub_0_r in Hn.
      exists l. split; [destruct (Z.leb_spec 0 r'); [auto|lia]|apply Hf, Hm].
    + intros (l & Hl & Hm). destruct (Z.leb_spec 0 r) as [H0|]; [|discriminate].
      exists (r, l). split; [reflexivity|]. apply filter_In. split; [|apply Hf, Hm].
      apply combine_rows_In. rewrite Nat.sub_0_r. repeat split; (lia || assumption).
Qed.

Lemma filterRowsByPattern_raises (rt : Runtime) (p : platform) (pat : string)
    (m : FilterModel) :
  patternCompiles rt (normcase rt p (codepoints pat)) = false ->
  filterRowsByPattern rt p (PyStr pat) m
  = match labels m with
    | [] => Ok []
    | _ :: _ => Raise ReError
    end.
Proof.
  intros Hc. unfold filterRowsByPattern. cbn zeta.
  destruct (labels m) as [|l ls] eqn:E.
  - unfold sourceRows. rewrite E. reflexivity.
  - apply matching_rows_raises.
    + intros item. unfold fnmatch, fnmatchcase. cbn zeta.
      unfold patternCompiles in Hc. rewrite Hc. reflexivity.
    + unfold sourceRows. rewrite E. discriminate.
Qed.

(** C8, as amended.  [filterRowsByPattern] matches the label of every row
    against the pattern after [os.path.normcase] has been applied to both:
    nothing on POSIX, where the match is case-sensitive; on Windows every [/]
    becomes a backslash and both are lower-cased, so that the match ignores
    case.  On the normalised strings the match is a glob anchored at both
    ends, character by character: [*] and [?] are wildcards, [[seq]] is a
    character class as the regular-expression engine reads it, and every
    other character stands for itself.  When the engine accepts the classes
    of the pattern the method returns exactly the matching rows in ascending
    order; when it rejects one, the method raises the engine's error at the
    first row, and returns the empty list if there is no row.  Being a
    function of the labels alone it changes no filter state.  [*Arm*]
    against L_Arm, Spine, R_Arm gives rows 0 and 2 on either platform. *)
Theorem filterRowsByPattern_glob (rt : Runtime) (p : platform) (pat : string)
    (m : FilterModel) :
  normcase rt Posix (codepoints pat) = codepoints pat /\
  (patternCompiles rt (normcase rt p (codepoints pat)) = true ->
   exists rows,
     filterRowsByPattern rt p (PyStr pat) m = Ok rows /\
     StronglySorted Z.lt rows /\
     forall r, In r rows <->
       exists label, itemText m r = Some label /\
         glob_match rt (normcase rt p (codepoints pat))
                       (normcase rt p (codepoints label))) /\
  (patternCompiles rt (normcase rt p (codepoints pat)) = false ->
   filterRowsByPattern rt p (PyStr pat) m
   = match labels m with
     | [] => Ok []
     | _ :: _ => Raise ReError
     end) /\
  (bracket_free (normcase rt p (codepoints pat)) = true ->
   patternCompiles rt (normcase rt p (codepoints pat)) = true) /\
  filterRowsByPattern rt p (PyStr "*Arm*") arms = Ok [0; 2].
Proof.
  split; [reflexivity|]. split; [apply filterRowsByPattern_rows|].
  split; [apply filterRowsByPattern_raises|].
  split; [apply bracket_free_compiles|].
  destruct p; reflexivity.
Qed.

(** ** The window *)


Lemma py_eq_refl_int (x : pyval) : isinstance_int x = true -> py_eq x x = true.
Proof. destruct x as [z|[]| |]; simpl; try discriminate; intros _; try apply Z.eqb_refl; reflexivity. Qed.

Lemma py_eq_trans (x y z : pyval) :
  py_eq x y = true -> py_eq y z = true -> py_eq x z = true.
Proof.
  destruct x as [a|[]|s|], y as [b|[]|t|], z as [c|[]|u|]; unfold py_eq; cbn [as_int];
    intros H1 H2; try discriminate; try reflexivity;
    rewrite ?Z.eqb_eq, ?String.eqb_eq in *; congruence.
Qed.

Lemma py_in_remove_unequal (x a : pyval) (l : list pyval) :
  py_eq x a = false -> py_in x (py_remove a l) = py_in x l.
Proof.
  intros Hxa. unfold py_in.
  induction l as [|y l IH]; cbn [py_remove existsb]; [reflexivity|].
  destruct (py_eq y a) eqn:Eya; cbn [existsb].
  - destruct (py_eq x y) eqn:Exy; [|reflexivity].
    rewrite (py_eq_trans x y a Exy Eya) in Hxa. discriminate.
  - rewrite IH. reflexivity.
Qed.

Section SourceInfluences.

Context {Float Skin : Type}.
Implicit Types w : World Float Skin.

(** C5. [sourceInfluences] raises when the weight list has no cached
    selection.  Otherwise, outside precision mode it returns the active
    influences of the weight list that are not selected; in precision mode,
    with an active influence, it returns the selected rows of the weight list
    without the active influence: the list itself when the active influence
    is not in it, no longer holding it when it was there once, and holding
    every other row as before. *)
Theorem sourceInfluences_result w :
  let selectedRows := _selectedRows (weightFilterModel w) in
  (selectedRows = [] ->
     exists msg, sourceInfluences w = Res w [] (Raise (TypeError msg))) /\
  (selectedRows <> [] -> _precision w = false ->
     sourceInfluences w
     = Res w []
         (Ok (map PyInt
                (List.filter (fun x => negb (py_in (PyInt x) selectedRows))
                   (_activeInfluences (weightFilterModel w)))))) /\
  (selectedRows <> [] -> _precision w = true ->
     forall a rest, _selectedRows (influenceFilterModel w) = a :: rest ->
       out (sourceInfluences w) = Ok (py_remove a selectedRows) /\
       (py_in a selectedRows = false -> py_remove a selectedRows = selectedRows) /\
       (py_count a selectedRows = 1%nat ->
          py_in a (py_remove a selectedRows) = false) /\
       (forall x, py_eq x a = false ->
          py_in x (py_remove a selectedRows) = py_in x selectedRows)).
Proof.
  unfold sourceInfluences, activeInfluence, bind, get, ret, raise, modify.
  cbn zeta. destruct (_selectedRows (weightFilterModel w)) as [|s sel] eqn:Esel.
  - split; [intros _; eexists; reflexivity|]. split; intros H; congruence.
  - split; [discriminate|]. split.
    + intros _ Hp. simpl. rewrite Hp. reflexivity.
    + intros _ Hp a rest Ha. cbn -[py_in py_remove py_count]. rewrite Hp, Ha.
      cbn -[py_in py_remove py_count].
      split.
      { destruct (py_in a (s :: sel)) eqn:Ein; cbn -[py_in py_remove py_count].
        - reflexivity.
        - f_equal. symmetry. apply (py_remove_absent a (s :: sel)). exact Ein. }
      split; [apply py_remove_absent|]. split.
      { intros Hc. apply py_count_zero_not_in.
        assert (Hin : py_in a (s :: sel) = true).
        { destruct (py_in a (s :: sel)) eqn:E; [reflexivity|].
          apply py_count_zero_not_in in E. lia. }
        pose proof (py_count_remove_same a (s :: sel) Hin). lia. }
      intros x Hx. apply py_in_remove_unequal. exact Hx.
Qed.

End SourceInfluences.

(** ** Batch edits *)

Ltac case_if :=
  match goal with
  | |- context [if ?b then _ else _] => destruct b eqn:?
  end.

Section Computations.

Context {Float Skin : Type}.
Implicit Types w : World Float Skin.

Lemma result_eta {A : Type} (r : result Float Skin A) :
  r = Res (world r) (events r) (out r).
Proof. destruct r. reflexivity. Qed.

Lemma bind_run {A B : Type} (c : M Float Skin A) (k : A -> M Float Skin B) w :
  bind c k w
  = match out (c w) with
    | Ok a => Res (world (k a (world (c w))))
                  (events (c w) ++ events (k a (world (c w))))
                  (out (k a (world (c w))))
    | Raise e => Res (world (c w)) (events (c w)) (Raise e)
    end.
Proof.
  unfold bind. destruct (c w) as [w1 e1 [a|e]]; simpl; [|reflexivity].
  destruct (k a w1). reflexivity.
Qed.

Lemma bind_get {B : Type} (k : World Float Skin -> M Float Skin B) w :
  bind get k w = k w w.
Proof. unfold bind, get. destruct (k w w). reflexivity. Qed.

Lemma bind_ext {A B : Type} (c : M Float Skin A) (k k' : A -> M Float Skin B) w :
  (forall a w1, k a w1 = k' a w1) -> bind c k w = bind c k' w.
Proof.
  intros H. unfold bind. destruct (c w) as [w1 e1 [a|e]]; [rewrite H|]; reflexivity.
Qed.

Lemma bind_ret {A B : Type} (a : A) (k : A -> M Float Skin B) w :
  bind (ret a) k w = k a w.
Proof. unfold bind, ret. destruct (k a w). reflexivity. Qed.

Lemma bind_raise {A B : Type} (e : exn) (k : A -> M Float Skin B) w :
  bind (raise e) k w = Res w [] (Raise e).
Proof. reflexivity. Qed.

Lemma bind_modify {B : Type} (f : World Float Skin -> World Float Skin)
    (k : unit -> M Float Skin B) w :
  bind (modify f) k w = k tt (f w).
Proof. unfold bind, modify. destruct (k tt (f w)). reflexivity. Qed.

Lemma bind_emit {B : Type} (ev : event Float) (k : unit -> M Float Skin B) w :
  bind (emit ev) k w = Res (world (k tt w)) (ev :: events (k tt w)) (out (k tt w)).
Proof. unfold bind, emit. destruct (k tt w). reflexivity. Qed.

Lemma bind_isPending {B : Type} (k : bool -> M Float Skin B) w :
  bind isPending k w = k (__pending__ w) w.
Proof. unfold bind, isPending. destruct (k (__pending__ w) w). reflexivity. Qed.

Lemma bind_assoc {A B C : Type} (c : M Float Skin A) (k1 : A -> M Float Skin B)
    (k2 : B -> M Float Skin C) w :
  bind (bind c k1) k2 w = bind c (fun a => bind (k1 a) k2) w.
Proof.
  unfold bind. destruct (c w) as [w1 e1 [a|e]]; [|reflexivity].
  destruct (k1 a w1) as [w2 e2 [b|e]]; [|reflexivity].
  destruct (k2 b w2) as [w3 e3 o3]. rewrite app_assoc. reflexivity.
Qed.

Lemma validate_run (host : Host Float Skin) (body : M Float Skin unit) w :
  validate host body w
  = if skin_isValid host (_skin w) then body w else Res w [] (Ok tt).
Proof.
  unfold validate. rewrite bind_get. destruct (skin_isValid host (_skin w)); reflexivity.
Qed.

End Computations.

Section BatchEdits.

Context {Float Skin : Type} (host : Host Float Skin).
Implicit Types w : World Float Skin.

Lemma activeInfluence_pure w :
  world (activeInfluence w) = w /\ events (activeInfluence w) = [].
Proof.
  unfold activeInfluence, bind, get, ret, raise.
  destruct (_selectedRows (influenceFilterModel w)); simpl; auto.
Qed.

Lemma sourceInfluences_events w : events (sourceInfluences w) = [].
Proof.
  unfold sourceInfluences, activeInfluence, bind, get, ret, raise, modify. cbn zeta.
  destruct (length (_selectedRows (weightFilterModel w)) =? 0)%nat; [reflexivity|].
  cbn -[py_in py_remove]. destruct (_precision w); [|reflexivity].
  destruct (_selectedRows (influenceFilterModel w)); cbn -[py_in py_remove]; [reflexivity|].
  destruct (py_in _ _); reflexivity.
Qed.

Lemma invalidateWeights_events w : events (invalidateWeights host w) = [].
Proof.
  unfold invalidateWeights, validate, bind, get, ret, raise, modify, onModel. cbn zeta.
  cbn. destruct (skin_isValid host (_skin w)); [|reflexivity].
  cbn. destruct (skin_softSelection host (_skin w)) as [|[v f] [|[v' f'] rest]]; cbn.
  - reflexivity.
  - destruct (skin_weights host (_skin w) [v] !! v); cbn; [|reflexivity].
    case_if; cbn; [|reflexivity].
    destruct (setVisible _ _); reflexivity.
  - case_if; cbn; [|reflexivity].
    destruct (setVisible _ _); reflexivity.
Qed.

(** The update map holds, for every soft-selected vertex, what the skin
    function computed from its stored weights, and nothing else. *)
Lemma collectUpdates_ok (compute : gmap Z Float -> Float -> answer (gmap Z Float))
    (vertices : gmap Z (gmap Z Float)) (items : list (Z * Float)) :
  forall init updates,
  collectUpdates compute vertices items init = Ok updates ->
  List.NoDup (map fst items) ->
  (forall v falloff, In (v, falloff) items ->
     exists weights new, vertices !! v = Some weights /\
       compute weights falloff = Returned new /\ updates !! v = Some new) /\
  (forall v, ~ In v (map fst items) -> updates !! v = init !! v).
Proof.
  induction items as [|[v0 f0] items IH]; intros init updates Hc Hnd.
  - simpl in Hc. injection Hc as <-. split; [intros ? ? []|reflexivity].
  - simpl in Hc, Hnd. inversion Hnd as [|? ? Hnot Hnd']; subst.
    destruct (vertices !! v0) as [weights|] eqn:Ev; [|discriminate].
    destruct (compute weights f0) as [new|] eqn:Ec; [|discriminate].
    destruct (IH _ _ Hc Hnd') as [Hin Hout]. split.
    + intros v falloff [E|Hi].
      * injection E as <- <-. exists weights, new. repeat split; try assumption.
        rewrite (Hout v0 Hnot). apply lookup_insert_eq.
      * apply Hin. exact Hi.
    + intros v Hv. simpl in Hv. rewrite Hout by tauto.
      apply lookup_insert_ne. tauto.
Qed.

(** One failing vertex makes the whole collection fail. *)
Lemma collectUpdates_raise (compute : gmap Z Float -> Float -> answer (gmap Z Float))
    (vertices : gmap Z (gmap Z Float)) (items : list (Z * Float)) :
  forall init v falloff,
  In (v, falloff) items ->
  match vertices !! v with
  | Some weights => exists msg, compute weights falloff = Failed msg
  | None => True
  end ->
  exists ex, collectUpdates compute vertices items init = Raise ex.
Proof.
  induction items as [|[v0 f0] items IH]; intros init v falloff Hin Hfail; [destruct Hin|].
  simpl. destruct Hin as [E|Hin].
  - injection E as -> ->. destruct (vertices !! v) as [weights|]; [|eauto].
    destruct Hfail as [ex ->]. eauto.
  - destruct (vertices !! v0) as [weights|]; [|eauto].
    destruct (compute weights f0); [|eauto].
    eapply IH; eassumption.
Qed.

Lemma applyWeights_events (updates : gmap Z (gmap Z Float)) w :
  events (applyWeights host updates w) = [EvSkinApplyWeights updates].
Proof.
  unfold applyWeights. rewrite bind_run. cbn [emit out world events].
  rewrite bind_get, bind_run.
  destruct (skin_applyWeights host (_skin w) updates); reflexivity.
Qed.

Lemma submitUpdates_applied compute (a : pyval) (src : list pyval) (amount : Float) w :
  match collectUpdates (fun weights falloff => compute (_skin w) weights a src amount falloff)
          (_vertices w) (_softSelection w) ∅ with
  | Ok updates =>
      appliedUpdates (events (submitUpdates host compute a src amount w)) = [updates]
  | Raise ex =>
      submitUpdates host compute a src amount w = Res w [] (Raise ex)
  end.
Proof.
  unfold submitUpdates. rewrite bind_get.
  destruct (collectUpdates _ _ _ _) as [updates|ex].
  - rewrite bind_run. cbn [liftOutcome ret out world events app].
    rewrite bind_run, applyWeights_events.
    destruct (out (applyWeights host updates w)); cbn [events];
      [rewrite invalidateWeights_events|]; reflexivity.
  - rewrite bind_run. reflexivity.
Qed.

Lemma runEdit_unfold (e : edit Float) w :
  runEdit host e w
  = validate host
      (bind activeInfluence (fun a =>
       bind sourceInfluences (fun src =>
       bind get (fun w' =>
       submitUpdates host (editFunction host e) a src (editAmount host e w'))))) w.
Proof.
  destruct e as [amount| |pull|pull]; try reflexivity.
  unfold runEdit, applyPreset. rewrite !validate_run.
  destruct (skin_isValid host (_skin w)); [|reflexivity].
  apply bind_ext. intros a w1. apply bind_ext. intros src w2.
  rewrite bind_get. reflexivity.
Qed.

Lemma runEdit_resolved (e : edit Float) w (a : pyval) (src : list pyval) w1 :
  skin_isValid host (_skin w) = true ->
  out (activeInfluence w) = Ok a ->
  sourceInfluences w = Res w1 [] (Ok src) ->
  runEdit host e w
  = submitUpdates host (editFunction host e) a src (editAmount host e w1) w1.
Proof.
  intros Hvalid Ha Hsrc. rewrite runEdit_unfold, validate_run, Hvalid.
  destruct (activeInfluence_pure w) as [Hw He].
  rewrite bind_run, Ha, Hw, He. rewrite bind_run, Hsrc.
  cbn [out world events app]. rewrite bind_get.
  destruct (submitUpdates host _ a src _ w1). reflexivity.
Qed.

(** C4. A batch edit (preset, set, increment, scale) hands its updates to
    [applyWeights] at most once.  When the skin is valid and both influences
    are resolved, either every soft-selected vertex is computed and the one
    call carries the whole update map (one entry per vertex, computed from
    its stored weights), or the computation of some vertex raises, the edit
    raises with it and [applyWeights] is not called at all. *)
Theorem batch_edit_single_apply (e : edit Float) w :
  (length (appliedUpdates (events (runEdit host e w))) <= 1)%nat /\
  (forall a src w1,
     skin_isValid host (_skin w) = true ->
     out (activeInfluence w) = Ok a ->
     sourceInfluences w = Res w1 [] (Ok src) ->
     let compute := fun weights falloff =>
       editFunction host e (_skin w1) weights a src (editAmount host e w1) falloff in
     match collectUpdates compute (_vertices w1) (_softSelection w1) ∅ with
     | Ok updates =>
         appliedUpdates (events (runEdit host e w)) = [updates] /\
         (List.NoDup (map fst (_softSelection w1)) ->
          (forall v falloff, In (v, falloff) (_softSelection w1) ->
             exists weights new, _vertices w1 !! v = Some weights /\
               compute weights falloff = Returned new /\ updates !! v = Some new) /\
          (forall v, ~ In v (map fst (_softSelection w1)) -> updates !! v = None))
     | Raise ex =>
         appliedUpdates (events (runEdit host e w)) = [] /\
         out (runEdit host e w) = Raise ex
     end) /\
  (forall a src w1 v falloff,
     skin_isValid host (_skin w) = true ->
     out (activeInfluence w) = Ok a ->
     sourceInfluences w = Res w1 [] (Ok src) ->
     In (v, falloff) (_softSelection w1) ->
     match _vertices w1 !! v with
     | Some weights =>
         exists msg, editFunction host e (_skin w1) weights a src
                       (editAmount host e w1) falloff = Failed msg
     | None => True
     end ->
     appliedUpdates (events (runEdit host e w)) = [] /\
     exists ex, out (runEdit host e w) = Raise ex).
Proof.
  assert (Hmain : forall a src w1,
     skin_isValid host (_skin w) = true ->
     out (activeInfluence w) = Ok a ->
     sourceInfluences w = Res w1 [] (Ok src) ->
     match collectUpdates
             (fun weights falloff =>
                editFunction host e (_skin w1) weights a src (editAmount host e w1) falloff)
             (_vertices w1) (_softSelection w1) ∅ with
     | Ok updates => appliedUpdates (events (runEdit host e w)) = [updates]
     | Raise ex =>
         appliedUpdates (events (runEdit host e w)) = [] /\
         out (runEdit host e w) = Raise ex
     end).
  { intros a src w1 Hvalid Ha Hsrc.
    rewrite (runEdit_resolved e w a src w1 Hvalid Ha Hsrc).
    pose proof (submitUpdates_applied (editFunction host e) a src (editAmount host e w1) w1) as Hs.
    destruct (collectUpdates _ _ _ _) as [updates|ex]; [exact Hs|].
    rewrite Hs. auto. }
  split; [|split].
  - destruct (activeInfluence_pure w) as [Hw He].
    destruct (skin_isValid host (_skin w)) eqn:Hvalid;
      [|rewrite runEdit_unfold, validate_run, Hvalid; simpl; lia].
    destruct (out (activeInfluence w)) as [a|ex] eqn:Ha;
      [|rewrite runEdit_unfold, validate_run, Hvalid, bind_run, Ha, He; simpl; lia].
    pose proof (sourceInfluences_events w) as Hse.
    destruct (sourceInfluences w) as [w1 e1 [src|ex]] eqn:Hsrc; simpl in Hse; subst e1.
    + specialize (Hmain a src w1 eq_refl eq_refl eq_refl).
      destruct (collectUpdates _ _ _ _) as [updates|ex].
      * rewrite Hmain. simpl. lia.
      * destruct Hmain as [-> _]. simpl. lia.
    + rewrite runEdit_unfold, validate_run, Hvalid, bind_run, Ha, Hw, He, bind_run, Hsrc.
      simpl. lia.
  - intros a src w1 Hvalid Ha Hsrc compute.
    specialize (Hmain a src w1 Hvalid Ha Hsrc). subst compute.
    destruct (collectUpdates _ _ _ _) as [updates|ex] eqn:Ec; [|exact Hmain].
    split; [exact Hmain|]. intros Hnd.
    destruct (collectUpdates_ok _ _ _ _ _ Ec Hnd) as [Hin Hout].
    split; [exact Hin|]. intros v Hv. rewrite (Hout v Hv). apply lookup_empty.
  - intros a src w1 v falloff Hvalid Ha Hsrc Hin Hfail.
    specialize (Hmain a src w1 Hvalid Ha Hsrc).
    destruct (collectUpdates_raise
                (fun weights falloff =>
                   editFunction host e (_skin w1) weights a src (editAmount host e w1) falloff)
                (_vertices w1) (_softSelection w1) ∅ v falloff Hin Hfail) as [ex Hex].
    rewrite Hex in Hmain. destruct Hmain as [H1 H2]. eauto.
Qed.

End BatchEdits.

(** ** Selection matching *)

Section Matching.

Context {Float Skin : Type} (host : Host Float Skin).
Implicit Types w : World Float Skin.
Implicit Types evs : list (event Float).

Lemma replayPending_app evs1 evs2 (p : bool) :
  replayPending p (evs1 ++ evs2)
  = match replayPending p evs1 with
    | Some p' => replayPending p' evs2
    | None => None
    end.
Proof.
  revert p. induction evs1 as [|ev evs1 IH]; intros p; [reflexivity|].
  destruct ev; simpl; try apply IH.
  destruct p; [reflexivity|apply IH].
Qed.

Lemma siblingSelects_app evs1 evs2 :
  siblingSelects (evs1 ++ evs2) = siblingSelects evs1 ++ siblingSelects evs2.
Proof. apply omap_app. Qed.

Lemma viewCalls_app (i : ModelId) evs1 evs2 :
  viewCalls i (evs1 ++ evs2) = viewCalls i evs1 ++ viewCalls i evs2.
Proof. unfold viewCalls. apply List.filter_app. Qed.


Lemma good_weaken {A : Type} (c : M Float Skin A) : good false c -> good true c.
Proof. intros H w _. apply H. discriminate. Qed.

Lemma good_bind {A B : Type} (p : bool) (c : M Float Skin A) (k : A -> M Float Skin B) :
  good p c -> (forall a, good p (k a)) -> good p (bind c k).
Proof.
  intros Hc Hk w Hp. rewrite bind_run.
  destruct (Hc w Hp) as (Hr & Ho & Hpend).
  destruct (out (c w)) as [a|e] eqn:Eo; cbn [world events out].
  - assert (Hp' : p = true -> __pending__ (world (c w)) = true).
    { intros E. apply Hpend, Hp, E. }
    destruct (Hk a (world (c w)) Hp') as (Hr' & Ho' & Hpend').
    rewrite replayPending_app, Hr, Hr', siblingSelects_app.
    split; [reflexivity|]. split; [exact Ho'|].
    intros E. destruct (Hpend E) as [E1 ->]. destruct (Hpend' E1) as [E2 ->]. auto.
  - split; [exact Hr|]. split; [|exact Hpend].
    intros E. apply Ho. congruence.
Qed.

Lemma good_ret {A : Type} (p : bool) (a : A) : good p (ret a : M Float Skin A).
Proof. intros w _. cbn. auto. Qed.

Lemma good_raise {A : Type} (p : bool) (e : exn) :
  e <> OutOfFuel -> good p (raise e : M Float Skin A).
Proof. intros He w _. cbn. repeat split; auto. congruence. Qed.

Lemma good_get (p : bool) : good p (get : M Float Skin _).
Proof. intros w _. cbn. auto. Qed.

Lemma good_modify (p : bool) (f : World Float Skin -> World Float Skin) :
  (forall w, __pending__ (f w) = __pending__ w) -> good p (modify f).
Proof.
  intros Hf w _. cbn. rewrite Hf. repeat split; auto; discriminate.
Qed.

Lemma good_onModel (p : bool) (i : ModelId) (f : FilterModel -> outcome FilterModel) :
  (forall m, f m <> Raise OutOfFuel) -> good p (onModel i f : M Float Skin unit).
Proof.
  intros Hf w _. unfold onModel. specialize (Hf (filterModel i w)).
  destruct (f (filterModel i w)) as [m'|e]; cbn.
  - destruct i; cbn; repeat split; auto; discriminate.
  - repeat split; auto. intros E. apply Hf. congruence.
Qed.


Lemma good_emit (p : bool) (ev : event Float) :
  neutral ev = true -> good p (emit ev : M Float Skin unit).
Proof.
  intros Hn w _. destruct ev; try discriminate; cbn; repeat split; auto; discriminate.
Qed.

Lemma with_filterModel_pending (i : ModelId) (m : FilterModel) w :
  __pending__ (with_filterModel i m w) = __pending__ w.
Proof. destruct i; reflexivity. Qed.

Lemma setOverrides_fueled (args : list pyval) (m : FilterModel) :
  setOverrides args m <> Raise OutOfFuel.
Proof. unfold setOverrides. destruct (negb _); discriminate. Qed.

Lemma setVisible_fueled (args : list pyval) (m : FilterModel) :
  setVisible args m <> Raise OutOfFuel.
Proof. unfold setVisible. destruct (negb _); discriminate. Qed.

Lemma good_activeInfluence (p : bool) : good p (activeInfluence : M Float Skin _).
Proof.
  unfold activeInfluence. apply good_bind; [apply good_get|]. intros w.
  destruct (_selectedRows (influenceFilterModel w)); [apply good_raise; discriminate|apply good_ret].
Qed.

Lemma good_validate (p : bool) (body : M Float Skin unit) :
  good p body -> good p (validate host body).
Proof.
  intros Hb. unfold validate. apply good_bind; [apply good_get|]. intros w.
  destruct (skin_isValid host (_skin w)); [exact Hb|apply good_ret].
Qed.

Lemma good_requestInfluenceChange (p : bool) : good p (requestInfluenceChange host).
Proof.
  unfold requestInfluenceChange. apply good_validate.
  apply good_bind; [apply good_activeInfluence|]. intros a.
  apply good_bind; [apply good_modify; reflexivity|]. intros _.
  apply good_emit. reflexivity.
Qed.

(** Delivering a signal hides what the slot raises. *)
Lemma good_deliver (p : bool) (slot : ModelId -> M Float Skin unit) (i : ModelId) :
  good p (slot i) -> good p (deliver slot i).
Proof.
  intros Hs w Hp. destruct (Hs w Hp) as (Hr & Ho & Hpend). unfold deliver.
  destruct (slot i w) as [w' evs [[]|e]]; cbn [world events out] in *.
  - split; [exact Hr|]. split; [exact Ho|exact Hpend].
  - destruct e; cbn [world events out];
      (split; [exact Hr|]; split; [discriminate || exact Ho|exact Hpend]).
Qed.

Lemma good_selectionModel_select (p : bool) (slot : ModelId -> M Float Skin unit)
    (i : ModelId) (rows : list Z) :
  good p (slot i) -> good p (selectionModel_select host slot i rows).
Proof.
  intros Hs. unfold selectionModel_select.
  apply good_bind; [apply good_get|]. intros w. cbn zeta.
  apply good_bind; [apply good_emit; reflexivity|]. intros _.
  apply good_bind; [apply good_modify; intros; apply with_filterModel_pending|]. intros _.
  destruct (viewEmits host _ _); [apply good_deliver; exact Hs|apply good_ret].
Qed.

Lemma good_selectInfluences_body (p : bool) (slot : ModelId -> M Float Skin unit)
    (i : ModelId) (rows : list pyval) :
  good p (slot i) -> good p (selectInfluences_body host slot i rows).
Proof.
  intros Hs. unfold selectInfluences_body.
  destruct (negb (forallb isinstance_int rows)); [apply good_raise; discriminate|].
  apply good_bind; [apply good_get|]. intros w. cbn zeta.
  apply good_bind.
  { destruct (0 <? length _)%nat; [apply good_onModel, setOverrides_fueled|apply good_ret]. }
  intros _. destruct rows as [|first rest].
  - apply good_bind; [apply good_get|]. intros w'.
    destruct (_activeInfluences (filterModel i w')); [apply good_ret|].
    apply good_bind; [apply good_selectionModel_select; exact Hs|]. intros _.
    apply good_emit. reflexivity.
  - apply good_bind; [apply good_selectionModel_select; exact Hs|]. intros _.
    apply good_emit. reflexivity.
Qed.

(** Under a pending matching [matchSelection] does nothing at all, whatever
    the slot is. *)
Lemma matchSelection_body_pending (slot : ModelId -> M Float Skin unit) (i : ModelId) w :
  __pending__ w = true -> matchSelection_body host slot i w = Res w [] (Ok tt).
Proof.
  intros Hp. unfold matchSelection_body. rewrite bind_run.
  unfold isPending. cbn [out world events]. rewrite Hp. reflexivity.
Qed.

Lemma good_matchSelection_body_pending (slot : ModelId -> M Float Skin unit) (i : ModelId) :
  good true (matchSelection_body host slot i).
Proof.
  intros w Hp. rewrite matchSelection_body_pending by auto. cbn.
  repeat split; auto; discriminate.
Qed.

(** The shape of a matching that starts: the flag is set, the sibling is
    asked to select the cached rows, and the flag is cleared if that
    returns. *)
Lemma matchSelection_body_start (slot : ModelId -> M Float Skin unit) (i : ModelId) w :
  __pending__ w = false ->
  let rows := _selectedRows (filterModel i w) in
  let r := selectInfluences_body host slot (siblingModel i) rows (with_pending true w) in
  matchSelection_body host slot i w
  = match out r with
    | Ok _ =>
        Res (with_pending false (world r))
            (EvBeginSelectionUpdate :: EvSiblingSelect (siblingModel i) rows
             :: events r ++ [EvEndSelectionUpdate])
            (Ok tt)
    | Raise e =>
        Res (world r)
            (EvBeginSelectionUpdate :: EvSiblingSelect (siblingModel i) rows :: events r)
            (Raise e)
    end.
Proof.
  intros Hp rows r. unfold matchSelection_body.
  rewrite bind_isPending, Hp.
  unfold beginSelectionUpdate, endSelectionUpdate.
  rewrite bind_assoc, bind_modify, bind_emit, bind_get, bind_emit.
  assert (E : filterModel i (with_pending true w) = filterModel i w) by (destruct i; reflexivity).
  rewrite E. fold rows. rewrite bind_run. fold r.
  destruct (out r); cbn [world events out]; [|reflexivity].
  rewrite bind_modify. reflexivity.
Qed.

Lemma good_matchSelection_body (slot : ModelId -> M Float Skin unit) (i : ModelId) :
  (forall j, good true (slot j)) -> good false (matchSelection_body host slot i).
Proof.
  intros Hs w _. destruct (__pending__ w) eqn:Hp.
  - pose proof (good_matchSelection_body_pending slot i w (fun _ => Hp)) as H.
    rewrite Hp in H. exact H.
  - rewrite matchSelection_body_start by exact Hp. cbn zeta.
    destruct (good_selectInfluences_body true slot (siblingModel i)
                (_selectedRows (filterModel i w)) (Hs _) (with_pending true w) (fun _ => eq_refl))
      as (Hr & Ho & Hpend).
    destruct (Hpend eq_refl) as [Hpend' _]. cbn [__pending__ with_pending] in Hr.
    destruct (out _) as [[]|e] eqn:Eo; cbn [world events out replayPending].
    + rewrite replayPending_app, Hr. cbn. repeat split; try discriminate.
    + rewrite Hr. repeat split; try discriminate. exact Ho.
Qed.

Lemma good_onSelectionChanged_body (p : bool) (slot : ModelId -> M Float Skin unit)
    (i : ModelId) :
  (if p then True else forall j, good true (slot j)) ->
  good p (onSelectionChanged_body host slot i).
Proof.
  intros Hs. unfold onSelectionChanged_body.
  apply good_bind; [apply good_get|]. intros w. cbn zeta.
  destruct (length _ =? 0)%nat; [apply good_ret|].
  apply good_bind; [apply good_modify; intros; apply with_filterModel_pending|]. intros _.
  apply good_bind; [apply good_get|]. intros w'.
  apply good_bind; [|intros _; apply good_requestInfluenceChange].
  destruct (_autoSelect (filterModel i w')); [|apply good_ret].
  destruct p; [apply good_matchSelection_body_pending|apply good_matchSelection_body, Hs].
Qed.

(** One unfolding of the slot is enough under a pending matching, two are
    enough always. *)
Lemma good_onSelectionChanged_pending (fuel : nat) (i : ModelId) :
  good true (onSelectionChanged host (S fuel) i).
Proof. apply (good_onSelectionChanged_body true). exact I. Qed.

Lemma good_onSelectionChanged (fuel : nat) (i : ModelId) :
  good false (onSelectionChanged host (S (S fuel)) i).
Proof.
  apply (good_onSelectionChanged_body false). intros j.
  apply good_onSelectionChanged_pending.
Qed.

End Matching.

Section Operations.

Context {Float Skin : Type} (host : Host Float Skin).
Implicit Types w : World Float Skin.

Lemma good_liftOutcome {A : Type} (p : bool) (o : outcome A) :
  o <> Raise OutOfFuel -> good p (liftOutcome o : M Float Skin A).
Proof.
  intros Ho. destruct o as [a|e]; [apply good_ret|].
  apply good_raise. congruence.
Qed.

Lemma good_liftAnswer {A : Type} (p : bool) (o : answer A) :
  good p (liftAnswer o : M Float Skin A).
Proof. destruct o; [apply good_ret|apply good_raise; discriminate]. Qed.

Lemma collectUpdates_fueled (compute : gmap Z Float -> Float -> answer (gmap Z Float))
    (vertices : gmap Z (gmap Z Float)) (items : list (Z * Float)) :
  forall init, collectUpdates compute vertices items init <> Raise OutOfFuel.
Proof.
  induction items as [|[v f] items IH]; intros init; simpl; [discriminate|].
  destruct (vertices !! v); [|discriminate].
  destruct (compute _ f); [apply IH|discriminate].
Qed.

Lemma good_sourceInfluences (p : bool) : good p (sourceInfluences : M Float Skin _).
Proof.
  unfold sourceInfluences. apply good_bind; [apply good_get|]. intros w. cbn zeta.
  destruct (length _ =? 0)%nat; [apply good_raise; discriminate|].
  destruct (_precision w); [|apply good_ret].
  apply good_bind; [apply good_activeInfluence|]. intros a.
  destruct (py_in a _); [|apply good_ret].
  apply good_bind; [|intros _; apply good_ret].
  apply good_modify. intros. apply with_filterModel_pending.
Qed.

Lemma good_invalidateWeights (p : bool) : good p (invalidateWeights host).
Proof.
  unfold invalidateWeights. apply good_validate.
  apply good_bind; [apply good_modify; reflexivity|]. intros _.
  apply good_bind; [apply good_get|]. intros w. cbn zeta.
  apply good_bind; [apply good_modify; reflexivity|]. intros _.
  apply good_bind; [apply good_get|]. intros w1.
  apply good_bind.
  { destruct (map fst (_softSelection w)) as [|v [|v' rest]].
    - apply good_modify. reflexivity.
    - destruct (_vertices w1 !! v); [apply good_modify; reflexivity|].
      apply good_raise. discriminate.
    - apply good_modify. reflexivity. }
  intros _. apply good_bind; [apply good_get|]. intros w2.
  destruct (0 <? _)%nat; [apply good_onModel, setVisible_fueled|apply good_ret].
Qed.

Lemma good_runEdit (p : bool) (e : edit Float) : good p (runEdit host e).
Proof.
  assert (Hsubmit : forall compute a src amount,
            good p (submitUpdates host compute a src amount)).
  { intros compute a src amount. unfold submitUpdates.
    apply good_bind; [apply good_get|]. intros w.
    apply good_bind; [apply good_liftOutcome, collectUpdates_fueled|]. intros updates.
    apply good_bind; [|intros _; apply good_invalidateWeights].
    unfold applyWeights. apply good_bind; [apply good_emit; reflexivity|]. intros _.
    apply good_bind; [apply good_get|]. intros w1.
    apply good_bind; [apply good_liftAnswer|]. intros s.
    apply good_modify. reflexivity. }
  destruct e as [amount| |pull|pull]; cbn [runEdit];
    [unfold applyPreset|unfold setWeights|unfold incrementWeights|unfold scaleWeights];
    apply good_validate;
    (apply good_bind; [apply good_activeInfluence|]; intros a);
    (apply good_bind; [apply good_sourceInfluences|]; intros src);
    [apply Hsubmit| | |];
    (apply good_bind; [apply good_get|]; intros w; cbn zeta; apply Hsubmit).
Qed.

(** With a slot that is good, every entry point is. *)
Section WithSlot.

Variable fuel : nat.

Lemma good_slot (p : bool) (i : ModelId) :
  good p (onSelectionChanged host (S (S fuel)) i).
Proof.
  destruct p; [apply good_weaken|]; apply good_onSelectionChanged.
Qed.

Lemma good_matchSelection (p : bool) (i : ModelId) :
  good p (matchSelection host (S (S fuel)) i).
Proof.
  unfold matchSelection.
  destruct p; [apply good_weaken|]; apply good_matchSelection_body;
    intros j; apply (good_slot true).
Qed.

Lemma good_setAutoSelect (p : bool) (i : ModelId) (autoSelect : pyval) :
  good p (setAutoSelect host (S (S fuel)) i autoSelect).
Proof.
  unfold setAutoSelect. destruct autoSelect as [z|b|s|]; try (apply good_raise; discriminate).
  apply good_bind; [apply good_modify; intros; apply with_filterModel_pending|]. intros _.
  destruct b; [apply good_matchSelection|apply good_ret].
Qed.

Lemma good_runOperation (p : bool) (o : operation Float) :
  good p (runOperation host (S (S fuel)) o).
Proof.
  destruct o; cbn [runOperation].
  - unfold userSelects.
    apply good_bind; [apply good_modify; intros; apply with_filterModel_pending|]. intros _.
    apply good_deliver, good_slot.
  - apply good_selectInfluences_body, good_slot.
  - apply good_matchSelection.
  - apply good_setAutoSelect.
  - apply good_onModel, setVisible_fueled.
  - apply good_onModel, setOverrides_fueled.
  - apply good_onModel. discriminate.
  - unfold precisionChanged.
    apply good_bind; [apply good_modify; reflexivity|]. intros _.
    destruct precision;
      (apply good_bind; [apply good_emit; reflexivity|]; intros _);
      (apply good_bind; [|intros _]); apply good_setAutoSelect.
  - apply good_bind; [apply good_sourceInfluences|]. intros _. apply good_ret.
  - apply good_invalidateWeights.
  - apply good_runEdit.
Qed.

End WithSlot.

End Operations.

Lemma invalidateFilter_fields (m : FilterModel) :
  labels (invalidateFilter m) = labels m /\
  _selectedRows (invalidateFilter m) = _selectedRows m /\
  _autoSelect (invalidateFilter m) = _autoSelect m /\
  viewSelection (invalidateFilter m) = viewSelection m.
Proof.
  unfold invalidateFilter, invalidateFilter_verdicts.
  destruct (filterRows_spec (sourceRows m) m _ (sourceRows_NoDup m)
              (agree_on_reset (sourceRows m) m)) as (_ & _ & _ & Hl & _ & Hs & Ha & Hv).
  auto.
Qed.

Lemma forallb_filter_sub {A : Type} (f g : A -> bool) (l : list A) :
  forallb f l = true -> forallb f (List.filter g l) = true.
Proof.
  rewrite !forallb_forall. intros H x Hx. apply filter_In in Hx. apply H, Hx.
Qed.

Section Chain.

Context {Float Skin : Type} (host : Host Float Skin).
Implicit Types w : World Float Skin.

Lemma filterModel_with_filterModel (i : ModelId) (m : FilterModel) w :
  filterModel i (with_filterModel i m w) = m.
Proof. destruct i; reflexivity. Qed.

Lemma deliver_run (slot : ModelId -> M Float Skin unit) (i : ModelId) w :
  deliver slot i w
  = Res (world (slot i w)) (events (slot i w))
      (match out (slot i w) with
       | Raise OutOfFuel => Raise OutOfFuel
       | _ => Ok tt
       end).
Proof.
  unfold deliver. destruct (slot i w) as [w' evs [[]|e]]; [reflexivity|].
  destruct e; reflexivity.
Qed.


Lemma returns_bind {A B : Type} (c : M Float Skin A) (k : A -> M Float Skin B) :
  returns c -> (forall a, returns (k a)) -> returns (bind c k).
Proof.
  intros Hc Hk w Hp. rewrite bind_run.
  destruct (Hc w Hp) as [[a Ha] Hp1]. rewrite Ha. cbn [world out].
  apply Hk, Hp1.
Qed.

Lemma returns_good {A : Type} (c : M Float Skin A) :
  (forall w, __pending__ w = true -> exists a, out (c w) = Ok a) ->
  good true c -> returns c.
Proof.
  intros Ho Hg w Hp. split; [apply Ho, Hp|].
  destruct (Hg w (fun _ => Hp)) as (_ & _ & H). apply H, Hp.
Qed.

Lemma returns_selectionModel_select (slot : ModelId -> M Float Skin unit)
    (i : ModelId) (rows : list Z) :
  good true (slot i) -> returns (selectionModel_select host slot i rows).
Proof.
  intros Hs. apply returns_good; [|apply good_selectionModel_select, Hs].
  intros w Hp. unfold selectionModel_select.
  rewrite bind_get. cbn zeta. rewrite bind_emit, bind_modify. cbn [out].
  destruct (viewEmits host _ _); [|eexists; reflexivity].
  rewrite deliver_run. cbn [out].
  match goal with |- context [slot i ?w0] =>
    destruct (Hs w0) as (_ & Ho & _);
      [intros _; rewrite with_filterModel_pending; exact Hp|];
    destruct (out (slot i w0)) as [[]|e]; [eexists; reflexivity|];
    destruct e; try (eexists; reflexivity); congruence
  end.
Qed.

Lemma returns_selectInfluences_body (slot : ModelId -> M Float Skin unit)
    (i : ModelId) (rows : list pyval) :
  forallb isinstance_int rows = true ->
  good true (slot i) -> returns (selectInfluences_body host slot i rows).
Proof.
  intros Hrows Hs. unfold selectInfluences_body. rewrite Hrows. cbn [negb].
  apply returns_bind; [apply returns_good; [eexists; reflexivity|apply good_get]|].
  intros w0. cbn zeta. apply returns_bind.
  { destruct (0 <? length _)%nat.
    - apply returns_good; [|apply good_onModel, setOverrides_fueled].
      intros w _. unfold onModel, setOverrides.
      rewrite forallb_filter_sub by exact Hrows. cbn. eexists; reflexivity.
    - apply returns_good; [eexists; reflexivity|apply good_ret]. }
  intros _. destruct rows as [|first rest].
  - apply returns_bind; [apply returns_good; [eexists; reflexivity|apply good_get]|].
    intros w1. destruct (_activeInfluences (filterModel i w1)).
    + apply returns_good; [eexists; reflexivity|apply good_ret].
    + apply returns_bind; [apply returns_selectionModel_select, Hs|]. intros _.
      apply returns_good; [eexists; reflexivity|apply good_emit; reflexivity].
  - apply returns_bind; [apply returns_selectionModel_select, Hs|]. intros _.
    apply returns_good; [eexists; reflexivity|apply good_emit; reflexivity].
Qed.

Lemma requestInfluenceChange_pending w :
  __pending__ (world (requestInfluenceChange host w)) = __pending__ w.
Proof.
  unfold requestInfluenceChange. rewrite validate_run.
  destruct (skin_isValid host (_skin w)); [|reflexivity].
  unfold activeInfluence. rewrite bind_assoc, bind_get.
  destruct (_selectedRows (influenceFilterModel w)); [reflexivity|].
  rewrite bind_ret, bind_modify. reflexivity.
Qed.

Lemma list_set_In (o : SetOrder) (rows : list Z) (r : Z) :
  In r (list_set o rows) <-> In r rows.
Proof.
  split; intros H.
  - apply (nodup_In Z.eq_dec).
    apply (Permutation_in r (list_set_distinct o rows)), H.
  - apply (Permutation_in r (Permutation_sym (list_set_distinct o rows))).
    apply nodup_In, H.
Qed.

Lemma list_set_nil (o : SetOrder) : list_set o [] = [].
Proof. apply Permutation_nil. symmetry. apply (list_set_distinct o []). Qed.

Lemma list_set_NoDup (o : SetOrder) (rows : list Z) : List.NoDup (list_set o rows).
Proof.
  apply (Permutation_NoDup (l := nodup Z.eq_dec rows)).
  - symmetry. apply list_set_distinct.
  - apply List.NoDup_nodup.
Qed.

Lemma list_set_nonempty (o : SetOrder) (rows : list Z) : rows <> [] -> list_set o rows <> [].
Proof.
  destruct rows as [|r rows]; [congruence|]. intros _ E.
  assert (H : In r (list_set o (r :: rows))) by (apply list_set_In; left; reflexivity).
  rewrite E in H. destruct H.
Qed.

(** A matching that starts asks the sibling exactly once, whatever the
    sibling's view and slot do in answer. *)
Lemma matchSelection_one_sibling_call (fuel : nat) (i : ModelId) w :
  __pending__ w = false ->
  siblingSelects (events (matchSelection host (S fuel) i w))
  = [(siblingModel i, _selectedRows (filterModel i w))].
Proof.
  intros Hp. unfold matchSelection. rewrite matchSelection_body_start by exact Hp.
  cbn zeta.
  destruct (good_selectInfluences_body host true (onSelectionChanged host (S fuel))
              (siblingModel i) (_selectedRows (filterModel i w))
              (good_onSelectionChanged_pending host fuel _)
              (with_pending true w) (fun _ => eq_refl)) as (_ & _ & Hpend).
  destruct (Hpend eq_refl) as [_ Hsib].
  destruct (out _); cbn [events];
    match goal with
    | |- siblingSelects (?b :: ?c :: ?l) = _ =>
        change (b :: c :: l) with ([b; c] ++ l)
    end;
    rewrite !siblingSelects_app, Hsib; reflexivity.
Qed.

End Chain.

Section ChainOfSignals.

Context {Float Skin : Type} (host : Host Float Skin).
Implicit Types w : World Float Skin.

Lemma requestInfluenceChange_no_sibling w :
  siblingSelects (events (requestInfluenceChange host w)) = [].
Proof.
  unfold requestInfluenceChange. rewrite validate_run.
  destruct (skin_isValid host (_skin w)); [|reflexivity].
  unfold activeInfluence. rewrite bind_assoc, bind_get.
  destruct (_selectedRows (influenceFilterModel w)); [reflexivity|].
  rewrite bind_ret, bind_modify. reflexivity.
Qed.

Lemma forallb_isinstance_PyInt (rows : list Z) :
  forallb isinstance_int (map PyInt rows) = true.
Proof. induction rows; [reflexivity|exact IHrows]. Qed.

Lemma onSelectionChanged_body_chain (slot : ModelId -> M Float Skin unit) (i : ModelId) w :
  (forall j, good true (slot j)) ->
  __pending__ w = false ->
  getSelectedRows (setOrder host) (filterModel i w) <> [] ->
  _autoSelect (filterModel i w) = true ->
  siblingSelects (events (onSelectionChanged_body host slot i w))
  = [(siblingModel i, map PyInt (getSelectedRows (setOrder host) (filterModel i w)))] /\
  __pending__ (world (onSelectionChanged_body host slot i w)) = false.
Proof.
  intros Hs Hp Hrows Hauto. unfold onSelectionChanged_body.
  rewrite bind_get. cbn zeta.
  destruct (getSelectedRows (setOrder host) (filterModel i w)) as [|r0 rows'] eqn:Erows; [congruence|].
  cbn [length Nat.eqb]. rewrite bind_modify, bind_get.
  set (rows := r0 :: rows') in *.
  set (w1 := with_filterModel i _ w).
  assert (Hm1 : filterModel i w1
                = invalidateFilter (setSelectedRows (map PyInt rows) (filterModel i w))).
  { apply filterModel_with_filterModel. }
  assert (Hp1 : __pending__ w1 = false).
  { unfold w1. rewrite with_filterModel_pending. exact Hp. }
  destruct (invalidateFilter_fields (setSelectedRows (map PyInt rows) (filterModel i w)))
    as (_ & Hsel & Haut & _).
  rewrite Hm1, Haut. cbn [_autoSelect setSelectedRows with_selectedRows]. rewrite Hauto.
  rewrite bind_run, matchSelection_body_start by exact Hp1. cbn zeta.
  rewrite Hm1, Hsel. cbn [_selectedRows setSelectedRows with_selectedRows].
  set (rsel := selectInfluences_body host slot (siblingModel i) (map PyInt rows)
                 (with_pending true w1)).
  destruct (returns_selectInfluences_body host slot (siblingModel i) (map PyInt rows)
              (forallb_isinstance_PyInt rows) (Hs _) (with_pending true w1) eq_refl)
    as [[[] Hout] Hpend].
  fold rsel in Hout, Hpend.
  destruct (good_selectInfluences_body host true slot (siblingModel i) (map PyInt rows)
              (Hs _) (with_pending true w1) (fun _ => eq_refl)) as (_ & _ & Hq).
  destruct (Hq eq_refl) as [_ Hsib]. fold rsel in Hsib.
  rewrite Hout. cbn [world events out].
  rewrite requestInfluenceChange_pending. split; [|reflexivity].
  rewrite siblingSelects_app, requestInfluenceChange_no_sibling, app_nil_r.
  match goal with
  | |- siblingSelects (?b :: ?c :: ?l) = _ => change (b :: c :: l) with ([b; c] ++ l)
  end.
  rewrite !siblingSelects_app, Hsib. reflexivity.
Qed.

Lemma userSelects_chain (fuel : nat) (i : ModelId) (rows : list Z) w :
  __pending__ w = false -> rows <> [] -> _autoSelect (filterModel i w) = true ->
  siblingSelects (events (userSelects host (S (S fuel)) i rows w))
  = [(siblingModel i, map PyInt (list_set (setOrder host) rows))] /\
  out (userSelects host (S (S fuel)) i rows w) = Ok tt /\
  __pending__ (world (userSelects host (S (S fuel)) i rows w)) = false.
Proof.
  intros Hp Hrows Hauto. unfold userSelects. rewrite bind_modify, deliver_run.
  cbn [world events out].
  set (w0 := with_filterModel i (with_viewSelection rows (filterModel i w)) w).
  assert (Hfuel : out (onSelectionChanged host (S (S fuel)) i w0) <> Raise OutOfFuel).
  { apply (good_onSelectionChanged host fuel i w0). discriminate. }
  assert (Hm0 : filterModel i w0 = with_viewSelection rows (filterModel i w)).
  { apply filterModel_with_filterModel. }
  destruct (onSelectionChanged_body_chain (onSelectionChanged host (S fuel)) i w0)
    as [Hsib Hpend].
  - intros j. apply good_onSelectionChanged_pending.
  - unfold w0. rewrite with_filterModel_pending. exact Hp.
  - rewrite Hm0. apply list_set_nonempty, Hrows.
  - rewrite Hm0. exact Hauto.
  - rewrite Hm0 in Hsib.
    change (onSelectionChanged host (S (S fuel)) i w0)
      with (onSelectionChanged_body host (onSelectionChanged host (S fuel)) i w0) in *.
    split; [exact Hsib|]. split; [|exact Hpend].
    destruct (out _) as [[]|e]; [reflexivity|]. destruct e; congruence.
Qed.


Lemma runSession_pending (fuel : nat) (os : list (operation Float)) w :
  __pending__ w = true -> __pending__ (runSession host (S (S fuel)) os w) = true.
Proof.
  revert w. induction os as [|o os IH]; intros w Hp; [exact Hp|].
  cbn [runSession fold_left]. apply IH.
  destruct (good_runOperation host fuel true o w (fun _ => Hp)) as (_ & _ & H).
  apply H, Hp.
Qed.

(** C9. When the sibling's [selectInfluences] raises inside a matching (as
    it does when the cached rows of the initiator hold something that is
    not an integer) [matchSelection] raises the same exception and leaves the
    flag set; from then on the flag stays set through every operation, and
    [matchSelection] on either filter model returns without doing
    anything. *)
Theorem failed_matching_blocks_forever (fuel : nat) (i : ModelId) w :
  __pending__ w = false ->
  (forall e,
     out (selectInfluences host (S (S fuel)) (siblingModel i)
            (_selectedRows (filterModel i w)) (with_pending true w)) = Raise e ->
     out (matchSelection host (S (S fuel)) i w) = Raise e /\
     __pending__ (world (matchSelection host (S (S fuel)) i w)) = true) /\
  (forallb isinstance_int (_selectedRows (filterModel i w)) = false ->
     exists msg,
       matchSelection host (S (S fuel)) i w
       = Res (with_pending true w)
           [EvBeginSelectionUpdate;
            EvSiblingSelect (siblingModel i) (_selectedRows (filterModel i w))]
           (Raise (TypeError msg))) /\
  (__pending__ (world (matchSelection host (S (S fuel)) i w)) = true ->
     forall (os : list (operation Float)) (j : ModelId),
       let w' := runSession host (S (S fuel)) os
                   (world (matchSelection host (S (S fuel)) i w)) in
       __pending__ w' = true /\
       matchSelection host (S (S fuel)) j w' = Res w' [] (Ok tt)).
Proof.
  intros Hp. split; [|split].
  - intros e He. unfold matchSelection, selectInfluences in *.
    rewrite matchSelection_body_start by exact Hp. cbn zeta. rewrite He.
    cbn [world out]. split; [reflexivity|].
    destruct (good_selectInfluences_body host true (onSelectionChanged host (S (S fuel)))
                (siblingModel i) (_selectedRows (filterModel i w))
                (good_onSelectionChanged_pending host (S fuel) _)
                (with_pending true w) (fun _ => eq_refl)) as (_ & _ & H).
    apply H. reflexivity.
  - intros Hbad. unfold matchSelection.
    rewrite matchSelection_body_start by exact Hp. cbn zeta.
    unfold selectInfluences_body. rewrite Hbad. cbn [negb raise out world events].
    eexists. reflexivity.
  - intros Hset os j w'.
    assert (Hw' : __pending__ w' = true) by (apply runSession_pending, Hset).
    split; [exact Hw'|]. apply matchSelection_body_pending, Hw'.
Qed.

End ChainOfSignals.

Section Views.

Context {Float Skin : Type} (host : Host Float Skin).
Implicit Types w : World Float Skin.


Lemma calm_weaken {A : Type} (V V' : ModelId -> bool) (p : bool) (c : M Float Skin A) :
  (forall j, V' j = true -> V j = true) -> calm V false c -> calm V' p c.
Proof.
  intros HV Hc w _. destruct (Hc w) as [H1 H2]; [discriminate|].
  split; [exact H1|]. intros j Hj. apply H2, HV, Hj.
Qed.

Lemma calm_bind {A B : Type} (V : ModelId -> bool) (p : bool)
    (c : M Float Skin A) (k : A -> M Float Skin B) :
  calm V p c -> (forall a, calm V p (k a)) -> calm V p (bind c k).
Proof.
  intros Hc Hk w Hp. rewrite bind_run. destruct (Hc w Hp) as [Hpend Hv].
  destruct (out (c w)) as [a|e]; cbn [world events]; [|split; assumption].
  destruct (Hk a (world (c w))) as [Hpend' Hv']; [intros E; apply Hpend, Hp, E|].
  split; [intros E; apply Hpend', Hpend, E|].
  intros j Hj. destruct (Hv j Hj) as [E1 E2]. destruct (Hv' j Hj) as [E1' E2'].
  rewrite viewCalls_app, E1, E1', E2', E2. auto.
Qed.

Lemma calm_ret {A : Type} V (p : bool) (a : A) : calm V p (ret a : M Float Skin A).
Proof. intros w _. cbn. auto. Qed.

Lemma calm_raise {A : Type} V (p : bool) (e : exn) : calm V p (raise e : M Float Skin A).
Proof. intros w _. cbn. auto. Qed.

Lemma calm_get V (p : bool) : calm V p (get : M Float Skin _).
Proof. intros w _. cbn. auto. Qed.

Lemma calm_modify V (p : bool) (f : World Float Skin -> World Float Skin) :
  (forall w, __pending__ (f w) = __pending__ w) ->
  (forall w j, V j = true ->
     viewSelection (filterModel j (f w)) = viewSelection (filterModel j w)) ->
  calm V p (modify f).
Proof.
  intros Hf Hv w _. cbn. rewrite Hf. split; [auto|]. intros j Hj. split; [reflexivity|].
  apply Hv, Hj.
Qed.

Lemma calm_emit V (p : bool) (ev : event Float) :
  (forall j, V j = true -> viewCalls j [ev] = []) ->
  calm V p (emit ev : M Float Skin unit).
Proof. intros Hev w _. cbn. split; [auto|]. intros j Hj. split; [apply Hev, Hj|reflexivity]. Qed.

Lemma viewSelection_with_filterModel (i j : ModelId) (m : FilterModel) w :
  viewSelection m = viewSelection (filterModel i w) ->
  viewSelection (filterModel j (with_filterModel i m w)) = viewSelection (filterModel j w).
Proof. destruct i, j; cbn; auto. Qed.

Lemma viewSelection_with_filterModel_other (i j : ModelId) (m : FilterModel) w :
  ModelId_eqb j i = false ->
  viewSelection (filterModel j (with_filterModel i m w)) = viewSelection (filterModel j w).
Proof. destruct i, j; cbn; auto; discriminate. Qed.

Lemma calm_onModel V (p : bool) (i : ModelId) (f : FilterModel -> outcome FilterModel) :
  (forall m m', f m = Ok m' -> viewSelection m' = viewSelection m) ->
  calm V p (onModel i f : M Float Skin unit).
Proof.
  intros Hf w _. unfold onModel. specialize (Hf (filterModel i w)).
  destruct (f (filterModel i w)) as [m'|e]; cbn [world events out]; [|auto].
  rewrite with_filterModel_pending. split; [auto|]. intros j _. split; [reflexivity|].
  apply viewSelection_with_filterModel. apply Hf. reflexivity.
Qed.

Lemma setOverrides_viewSelection (args : list pyval) (m m' : FilterModel) :
  setOverrides args m = Ok m' -> viewSelection m' = viewSelection m.
Proof.
  unfold setOverrides. destruct (negb _); [discriminate|]. intros E. injection E as <-.
  destruct (invalidateFilter_fields (with_overrides args m)) as (_ & _ & _ & H). exact H.
Qed.

Lemma calm_requestInfluenceChange V (p : bool) : calm V p (requestInfluenceChange host).
Proof.
  unfold requestInfluenceChange, validate, activeInfluence.
  apply calm_bind; [apply calm_get|]. intros w.
  destruct (skin_isValid host (_skin w)); [|apply calm_ret].
  apply calm_bind.
  { apply calm_bind; [apply calm_get|]. intros w'.
    destruct (_selectedRows _); [apply calm_raise|apply calm_ret]. }
  intros a. apply calm_bind; [apply calm_modify; reflexivity|]. intros _.
  apply calm_emit. reflexivity.
Qed.

Lemma calm_deliver V (p : bool) (slot : ModelId -> M Float Skin unit) (i : ModelId) :
  calm V p (slot i) -> calm V p (deliver slot i).
Proof. intros Hs w Hp. rewrite deliver_run. cbn [world events]. apply Hs, Hp. Qed.

Lemma calm_selectionModel_select V (p : bool) (slot : ModelId -> M Float Skin unit)
    (i : ModelId) (rows : list Z) :
  V i = false -> calm V p (slot i) -> calm V p (selectionModel_select host slot i rows).
Proof.
  intros Hi Hs. unfold selectionModel_select.
  apply calm_bind; [apply calm_get|]. intros w. cbn zeta.
  apply calm_bind.
  { apply calm_emit. intros j Hj. destruct i, j; cbn; congruence. }
  intros _. apply calm_bind.
  { apply calm_modify; [intros; apply with_filterModel_pending|].
    intros w' j Hj. apply viewSelection_with_filterModel_other.
    destruct i, j; cbn; congruence. }
  intros _. destruct (viewEmits host _ _); [apply calm_deliver, Hs|apply calm_ret].
Qed.

Lemma calm_selectInfluences_body V (p : bool) (slot : ModelId -> M Float Skin unit)
    (i : ModelId) (rows : list pyval) :
  V i = false -> calm V p (slot i) -> calm V p (selectInfluences_body host slot i rows).
Proof.
  intros Hi Hs. unfold selectInfluences_body.
  destruct (negb _); [apply calm_raise|].
  apply calm_bind; [apply calm_get|]. intros w. cbn zeta.
  apply calm_bind.
  { destruct (0 <? length _)%nat; [|apply calm_ret].
    apply calm_onModel. intros m m'. apply setOverrides_viewSelection. }
  intros _. destruct rows as [|first rest].
  - apply calm_bind; [apply calm_get|]. intros w'.
    destruct (_activeInfluences _); [apply calm_ret|].
    apply calm_bind; [apply calm_selectionModel_select; assumption|]. intros _.
    apply calm_emit. intros j Hj. destruct i, j; cbn; congruence.
  - apply calm_bind; [apply calm_selectionModel_select; assumption|]. intros _.
    apply calm_emit. intros j Hj. destruct i, j; cbn; congruence.
Qed.

Lemma calm_matchSelection_body_pending V (slot : ModelId -> M Float Skin unit) (i : ModelId) :
  calm V true (matchSelection_body host slot i).
Proof.
  intros w Hp. rewrite matchSelection_body_pending by auto. cbn. auto.
Qed.

Lemma calm_matchSelection_body V (slot : ModelId -> M Float Skin unit) (i : ModelId) :
  V (siblingModel i) = false -> calm V true (slot (siblingModel i)) ->
  calm V false (matchSelection_body host slot i).
Proof.
  intros Hi Hs w _. destruct (__pending__ w) eqn:Hp.
  - pose proof (calm_matchSelection_body_pending V slot i w (fun _ => Hp)) as H.
    rewrite Hp in H. exact H.
  - split; [discriminate|]. intros j Hj.
    rewrite matchSelection_body_start by exact Hp. cbn zeta.
    destruct (calm_selectInfluences_body V true slot (siblingModel i)
                (_selectedRows (filterModel i w)) Hi Hs (with_pending true w)
                (fun _ => eq_refl)) as [_ H].
    destruct (H j Hj) as [E1 E2].
    assert (E0 : viewSelection (filterModel j (with_pending true w))
                 = viewSelection (filterModel j w)) by (destruct j; reflexivity).
    destruct (out _); cbn [world events].
    + split.
      * match goal with
        | |- viewCalls j (?b :: ?c :: ?l) = _ => change (b :: c :: l) with ([b; c] ++ l)
        end.
        rewrite !viewCalls_app, E1. reflexivity.
      * rewrite <- E0, <- E2. destruct j; reflexivity.
    + split.
      * match goal with
        | |- viewCalls j (?b :: ?c :: ?l) = _ => change (b :: c :: l) with ([b; c] ++ l)
        end.
        rewrite !viewCalls_app, E1. reflexivity.
      * rewrite <- E0, <- E2. reflexivity.
Qed.

Lemma calm_onSelectionChanged_body V (p : bool) (slot : ModelId -> M Float Skin unit)
    (i : ModelId) :
  (if p then True
   else V (siblingModel i) = false /\ calm V true (slot (siblingModel i))) ->
  calm V p (onSelectionChanged_body host slot i).
Proof.
  intros Hs. unfold onSelectionChanged_body.
  apply calm_bind; [apply calm_get|]. intros w. cbn zeta.
  destruct (length _ =? 0)%nat; [apply calm_ret|].
  apply calm_bind.
  { apply calm_modify; [intros; apply with_filterModel_pending|].
    intros w' j _. apply viewSelection_with_filterModel.
    destruct (invalidateFilter_fields
                (setSelectedRows (map PyInt (getSelectedRows (setOrder host) (filterModel i w)))
                   (filterModel i w'))) as (_ & _ & _ & H).
    exact H. }
  intros _. apply calm_bind; [apply calm_get|]. intros w'.
  apply calm_bind; [|intros _; apply calm_requestInfluenceChange].
  destruct (_autoSelect _); [|apply calm_ret].
  destruct p; [apply calm_matchSelection_body_pending|].
  apply calm_matchSelection_body; tauto.
Qed.

(** Under a pending matching the slot touches no view. *)
Lemma calm_onSelectionChanged_pending (fuel : nat) (i : ModelId) :
  calm (fun _ => true) true (onSelectionChanged host fuel i).
Proof.
  destruct fuel; [apply calm_raise|].
  apply (calm_onSelectionChanged_body _ true). exact I.
Qed.

(** The slot of a list never calls on the list's own view. *)
Lemma calm_onSelectionChanged (fuel : nat) (i : ModelId) :
  calm (ModelId_eqb i) false (onSelectionChanged host fuel i).
Proof.
  destruct fuel; [apply calm_raise|].
  apply (calm_onSelectionChanged_body _ false). split; [destruct i; reflexivity|].
  intros w Hp. destruct (calm_onSelectionChanged_pending fuel (siblingModel i) w Hp) as [H1 H2].
  split; [exact H1|]. intros j _. apply H2. reflexivity.
Qed.

Lemma selectionModel_select_run (slot : ModelId -> M Float Skin unit) (i : ModelId)
    (rows : list Z) w :
  let m := filterModel i w in
  let new := viewSelect host m rows in
  let w' := with_filterModel i (with_viewSelection new m) w in
  selectionModel_select host slot i rows w
  = if viewEmits host (viewSelection m) new
    then Res (world (deliver slot i w')) (EvSelect i rows :: events (deliver slot i w'))
             (out (deliver slot i w'))
    else Res w' [EvSelect i rows] (Ok tt).
Proof.
  cbn zeta. unfold selectionModel_select. rewrite bind_get. cbn zeta.
  rewrite bind_emit, bind_modify.
  destruct (viewEmits host _ _); reflexivity.
Qed.

(** C7. [selectInfluences] with an empty list of rows does nothing at all
    when no row is active: it returns, and neither the window nor any view is
    touched.  With an active row it asks the selection model of its own view
    to clear and select the first active row, then scrolls that view to the
    top; these are its only calls on that view, the view holds the selection
    the selection model made of that row, and the call returns. *)
Theorem selectInfluences_without_rows (fuel : nat) (i : ModelId) w :
  (_activeInfluences (filterModel i w) = [] ->
     selectInfluences host fuel i [] w = Res w [] (Ok tt)) /\
  (forall a rest, _activeInfluences (filterModel i w) = a :: rest ->
     (exists evs,
        events (selectInfluences host (S (S fuel)) i [] w)
        = EvSelect i [a] :: evs ++ [EvScrollToTop i] /\
        viewCalls i evs = []) /\
     viewCalls i (events (selectInfluences host (S (S fuel)) i [] w))
     = [EvSelect i [a]; EvScrollToTop i] /\
     viewSelection (filterModel i (world (selectInfluences host (S (S fuel)) i [] w)))
     = viewSelect host (filterModel i w) [a] /\
     out (selectInfluences host (S (S fuel)) i [] w) = Ok tt).
Proof.
  split.
  - intros Hact. unfold selectInfluences, selectInfluences_body.
    cbn [forallb negb List.filter length Nat.ltb Nat.leb].
    rewrite bind_get. cbn zeta. cbn [List.filter length Nat.ltb Nat.leb].
    rewrite bind_ret, bind_get, Hact. reflexivity.
  - intros a rest Hact. unfold selectInfluences, selectInfluences_body.
    cbn [forallb negb List.filter length Nat.ltb Nat.leb].
    rewrite bind_get. cbn zeta. cbn [List.filter length Nat.ltb Nat.leb].
    rewrite bind_ret, bind_get, Hact, bind_run.
    rewrite selectionModel_select_run. cbn zeta.
    set (m := filterModel i w).
    set (w' := with_filterModel i (with_viewSelection (viewSelect host m [a]) m) w).
    assert (Hm' : viewSelection (filterModel i w') = viewSelect host m [a]).
    { unfold w'. rewrite filterModel_with_filterModel. reflexivity. }
    destruct (viewEmits host _ _); cbn [world events out emit app].
    + rewrite deliver_run. cbn [world events out].
      destruct (calm_onSelectionChanged (S (S fuel)) i w') as [_ Hcalm]; [discriminate|].
      destruct (Hcalm i) as [E1 E2]; [destruct i; reflexivity|].
      assert (Hfuel : out (onSelectionChanged host (S (S fuel)) i w') <> Raise OutOfFuel).
      { apply (good_onSelectionChanged host fuel i w'). discriminate. }
      assert (Hout : match out (onSelectionChanged host (S (S fuel)) i w') with
                     | Raise OutOfFuel => Raise OutOfFuel
                     | _ => Ok tt
                     end = Ok tt).
      { destruct (out _) as [[]|e]; [reflexivity|]. destruct e; congruence. }
      rewrite Hout. cbn [world events out emit app].
      split; [eexists; split; [reflexivity|exact E1]|].
      split; [|split; [rewrite E2; exact Hm'|reflexivity]].
      change (EvSelect i [a] :: ?l ++ [EvScrollToTop i])
        with ([EvSelect i [a]] ++ l ++ [EvScrollToTop i]).
      rewrite !viewCalls_app, E1. destruct i; reflexivity.
    + split; [exists []; split; reflexivity|].
      split; [destruct i; reflexivity|]. split; [exact Hm'|reflexivity].
Qed.

End Views.

(** ** More on the filter pass *)

Lemma invalidateFilter_lists (m : FilterModel) :
  _activeInfluences (invalidateFilter m) = List.filter (accepts m) (sourceRows m) /\
  _inactiveInfluences (invalidateFilter m)
  = List.filter (fun r => negb (accepts m r)) (sourceRows m).
Proof.
  unfold invalidateFilter, invalidateFilter_verdicts.
  destruct (filterRows_spec (sourceRows m) m _ (sourceRows_NoDup m)
              (agree_on_reset (sourceRows m) m)) as (_ & Ha & Hi & _).
  simpl in Ha, Hi. auto.
Qed.

Lemma sourceRows_sorted (m : FilterModel) : StronglySorted Z.lt (sourceRows m).
Proof.
  unfold sourceRows. generalize 0%nat.
  induction (length (labels m)) as [|n IH]; intros a; simpl; constructor; [apply IH|].
  apply List.Forall_forall. intros r Hr. apply in_map_iff in Hr.
  destruct Hr as (k & <- & Hk). apply in_seq in Hk. lia.
Qed.

Lemma filter_sorted (f : Z -> bool) (l : list Z) :
  StronglySorted Z.lt l -> StronglySorted Z.lt (List.filter f l).
Proof.
  induction 1 as [|x l Hs IH Hall]; simpl; [constructor|].
  destruct (f x); [|exact IH]. constructor; [exact IH|].
  rewrite List.Forall_forall in *. intros y Hy. apply filter_In in Hy. apply Hall, Hy.
Qed.

Lemma sourceRows_In (m : FilterModel) (row : Z) :
  In row (sourceRows m) <-> 0 <= row < rowCount m.
Proof.
  unfold sourceRows, rowCount. rewrite in_map_iff. split.
  - intros (k & <- & Hk). apply in_seq in Hk. lia.
  - intros H. exists (Z.to_nat row). split; [lia|]. apply in_seq. lia.
Qed.

Lemma invalidateFilter_in_lists (rows : list Z) (m : FilterModel) :
  List.NoDup rows ->
  _activeInfluences (invalidateFilter_in rows m) = List.filter (accepts m) rows /\
  _inactiveInfluences (invalidateFilter_in rows m)
  = List.filter (fun r => negb (accepts m r)) rows /\
  labels (invalidateFilter_in rows m) = labels m.
Proof.
  intros Hnd. unfold invalidateFilter_in.
  destruct (filterRows_spec rows m _ Hnd (agree_on_reset rows m))
    as (_ & Ha & Hi & Hl & _).
  simpl in Ha, Hi. auto.
Qed.

(** X1. Whatever the order in which the framework asks about the rows
    during a pass, each row once: afterwards the active rows are the
    accepted rows and the inactive rows the rejected ones, in the order in
    which they were asked about; neither list repeats a row, no row is in
    both, every row of the source model is in one of them and nothing else
    is; so the two counts add up to the number of rows. *)
Theorem filter_pass_partitions_rows (m : FilterModel) (rows : list Z) :
  Permutation rows (sourceRows m) ->
  let m' := invalidateFilter_in rows m in
  _activeInfluences m' = List.filter (accepts m) rows /\
  _inactiveInfluences m' = List.filter (fun r => negb (accepts m r)) rows /\
  List.NoDup (_activeInfluences m') /\
  List.NoDup (_inactiveInfluences m') /\
  (forall row, In row (_activeInfluences m') -> ~ In row (_inactiveInfluences m')) /\
  (forall row, In row (_activeInfluences m') \/ In row (_inactiveInfluences m')
               <-> 0 <= row < rowCount m') /\
  numActiveInfluences m' + numInactiveInfluences m' = rowCount m'.
Proof.
  intros Hperm m'.
  assert (Hnd : List.NoDup rows).
  { apply (Permutation_NoDup (Permutation_sym Hperm)), sourceRows_NoDup. }
  destruct (invalidateFilter_in_lists rows m Hnd) as (Ha & Hi & Hl).
  fold m' in Ha, Hi, Hl.
  unfold numActiveInfluences, numInactiveInfluences, rowCount.
  rewrite Ha, Hi, Hl.
  split; [reflexivity|]. split; [reflexivity|].
  split; [apply List.NoDup_filter, Hnd|]. split; [apply List.NoDup_filter, Hnd|].
  split; [|split].
  - intros row H1 H2. apply filter_In in H1, H2.
    destruct H1 as [_ H1]. destruct H2 as [_ H2]. rewrite H1 in H2. discriminate.
  - intros row. rewrite !filter_In. fold (rowCount m). rewrite <- sourceRows_In.
    assert (Hin : In row rows <-> In row (sourceRows m)).
    { split; apply Permutation_in; [exact Hperm|symmetry; exact Hperm]. }
    rewrite <- Hin. destruct (accepts m row); simpl; intuition congruence.
  - rewrite <- Nat2Z.inj_add, filter_length, (Permutation_length Hperm). unfold sourceRows.
    rewrite length_map, length_seq. reflexivity.
Qed.

(** *** Passes that use no override *)

Lemma filterRows_keeps_overrides (rows : list Z) :
  forall m0 m, List.NoDup rows -> agree_on rows m0 m ->
  (forall r, In r rows -> consumed m0 r = false) ->
  _overrides (fst (filterRows rows m)) = _overrides m.
Proof.
  induction rows as [|row rest IH]; intros m0 m Hnd Hag Hno; [reflexivity|].
  inversion Hnd as [|? ? Hnot Hnd']; subst.
  pose proof (filterAcceptsRow_overrides row m) as Ho.
  pose proof (filterAcceptsRow_agree row rest m0 m Hnot Hag) as Hag'.
  rewrite (consumed_agree (row :: rest) m0 m row Hag (or_introl eq_refl)) in Ho.
  rewrite (Hno row (or_introl eq_refl)) in Ho.
  simpl. destruct (filterAcceptsRow row m) as [m1 b]. simpl in Ho, Hag'.
  specialize (IH m0 m1 Hnd' Hag' (fun r Hr => Hno r (or_intror Hr))).
  destruct (filterRows rest m1) as [m2 bs]. simpl in *. congruence.
Qed.

Lemma FilterModel_eq (m1 m2 : FilterModel) :
  labels m1 = labels m2 -> _visible m1 = _visible m2 ->
  _selectedRows m1 = _selectedRows m2 -> _overrides m1 = _overrides m2 ->
  _autoSelect m1 = _autoSelect m2 -> _activeInfluences m1 = _activeInfluences m2 ->
  _inactiveInfluences m1 = _inactiveInfluences m2 -> viewSelection m1 = viewSelection m2 ->
  m1 = m2.
Proof. destruct m1, m2; simpl; intros; subst; reflexivity. Qed.

Lemma invalidateFilter_overrides_kept (m : FilterModel) :
  (forall row, consumed m row = false) ->
  _overrides (invalidateFilter m) = _overrides m.
Proof.
  intros Hno. unfold invalidateFilter, invalidateFilter_verdicts.
  rewrite (filterRows_keeps_overrides (sourceRows m) m _ (sourceRows_NoDup m)
             (agree_on_reset (sourceRows m) m) (fun r _ => Hno r)).
  reflexivity.
Qed.

Lemma accepts_ext (m1 m2 : FilterModel) (row : Z) :
  labels m1 = labels m2 -> _visible m1 = _visible m2 ->
  _selectedRows m1 = _selectedRows m2 -> _overrides m1 = _overrides m2 ->
  accepts m1 row = accepts m2 row /\ consumed m1 row = consumed m2 row.
Proof.
  intros Hl Hv Hs Ho. unfold accepts, consumed, isItemNull, itemText.
  rewrite Hl, Hv, Hs, Ho. auto.
Qed.

Lemma invalidateFilter_in_overrides_kept (rows : list Z) (m : FilterModel) :
  List.NoDup rows -> (forall row, consumed m row = false) ->
  _overrides (invalidateFilter_in rows m) = _overrides m.
Proof.
  intros Hnd Hno. unfold invalidateFilter_in.
  rewrite (filterRows_keeps_overrides rows m _ Hnd (agree_on_reset rows m)
             (fun r _ => Hno r)).
  reflexivity.
Qed.

Lemma invalidateFilter_in_fields (rows : list Z) (m : FilterModel) :
  List.NoDup rows ->
  labels (invalidateFilter_in rows m) = labels m /\
  _visible (invalidateFilter_in rows m) = _visible m /\
  _selectedRows (invalidateFilter_in rows m) = _selectedRows m /\
  _autoSelect (invalidateFilter_in rows m) = _autoSelect m /\
  viewSelection (invalidateFilter_in rows m) = viewSelection m.
Proof.
  intros Hnd. unfold invalidateFilter_in.
  destruct (filterRows_spec rows m _ Hnd (agree_on_reset rows m))
    as (_ & _ & _ & Hl & Hv & Hs & Hau & Hvs).
  auto.
Qed.

(** X2. A pass that uses no override is idempotent, whatever the order in
    which the framework asks about the rows in either pass: a second pass
    leaves the same rows active and the same rows inactive and the
    overrides as they are, and it gives the identical model when it asks in
    the same order.  So it is when there are no overrides. *)
Theorem filter_pass_idempotent (m : FilterModel) (rows1 rows2 : list Z) :
  Permutation rows1 (sourceRows m) -> Permutation rows2 (sourceRows m) ->
  _overrides m = [] \/ (forall row, consumed m row = false) ->
  let m1 := invalidateFilter_in rows1 m in
  let m2 := invalidateFilter_in rows2 m1 in
  (forall row, In row (_activeInfluences m2) <-> In row (_activeInfluences m1)) /\
  (forall row, In row (_inactiveInfluences m2) <-> In row (_inactiveInfluences m1)) /\
  _overrides m2 = _overrides m /\ _overrides m1 = _overrides m /\
  (rows2 = rows1 -> m2 = m1).
Proof.
  intros Hp1 Hp2 Hcase m1 m2.
  assert (Hno : forall row, consumed m row = false).
  { destruct Hcase as [Hnone|Hno]; [|exact Hno].
    intros row. unfold consumed. rewrite Hnone. apply andb_false_r. }
  assert (Hnd1 : List.NoDup rows1)
    by (apply (Permutation_NoDup (Permutation_sym Hp1)), sourceRows_NoDup).
  assert (Hnd2 : List.NoDup rows2)
    by (apply (Permutation_NoDup (Permutation_sym Hp2)), sourceRows_NoDup).
  destruct (invalidateFilter_in_fields rows1 m Hnd1) as (Hl & Hv & Hs & Hau & Hvs).
  pose proof (invalidateFilter_in_overrides_kept rows1 m Hnd1 Hno) as Ho.
  fold m1 in Hl, Hv, Hs, Hau, Hvs, Ho.
  assert (Hno1 : forall row, consumed m1 row = false).
  { intros row. destruct (accepts_ext m1 m row Hl Hv Hs Ho) as [_ ->]. apply Hno. }
  destruct (invalidateFilter_in_fields rows2 m1 Hnd2) as (Hl2 & Hv2 & Hs2 & Hau2 & Hvs2).
  pose proof (invalidateFilter_in_overrides_kept rows2 m1 Hnd2 Hno1) as Ho2.
  destruct (invalidateFilter_in_lists rows2 m1 Hnd2) as (Ha2 & Hi2 & _).
  destruct (invalidateFilter_in_lists rows1 m Hnd1) as (Ha1 & Hi1 & _).
  fold m1 in Ha1, Hi1. fold m2 in Hl2, Hv2, Hs2, Hau2, Hvs2, Ho2, Ha2, Hi2.
  assert (Hacc : forall row, accepts m1 row = accepts m row).
  { intros row. apply (accepts_ext m1 m row Hl Hv Hs Ho). }
  assert (Hin : forall row, In row rows2 <-> In row rows1).
  { intros row. split; intros H.
    - apply (Permutation_in row (Permutation_sym Hp1)), (Permutation_in row Hp2), H.
    - apply (Permutation_in row (Permutation_sym Hp2)), (Permutation_in row Hp1), H. }
  split; [|split; [|split; [|split]]].
  - intros row. rewrite Ha2, Ha1, !filter_In, Hacc, Hin. reflexivity.
  - intros row. rewrite Hi2, Hi1, !filter_In, Hacc, Hin. reflexivity.
  - congruence.
  - exact Ho.
  - intros ->. apply FilterModel_eq; try congruence.
    + rewrite Ha2, Ha1. apply filter_ext. exact Hacc.
    + rewrite Hi2, Hi1. apply filter_ext. intros row. f_equal. apply Hacc.
Qed.

(** *** One-shot overrides *)

Lemma invalidateFilter_count (m : FilterModel) (r : Z) :
  py_count (PyInt r) (_overrides (invalidateFilter m))
  = (py_count (PyInt r) (_overrides m) - (if consumed m r then 1 else 0))%nat.
Proof.
  unfold invalidateFilter, invalidateFilter_verdicts.
  rewrite (filterRows_overrides (sourceRows m) m _ (sourceRows_NoDup m)
             (agree_on_reset (sourceRows m) m) r).
  simpl. destruct (consumed m r) eqn:Ec; [|rewrite andb_false_r; reflexivity].
  assert (Hin : existsb (Z.eqb r) (sourceRows m) = true).
  { apply existsb_eqb_In, itemText_sourceRows.
    unfold consumed in Ec. destruct (isItemNull m r); [discriminate|reflexivity]. }
  rewrite Hin. reflexivity.
Qed.

Lemma isRowHidden_spec (m : FilterModel) (x : pyval) :
  isRowHidden m x = true <->
  exists r, as_int x = Some r /\ In r (_inactiveInfluences m).
Proof.
  unfold isRowHidden. rewrite existsb_exists. split.
  - intros (r & Hr & E). exists r. split; [|exact Hr].
    unfold py_eq in E. destruct (as_int x) as [z|] eqn:Ex; simpl in E.
    + apply Z.eqb_eq in E. congruence.
    + destruct x; discriminate.
  - intros (r & Ex & Hr). exists r. split; [exact Hr|].
    unfold py_eq. rewrite Ex. simpl. apply Z.eqb_refl.
Qed.

(** X3. An override is good for one pass.  [setOverrides] with row [r]
    among its arguments once, [r] labelled and neither visible nor selected,
    shows the row at once; the next pass hides it again. *)
Theorem override_reveals_once (args : list pyval) (m : FilterModel) (r : Z) :
  forallb isinstance_int args = true ->
  py_count (PyInt r) args = 1%nat ->
  isItemNull m r = false ->
  py_in (PyInt r) (_visible m) = false ->
  py_in (PyInt r) (_selectedRows m) = false ->
  exists m1,
    setOverrides args m = Ok m1 /\
    In r (_activeInfluences m1) /\ isRowHidden m1 (PyInt r) = false /\
    py_in (PyInt r) (_overrides m1) = false /\
    In r (_inactiveInfluences (invalidateFilter m1)) /\
    isRowHidden (invalidateFilter m1) (PyInt r) = true.
Proof.
  intros Hargs Hcount Hlabel Hvis Hsel.
  unfold setOverrides. rewrite Hargs. cbn [negb].
  set (m0 := with_overrides args m). exists (invalidateFilter m0).
  split; [reflexivity|].
  assert (Hin0 : py_in (PyInt r) (_overrides m0) = true).
  { destruct (py_in (PyInt r) (_overrides m0)) eqn:E; [reflexivity|].
    apply py_count_zero_not_in in E. simpl in E. lia. }
  assert (Hacc0 : accepts m0 r = true).
  { unfold accepts. change (isItemNull m0 r) with (isItemNull m r).
    rewrite Hlabel, Hin0. cbn. apply orb_true_r. }
  assert (Hcons0 : consumed m0 r = true).
  { unfold consumed. change (isItemNull m0 r) with (isItemNull m r).
    change (_visible m0) with (_visible m). change (_selectedRows m0) with (_selectedRows m).
    rewrite Hlabel, Hvis, Hsel, Hin0. reflexivity. }
  assert (Hrow : In r (sourceRows m0)) by (apply itemText_sourceRows; exact Hlabel).
  destruct (invalidateFilter_lists m0) as [Ha Hi].
  destruct (invalidateFilter_fields m0) as (Hl & Hs & _).
  pose proof (invalidateFilter_visible m0) as Hv.
  pose proof (invalidateFilter_count m0 r) as Hc.
  rewrite Hcons0 in Hc. change (_overrides m0) with args in Hc. rewrite Hcount in Hc.
  simpl in Hc. apply py_count_zero_not_in in Hc.
  set (m1 := invalidateFilter m0) in *.
  assert (Hact : In r (_activeInfluences m1)).
  { rewrite Ha. apply filter_In. auto. }
  assert (Hnothidden : isRowHidden m1 (PyInt r) = false).
  { destruct (isRowHidden m1 (PyInt r)) eqn:E; [|reflexivity].
    apply isRowHidden_spec in E. destruct E as (r' & Er & Hr'). injection Er as <-.
    rewrite Hi in Hr'. apply filter_In in Hr'. destruct Hr' as [_ Hr'].
    rewrite Hacc0 in Hr'. discriminate. }
  assert (Hacc1 : accepts m1 r = false).
  { unfold accepts, isItemNull, itemText. rewrite Hl, Hv, Hs, Hc.
    change (_visible m0) with (_visible m). change (_selectedRows m0) with (_selectedRows m).
    rewrite Hvis, Hsel. apply andb_false_r. }
  assert (Hinact : In r (_inactiveInfluences (invalidateFilter m1))).
  { destruct (invalidateFilter_lists m1) as [_ Hi1]. rewrite Hi1. apply filter_In.
    split; [|rewrite Hacc1; reflexivity].
    unfold sourceRows. rewrite Hl. exact Hrow. }
  repeat split; try assumption.
  apply isRowHidden_spec. exists r. auto.
Qed.

Lemma py_count_remove_le (x y : pyval) (l : list pyval) :
  (py_count x (py_remove y l) <= py_count x l)%nat.
Proof.
  induction l as [|z l IH]; simpl; [lia|].
  destruct (py_eq z y); simpl; lia.
Qed.

Lemma filterRows_overrides_le (rows : list Z) (x : pyval) :
  forall m, (py_count x (_overrides (fst (filterRows rows m))) <= py_count x (_overrides m))%nat.
Proof.
  induction rows as [|row rest IH]; intros m; [simpl; lia|].
  pose proof (filterAcceptsRow_overrides row m) as Ho.
  simpl. destruct (filterAcceptsRow row m) as [m1 b]. simpl in Ho.
  specialize (IH m1). destruct (filterRows rest m1) as [m2 bs]. simpl in *.
  rewrite Ho in IH. destruct (consumed m row); [|exact IH].
  pose proof (py_count_remove_le x (PyInt row) (_overrides m)). lia.
Qed.

Lemma filterAcceptsRow_kept (row : Z) (m : FilterModel) :
  labels (fst (filterAcceptsRow row m)) = labels m /\
  _visible (fst (filterAcceptsRow row m)) = _visible m /\
  _selectedRows (fst (filterAcceptsRow row m)) = _selectedRows m /\
  _autoSelect (fst (filterAcceptsRow row m)) = _autoSelect m.
Proof.
  unfold filterAcceptsRow.
  destruct (isItemNull m row); [cbn; auto|].
  destruct (py_in (PyInt row) (_visible m) || py_in (PyInt row) (_selectedRows m));
    [cbn; auto|].
  destruct (py_in (PyInt row) (_overrides m)); cbn; auto.
Qed.

Lemma filterRows_kept (rows : list Z) :
  forall m,
  labels (fst (filterRows rows m)) = labels m /\
  _visible (fst (filterRows rows m)) = _visible m /\
  _selectedRows (fst (filterRows rows m)) = _selectedRows m /\
  _autoSelect (fst (filterRows rows m)) = _autoSelect m.
Proof.
  induction rows as [|row rest IH]; intros m; [cbn; auto|].
  destruct (filterAcceptsRow_kept row m) as (Hl & Hv & Hs & Hau).
  cbn [filterRows]. destruct (filterAcceptsRow row m) as [m1 b]. cbn [fst] in *.
  destruct (IH m1) as (Hl1 & Hv1 & Hs1 & Hau1).
  destruct (filterRows rest m1) as [m2 bs]. cbn [fst] in *.
  repeat split; congruence.
Qed.

(** X4. Whatever rows the framework asks about during a pass, in whatever
    order and however often, the pass never touches the labels, the visible
    rows, the cached selection or the auto-select switch, and it never adds
    an override: of every value the overrides hold at most as many copies
    after the pass as before. *)
Theorem filter_pass_frame (m : FilterModel) (rows : list Z) :
  labels (invalidateFilter_in rows m) = labels m /\
  _visible (invalidateFilter_in rows m) = _visible m /\
  _selectedRows (invalidateFilter_in rows m) = _selectedRows m /\
  _autoSelect (invalidateFilter_in rows m) = _autoSelect m /\
  forall x, (py_count x (_overrides (invalidateFilter_in rows m))
             <= py_count x (_overrides m))%nat.
Proof.
  unfold invalidateFilter_in.
  destruct (filterRows_kept rows (with_inactive [] (with_active [] m)))
    as (Hl & Hv & Hs & Hau).
  repeat split; try assumption.
  intros x. apply (filterRows_overrides_le rows x (with_inactive [] (with_active [] m))).
Qed.

Lemma invalidateFilter_times_labels (n : nat) (m : FilterModel) :
  labels (invalidateFilter_times n m) = labels m.
Proof.
  induction n as [|n IH]; [reflexivity|].
  cbn [invalidateFilter_times].
  destruct (invalidateFilter_fields (invalidateFilter_times n m)) as (Hl & _).
  rewrite Hl. exact IH.
Qed.

(** X5. An override on a row without a label (or outside the source model)
    is never used up and never shows the row: after any number of passes
    the overrides hold it as often as before and the row is not active. *)
Theorem null_row_override_stays (n : nat) (m : FilterModel) (r : Z) :
  isItemNull m r = true ->
  py_count (PyInt r) (_overrides (invalidateFilter_times n m))
  = py_count (PyInt r) (_overrides m) /\
  ~ In r (_activeInfluences (invalidateFilter_times (S n) m)).
Proof.
  intros Hnull.
  assert (Hnull' : forall k, isItemNull (invalidateFilter_times k m) r = true).
  { intros k. unfold isItemNull, itemText. rewrite invalidateFilter_times_labels. exact Hnull. }
  split.
  - induction n as [|n IH]; [reflexivity|].
    cbn [invalidateFilter_times].
    rewrite invalidateFilter_count. unfold consumed. rewrite (Hnull' n). simpl.
    rewrite Nat.sub_0_r. exact IH.
  - cbn [invalidateFilter_times].
    destruct (invalidateFilter_lists (invalidateFilter_times n m)) as [Ha _].
    rewrite Ha. intros H. apply filter_In in H. destruct H as [_ H].
    unfold accepts in H. rewrite (Hnull' n) in H. discriminate.
Qed.

(** X6. After a pass [isRowHidden] answers yes exactly for the rows of the
    source model that the pass rejected; a boolean counts as row 0 or 1, and
    anything that is not a number, like any row outside the model, is never
    hidden. *)
Theorem isRowHidden_after_pass (m : FilterModel) (x : pyval) :
  (isRowHidden (invalidateFilter m) x = true <->
   exists r, as_int x = Some r /\ 0 <= r < rowCount m /\ accepts m r = false) /\
  (isinstance_int x = false -> isRowHidden (invalidateFilter m) x = false) /\
  (forall r, as_int x = Some r -> ~ 0 <= r < rowCount m ->
             isRowHidden (invalidateFilter m) x = false).
Proof.
  assert (Hmain : isRowHidden (invalidateFilter m) x = true <->
                  exists r, as_int x = Some r /\ 0 <= r < rowCount m /\ accepts m r = false).
  { rewrite isRowHidden_spec. destruct (invalidateFilter_lists m) as [_ Hi]. rewrite Hi.
    split; intros (r & Ex & H); exists r; (split; [exact Ex|]).
    - apply filter_In in H. destruct H as [H1 H2]. apply sourceRows_In in H1.
      apply negb_true_iff in H2. auto.
    - apply filter_In. destruct H as [H1 H2]. split; [apply sourceRows_In, H1|].
      rewrite H2. reflexivity. }
  split; [exact Hmain|]. split.
  - intros Hx. destruct (isRowHidden (invalidateFilter m) x) eqn:E; [|reflexivity].
    destruct (proj1 Hmain eq_refl) as (r & Ex & _). destruct x; discriminate.
  - intros r Ex Hout. destruct (isRowHidden (invalidateFilter m) x) eqn:E; [|reflexivity].
    destruct (proj1 Hmain eq_refl) as (r' & Ex' & Hin & _). congruence.
Qed.

(** ** Searching *)

Lemma list_ascii_of_string_app (s t : string) :
  list_ascii_of_string (s ++ t) = list_ascii_of_string s ++ list_ascii_of_string t.
Proof. induction s as [|c s IH]; simpl; [reflexivity|]. rewrite IH. reflexivity. Qed.

Lemma decode_utf8_app (a : list ascii) :
  forall need acc b, utf8_pending need a = 0%nat ->
  decode_utf8 need acc (a ++ b) = decode_utf8 need acc a ++ decode_utf8 0 0 b.
Proof.
  induction a as [|c a IH]; intros need acc b H.
  - cbn in H. subst need. destruct b; reflexivity.
  - cbn [app decode_utf8 utf8_pending] in *. cbv zeta in *.
    destruct need as [|[|k]].
    + destruct (N_of_ascii c <? 128)%N; [rewrite (IH _ _ _ H); reflexivity|].
      destruct (N_of_ascii c <? 224)%N; [apply IH, H|].
      destruct (N_of_ascii c <? 240)%N; apply IH, H.
    + rewrite (IH _ _ _ H). reflexivity.
    + apply IH, H.
Qed.

Lemma decode_utf8_nonempty (a : list ascii) :
  forall need acc, decode_utf8 need acc a = [] -> a = [] /\ need = 0%nat.
Proof.
  induction a as [|c a IH]; intros need acc H.
  - destruct need; [auto|discriminate].
  - exfalso. cbn [decode_utf8] in H. cbv zeta in H. destruct need as [|[|k]].
    + destruct (N_of_ascii c <? 128)%N; [discriminate|].
      destruct (N_of_ascii c <? 224)%N; [apply IH in H; destruct H; discriminate|].
      destruct (N_of_ascii c <? 240)%N; apply IH in H; destruct H; discriminate.
    + discriminate.
    + apply IH in H. destruct H; discriminate.
Qed.

Lemma codepoints_empty (s : string) : codepoints s = [] <-> s = EmptyString.
Proof.
  split; [|intros ->; reflexivity]. unfold codepoints. intros H.
  apply decode_utf8_nonempty in H. destruct H as [H _].
  destruct s; [reflexivity|discriminate].
Qed.

Lemma codepoints_searchChanged (text : string) :
  utf8_whole text = true ->
  codepoints (searchChanged text) = ch "*" :: codepoints text ++ [ch "*"].
Proof.
  unfold utf8_whole, searchChanged, codepoints. intros H. apply Nat.eqb_eq in H.
  change (list_ascii_of_string ("*" ++ text ++ "*"))
    with ("*"%char :: list_ascii_of_string (text ++ "*")).
  rewrite list_ascii_of_string_app.
  change (decode_utf8 0 0 ("*"%char :: ?l)) with (ch "*" :: decode_utf8 0 0 l).
  rewrite (decode_utf8_app _ _ _ _ H). reflexivity.
Qed.

Section SearchFacts.

Variable rt : Runtime.

Lemma is_ascii_app (s t : list N) : is_ascii (s ++ t) = is_ascii s && is_ascii t.
Proof. apply forallb_app. Qed.

Lemma is_ascii_slashes (s : list N) :
  is_ascii s = true ->
  is_ascii (map (fun c => if (c =? ch "/")%N then ch "\" else c) s) = true.
Proof.
  unfold is_ascii. rewrite !forallb_forall. intros H c Hc.
  apply in_map_iff in Hc. destruct Hc as (d & <- & Hd).
  destruct (d =? ch "/")%N; [reflexivity|apply H, Hd].
Qed.

Lemma lower_nonempty (s : list N) : lower rt s = [] -> s = [].
Proof.
  unfold lower. destruct (is_ascii s).
  - destruct s; [reflexivity|discriminate].
  - apply unicodeLower_nonempty.
Qed.

Lemma normcase_empty (p : platform) (s : list N) : normcase rt p s = [] <-> s = [].
Proof.
  split; [|intros ->; destruct p; reflexivity].
  destruct p; cbn [normcase]; [auto|]. intros H. apply lower_nonempty in H.
  destruct s; [reflexivity|discriminate].
Qed.

(** The stars that [searchChanged] puts around the text stay around it. *)
Lemma normcase_stars (p : platform) (s : list N) :
  p = Posix \/ is_ascii s = true ->
  normcase rt p (ch "*" :: s ++ [ch "*"]) = ch "*" :: normcase rt p s ++ [ch "*"].
Proof.
  destruct p; [reflexivity|]. intros [H|H]; [discriminate|].
  cbn [normcase]. unfold lower.
  rewrite (is_ascii_slashes s H).
  change (map ?f (ch "*" :: s ++ [ch "*"])) with (ch "*" :: map f (s ++ [ch "*"])).
  rewrite map_app.
  change (map ?f [ch "*"]) with [ch "*"].
  assert (Ha : is_ascii (ch "*" :: map (fun c => if (c =? ch "/")%N then ch "\" else c) s
                         ++ [ch "*"]) = true).
  { change (is_ascii (?c :: ?l)) with ((c <? 128)%N && is_ascii l).
    rewrite is_ascii_app, (is_ascii_slashes s H). reflexivity. }
  rewrite Ha. cbn [map]. rewrite map_app. reflexivity.
Qed.

Lemma glob_empty_iff (t : list N) : glob_match rt [] t <-> t = [].
Proof. split; [intros H; inversion H; reflexivity|intros ->; constructor]. Qed.

Lemma glob_star_all (t : list N) : glob_match rt [ch "*"] t.
Proof.
  rewrite <- (app_nil_r t). apply glob_star. constructor.
Qed.

Lemma glob_literal_prefix (s p t : list N) :
  wildcard_free s = true ->
  (glob_match rt (s ++ p) t <-> exists u, t = s ++ u /\ glob_match rt p u).
Proof.
  revert t. induction s as [|c s IH]; intros t Hs.
  - simpl. split; [intros H; exists t; auto|intros (u & -> & H); exact H].
  - cbn [wildcard_free forallb] in Hs. apply andb_true_iff in Hs. destruct Hs as [Hc Hs].
    apply andb_true_iff in Hc. destruct Hc as [Hc Hb].
    apply andb_true_iff in Hc. destruct Hc as [Hstar Hq].
    apply negb_true_iff in Hstar, Hq, Hb.
    apply N.eqb_neq in Hstar, Hq, Hb. ch_norm. simpl. split.
    + intros H. inversion H; subst; ch_norm; try congruence.
      match goal with Hg : glob_match rt (s ++ p) _ |- _ => apply IH in Hg; [|exact Hs];
        destruct Hg as (u & -> & Hu) end.
      exists u. auto.
    + intros (u & -> & Hu). simpl. apply glob_literal; try assumption.
      apply IH; [exact Hs|]. exists u. auto.
Qed.

Lemma glob_contains (s t : list N) :
  wildcard_free s = true ->
  (glob_match rt (ch "*" :: s ++ [ch "*"]) t <-> exists pre post, t = pre ++ s ++ post).
Proof.
  intros Hs. split.
  - intros H. inversion H; subst; ch_norm; try congruence; try discriminate.
    match goal with Hg : glob_match rt (s ++ _) _ |- _ =>
      apply glob_literal_prefix in Hg; [|exact Hs]; destruct Hg as (u & -> & _) end.
    eauto.
  - intros (pre & post & ->). apply glob_star.
    apply glob_literal_prefix; [exact Hs|]. exists post. split; [reflexivity|].
    apply glob_star_all.
Qed.

Lemma wildcard_free_bracket_free (s : list N) :
  wildcard_free s = true -> bracket_free (ch "*" :: s ++ [ch "*"]) = true.
Proof.
  intros Hs. unfold bracket_free. cbn [forallb]. rewrite forallb_app. cbn [forallb].
  rewrite andb_true_r.
  change (negb (ch "*" =? ch "[")%N) with true. cbn [andb].
  apply forallb_forall. intros c Hc. unfold wildcard_free in Hs.
  rewrite forallb_forall in Hs. specialize (Hs c Hc).
  apply andb_true_iff in Hs. tauto.
Qed.

End SearchFacts.

Lemma py_in_map_PyInt (r : Z) (rows : list Z) :
  py_in (PyInt r) (map PyInt rows) = true <-> In r rows.
Proof.
  unfold py_in. rewrite existsb_exists. split.
  - intros (x & Hx & E). apply in_map_iff in Hx. destruct Hx as (r' & <- & Hr').
    unfold py_eq in E. simpl in E. apply Z.eqb_eq in E. subst. exact Hr'.
  - intros H. exists (PyInt r). split; [apply in_map, H|].
    unfold py_eq. simpl. apply Z.eqb_refl.
Qed.

Section SearchBox.

Context {Float Skin : Type}.
Variable rt : Runtime.
Implicit Types w : World Float Skin.

(** What [searchPressed] does, whatever the pattern is. *)
Lemma searchPressed_run (p : platform) (search : string) w :
  searchPressed rt p search w
  = match filterRowsByPattern rt p (PyStr search) (influenceFilterModel w) with
    | Ok rows =>
        Res (with_filterModel Influence
               (invalidateFilter (with_visible (map PyInt rows) (influenceFilterModel w))) w)
            [] (Ok tt)
    | Raise e => Res w [] (Raise e)
    end.
Proof.
  unfold searchPressed. rewrite bind_get.
  destruct (filterRowsByPattern rt p (PyStr search) (influenceFilterModel w)) as [rows|e];
    cbn [liftOutcome]; [|reflexivity].
  rewrite bind_ret. unfold onModel, setVisible.
  rewrite forallb_isinstance_PyInt. reflexivity.
Qed.

(** The visible rows after a search whose pattern compiles. *)
Lemma searchPressed_visible (p : platform) (search : string) w :
  patternCompiles rt (normcase rt p (codepoints search)) = true ->
  exists rows,
    searchPressed rt p search w
    = Res (with_filterModel Influence
             (invalidateFilter (with_visible (map PyInt rows) (influenceFilterModel w))) w)
          [] (Ok tt) /\
    forall row, In row rows <->
      exists label, itemText (influenceFilterModel w) row = Some label /\
        glob_match rt (normcase rt p (codepoints search)) (normcase rt p (codepoints label)).
Proof.
  intros Hc.
  destruct (filterRowsByPattern_rows rt p search (influenceFilterModel w) Hc)
    as (rows & Hrows & _ & Hin).
  exists rows. split; [|exact Hin]. rewrite searchPressed_run, Hrows. reflexivity.
Qed.

(** X7. Pressing search changes the influence list only and makes no call:
    either the visible rows become the rows whose label matches and the
    filter runs again, or, when the engine rejects a character class of the
    text, the engine's error is raised and nothing changes.  After typing a
    text without wildcard characters, on POSIX or made of ASCII characters,
    the search does not fail and the visible rows are exactly the rows whose
    label contains the text (both after [normcase]); with no text typed in,
    every row is visible and so every labelled row is shown. *)
Theorem search_shows_rows_containing_text (p : platform) (text : string) w :
  let m := influenceFilterModel w in
  let r := searchPressed (Float:=Float) (Skin:=Skin) rt p (searchChanged text) w in
  events r = [] /\
  weightFilterModel (world r) = weightFilterModel w /\
  (out r = Ok tt \/ out r = Raise ReError /\ world r = w) /\
  (utf8_whole text = true ->
   p = Posix \/ is_ascii (codepoints text) = true ->
   wildcard_free (normcase rt p (codepoints text)) = true ->
   out r = Ok tt /\
   forall row,
     py_in (PyInt row) (_visible (influenceFilterModel (world r))) = true <->
     exists label,
       itemText m row = Some label /\
       exists pre post,
         normcase rt p (codepoints label)
         = pre ++ normcase rt p (codepoints text) ++ post) /\
  (text = EmptyString ->
   out r = Ok tt /\
   forall row,
     In row (_activeInfluences (influenceFilterModel (world r))) <->
     0 <= row < rowCount m /\ isItemNull m row = false).
Proof.
  intros m r.
  assert (Hgen : events r = [] /\ weightFilterModel (world r) = weightFilterModel w /\
                 (out r = Ok tt \/ out r = Raise ReError /\ world r = w)).
  { subst r. rewrite searchPressed_run. fold m.
    destruct (patternCompiles rt (normcase rt p (codepoints (searchChanged text)))) eqn:Hc.
    - destruct (filterRowsByPattern_rows rt p (searchChanged text) m Hc) as (rows & -> & _).
      cbn. auto.
    - rewrite (filterRowsByPattern_raises rt p (searchChanged text) m Hc).
      destruct (labels m); cbn; auto. }
  destruct Hgen as (Hev & Hw & Hout).
  split; [exact Hev|]. split; [exact Hw|]. split; [exact Hout|].
  assert (Hsub : utf8_whole text = true ->
                 p = Posix \/ is_ascii (codepoints text) = true ->
                 wildcard_free (normcase rt p (codepoints text)) = true ->
                 exists rows,
                   r = Res (with_filterModel Influence
                              (invalidateFilter (with_visible (map PyInt rows) m)) w)
                           [] (Ok tt) /\
                   forall row, In row rows <->
                     exists label, itemText m row = Some label /\
                       exists pre post,
                         normcase rt p (codepoints label)
                         = pre ++ normcase rt p (codepoints text) ++ post).
  { intros Hwhole Hplain Hfree.
    assert (Hpat : normcase rt p (codepoints (searchChanged text))
                   = ch "*" :: normcase rt p (codepoints text) ++ [ch "*"]).
    { rewrite (codepoints_searchChanged text Hwhole). apply normcase_stars, Hplain. }
    destruct (searchPressed_visible p (searchChanged text) w) as (rows & Hrun & Hin).
    { rewrite Hpat. apply bracket_free_compiles, wildcard_free_bracket_free, Hfree. }
    exists rows. split; [exact Hrun|]. intros row. rewrite Hin. fold m.
    split; intros (label & Hl & H); exists label; (split; [exact Hl|]).
    - rewrite Hpat in H. apply glob_contains in H; assumption.
    - rewrite Hpat. apply glob_contains; assumption. }
  split.
  - intros Hwhole Hplain Hfree.
    destruct (Hsub Hwhole Hplain Hfree) as (rows & -> & Hin). cbn [out world].
    split; [reflexivity|]. intros row.
    cbn [with_filterModel influenceFilterModel]. rewrite invalidateFilter_visible.
    cbn [_visible with_visible]. rewrite py_in_map_PyInt. apply Hin.
  - intros ->.
    destruct (Hsub eq_refl (or_intror eq_refl)) as (rows & -> & Hin);
      [destruct p; reflexivity|].
    cbn [out world]. split; [reflexivity|]. intros row.
    assert (Hall : forall row, In row rows <-> exists label, itemText m row = Some label).
    { intros row'. rewrite (Hin row').
      split; [intros (l & Hl & _); eauto|].
      intros (l & Hl). exists l. split; [exact Hl|].
      exists [], (normcase rt p (codepoints l)).
      destruct p; reflexivity. }
    cbn [with_filterModel influenceFilterModel].
    destruct (invalidateFilter_lists (with_visible (map PyInt rows) m)) as [Ha _].
    rewrite Ha, filter_In.
    change (sourceRows (with_visible (map PyInt rows) m)) with (sourceRows m).
    rewrite sourceRows_In. unfold accepts.
    change (isItemNull (with_visible (map PyInt rows) m) row) with (isItemNull m row).
    cbn [_visible with_visible].
    split.
    + intros [Hr H]. split; [exact Hr|]. destruct (isItemNull m row); [discriminate|reflexivity].
    + intros [Hr Hnull]. split; [exact Hr|]. rewrite Hnull. cbn [negb andb].
      assert (Hv : py_in (PyInt row) (map PyInt rows) = true).
      { apply py_in_map_PyInt, Hall. unfold isItemNull in Hnull.
        destruct (itemText m row) as [l|]; [eauto|discriminate]. }
      rewrite Hv. reflexivity.
Qed.

(** X8. Before any text was typed the search string is empty, and the empty
    pattern matches only an empty label.  Pressing search then makes
    exactly the rows without a label visible, which are never shown: what
    stays on display are the labelled rows that are selected or
    overridden. *)
Theorem search_before_typing_hides_rows (p : platform) w :
  let m := influenceFilterModel w in
  let r := searchPressed (Float:=Float) (Skin:=Skin) rt p EmptyString w in
  out r = Ok tt /\
  (forall row,
     py_in (PyInt row) (_visible (influenceFilterModel (world r))) = true <->
     itemText m row = Some EmptyString) /\
  (forall row,
     In row (_activeInfluences (influenceFilterModel (world r))) <->
     0 <= row < rowCount m /\ isItemNull m row = false /\
     (py_in (PyInt row) (_selectedRows m) = true \/
      py_in (PyInt row) (_overrides m) = true)).
Proof.
  intros m r.
  destruct (searchPressed_visible p EmptyString w) as (rows & Hrun & Hin);
    [destruct p; reflexivity|].
  fold m in Hrun, Hin. subst r. rewrite Hrun. cbn [world events out].
  split; [reflexivity|].
  assert (Hempty : forall row, In row rows <-> itemText m row = Some EmptyString).
  { intros row. rewrite Hin.
    assert (Hpat : normcase rt p (codepoints EmptyString) = [])
      by (destruct p; reflexivity).
    rewrite Hpat. split.
    - intros (label & Hl & H). rewrite Hl. f_equal.
      apply glob_empty_iff, normcase_empty, codepoints_empty in H. exact H.
    - intros Hl. exists EmptyString. split; [exact Hl|]. rewrite Hpat. constructor. }
  cbn [with_filterModel influenceFilterModel].
  split.
  - intros row. rewrite invalidateFilter_visible. cbn [_visible with_visible].
    rewrite py_in_map_PyInt. apply Hempty.
  - intros row.
    destruct (invalidateFilter_lists (with_visible (map PyInt rows) m)) as [Ha _].
    rewrite Ha, filter_In.
    change (sourceRows (with_visible (map PyInt rows) m)) with (sourceRows m).
    rewrite sourceRows_In. unfold accepts.
    change (isItemNull (with_visible (map PyInt rows) m) row) with (isItemNull m row).
    cbn [_visible _selectedRows _overrides with_visible].
    destruct (isItemNull m row) eqn:Hnull; cbn [negb andb].
    + split; [intros [_ H]; discriminate|intros (_ & H & _); discriminate].
    + assert (Hv : py_in (PyInt row) (map PyInt rows) = false).
      { destruct (py_in (PyInt row) (map PyInt rows)) eqn:E; [|reflexivity].
        apply py_in_map_PyInt, Hempty in E. unfold isItemNull in Hnull.
        rewrite E in Hnull. discriminate. }
      rewrite Hv. cbn [orb]. rewrite orb_true_iff. tauto.
Qed.

End SearchBox.

(** ** Rows by name *)

Lemma findItems_In (m : FilterModel) (text : string) (row : Z) :
  In row (findItems m text) <-> itemText m row = Some text.
Proof.
  unfold findItems. rewrite filter_In. split.
  - intros [_ H]. destruct (itemText m row) as [s|]; [|discriminate].
    apply String.eqb_eq in H. congruence.
  - intros H. split.
    + apply sourceRows_In. unfold itemText in H.
      destruct (0 <=? row) eqn:E; [|discriminate]. apply Z.leb_le in E.
      assert (Hlt : (Z.to_nat row < length (labels m))%nat)
        by (apply nth_error_Some; congruence).
      unfold rowCount. lia.
    + rewrite H. apply String.eqb_refl.
Qed.

Lemma filter_none (f : Z -> bool) (l : list Z) :
  (forall x, In x l -> f x = false) -> List.filter f l = [].
Proof.
  induction l as [|y l IH]; intros Hf; [reflexivity|]. cbn [List.filter].
  rewrite (Hf y (or_introl eq_refl)). apply IH. intros x Hx. apply Hf. right. exact Hx.
Qed.

Lemma filter_singleton (f : Z -> bool) (r : Z) (l : list Z) :
  List.NoDup l -> In r l -> (forall x, In x l -> (f x = true <-> x = r)) ->
  List.filter f l = [r].
Proof.
  induction l as [|y l IH]; intros Hnd Hin Hf; [destruct Hin|].
  inversion Hnd as [|? ? Hy Hnd']; subst. cbn [List.filter].
  destruct (Z.eq_dec y r) as [->|Hne].
  - rewrite (proj2 (Hf r (or_introl eq_refl)) eq_refl). f_equal.
    apply filter_none. intros x Hx. destruct (f x) eqn:Ex; [|reflexivity].
    exfalso. apply Hy. rewrite <- (proj1 (Hf x (or_intror Hx)) Ex). exact Hx.
  - destruct (f y) eqn:Ey.
    + exfalso. apply Hne. apply (Hf y); [left; reflexivity|exact Ey].
    + destruct Hin as [->|Hin]; [congruence|]. apply IH; [exact Hnd'|exact Hin|].
      intros x Hx. apply Hf. right. exact Hx.
Qed.

Lemma findItems_unique (m : FilterModel) (text : string) (row : Z) :
  List.NoDup (labels m) -> itemText m row = Some text -> findItems m text = [row].
Proof.
  intros Hnd Hrow. unfold findItems.
  apply filter_singleton; [apply sourceRows_NoDup|apply sourceRows_In| ].
  - apply findItems_In in Hrow. unfold findItems in Hrow. apply filter_In in Hrow.
    apply sourceRows_In, Hrow.
  - intros x Hx. split.
    + intros H. destruct (itemText m x) as [s|] eqn:Ex; [|discriminate].
      apply String.eqb_eq in H. subst s.
      unfold itemText in Ex, Hrow.
      destruct (0 <=? x) eqn:E1; [|discriminate].
      destruct (0 <=? row) eqn:E2; [|discriminate].
      apply Z.leb_le in E1. apply Z.leb_le in E2.
      assert (Hi : Z.to_nat x = Z.to_nat row).
      { apply (proj1 (List.NoDup_nth_error (labels m)) Hnd).
        - apply nth_error_Some. congruence.
        - congruence. }
      lia.
    + intros ->. rewrite Hrow. apply String.eqb_refl.
Qed.

(** X20. [getRowsByText] returns exactly the rows whose label is one of the
    given texts, text by text and in row order within a text; a text that
    labels no row contributes nothing, a single string is treated as a list
    of one, and anything else gives the empty list.  When no two rows share
    a label, the names of the selected rows lead back to the selected rows:
    [getRowsByText(getSelectedItems())] is [getSelectedRows()]. *)
Theorem names_lead_back_to_rows (m : FilterModel) :
  (forall texts row,
     In row (getRowsByText (TextsSeq texts) m) <->
     exists text, In text texts /\ itemText m row = Some text) /\
  (forall text, (forall row, itemText m row <> Some text) ->
     getRowsByText (TextsStr text) m = []) /\
  (forall texts1 texts2,
     getRowsByText (TextsSeq (texts1 ++ texts2)) m
     = getRowsByText (TextsSeq texts1) m ++ getRowsByText (TextsSeq texts2) m) /\
  (forall o names, List.NoDup (labels m) -> getSelectedItems o m = Some names ->
     getRowsByText (TextsSeq names) m = getSelectedRows o m).
Proof.
  split; [|split; [|split]].
  - intros texts row. cbn [getRowsByText]. rewrite in_flat_map. split.
    + intros (text & Hin & Hrow). exists text. split; [exact Hin|].
      apply findItems_In, Hrow.
    + intros (text & Hin & Hrow). exists text. split; [exact Hin|].
      apply findItems_In, Hrow.
  - intros text Hnone. cbn [getRowsByText flat_map]. rewrite app_nil_r.
    destruct (findItems m text) as [|row rest] eqn:E; [reflexivity|].
    exfalso. apply (Hnone row), findItems_In. rewrite E. left. reflexivity.
  - intros texts1 texts2. cbn [getRowsByText]. apply flat_map_app.
  - intros o names Hnd. unfold getSelectedItems. cbn [getRowsByText].
    generalize (getSelectedRows o m). intros rows. revert names.
    induction rows as [|row rows IH]; intros names Hnames.
    + cbn in Hnames. injection Hnames as <-. reflexivity.
    + cbn [itemTexts] in Hnames.
      destruct (itemText m row) as [s|] eqn:Es; [|discriminate].
      destruct (itemTexts m rows) as [ss|]; [|discriminate].
      injection Hnames as <-. cbn [flat_map].
      rewrite (findItems_unique m s row Hnd Es), (IH ss eq_refl). reflexivity.
Qed.

Section Rejections.

Context {Float Skin : Type} (host : Host Float Skin).
Implicit Types w : World Float Skin.

Lemma forallb_isinstance_int_false (args : list pyval) (x : pyval) :
  In x args -> isinstance_int x = false -> forallb isinstance_int args = false.
Proof.
  intros Hin Hx. destruct (forallb isinstance_int args) eqn:E; [|reflexivity].
  rewrite forallb_forall in E. rewrite (E x Hin) in Hx. discriminate.
Qed.

(** X19. The checked entry points fail closed.  [setVisible],
    [setOverrides] and [selectInfluences] given anything that is not an
    integer raise [TypeError] before they touch the model: nothing is
    stored, the filter does not run, no view is called.  [setAutoSelect]
    accepts a [bool] only: an integer, which the row setters take for a
    bool's equal, is rejected here, and the mode is not changed. *)
Theorem checked_setters_fail_closed (fuel : nat) (i : ModelId) (args : list pyval)
    (x : pyval) w :
  In x args -> isinstance_int x = false ->
  runOperation host fuel (SetVisible i args) w
  = Res w [] (Raise (TypeError "setVisible() expects a sequence of integers!")) /\
  runOperation host fuel (SetOverrides i args) w
  = Res w [] (Raise (TypeError "setOverrides() expects a sequence of integers!")) /\
  runOperation host fuel (SelectInfluences i args) w
  = Res w [] (Raise (TypeError "selectInfluences() expects a sequence of integers!")) /\
  (forall v, isinstance_bool v = false ->
     exists msg, runOperation host fuel (SetAutoSelect i v) w = Res w [] (Raise (TypeError msg))).
Proof.
  intros Hin Hx. pose proof (forallb_isinstance_int_false args x Hin Hx) as Hall.
  cbn [runOperation]. unfold onModel, setVisible, setOverrides, selectInfluences,
    selectInfluences_body.
  rewrite Hall. cbn [negb]. repeat split.
  intros v Hv. unfold setAutoSelect. destruct v; try discriminate; eexists; reflexivity.
Qed.

End Rejections.

(** ** What a selection change does *)

Section Frames.

Context {Float Skin : Type} (host : Host Float Skin).
Implicit Types w : World Float Skin.

Lemma frame_bind {A B : Type} (V : ModelId -> bool) (p : bool)
    (c : M Float Skin A) (k : A -> M Float Skin B) :
  frame V p c -> (forall a, frame V p (k a)) -> frame V p (bind c k).
Proof.
  intros Hc Hk w Hp. rewrite bind_run. destruct (Hc w Hp) as [Hpend Hv].
  destruct (out (c w)) as [a|e]; cbn [world events]; [|split; assumption].
  destruct (Hk a (world (c w))) as [Hpend' Hv']; [intros E; apply Hpend, Hp, E|].
  split; [intros E; apply Hpend', Hpend, E|].
  intros j Hj. rewrite (Hv' j Hj). apply Hv, Hj.
Qed.

Lemma frame_ret {A : Type} V (p : bool) (a : A) : frame V p (ret a : M Float Skin A).
Proof. intros w _. cbn. auto. Qed.

Lemma frame_raise {A : Type} V (p : bool) (e : exn) : frame V p (raise e : M Float Skin A).
Proof. intros w _. cbn. auto. Qed.

Lemma frame_get V (p : bool) : frame V p (get : M Float Skin _).
Proof. intros w _. cbn. auto. Qed.

Lemma frame_emit V (p : bool) (ev : event Float) : frame V p (emit ev : M Float Skin unit).
Proof. intros w _. cbn. auto. Qed.

Lemma frame_modify V (p : bool) (f : World Float Skin -> World Float Skin) :
  (forall w, __pending__ (f w) = __pending__ w) ->
  (forall w j, V j = true -> filterModel j (f w) = filterModel j w) ->
  frame V p (modify f).
Proof. intros Hf Hv w _. cbn. rewrite Hf. split; [auto|]. intros j Hj. apply Hv, Hj. Qed.

Lemma filterModel_with_filterModel_other (i j : ModelId) (m : FilterModel) w :
  ModelId_eqb j i = false -> filterModel j (with_filterModel i m w) = filterModel j w.
Proof. destruct i, j; cbn; auto; discriminate. Qed.

Lemma frame_touching (V : ModelId -> bool) (i j : ModelId) :
  V i = false -> V j = true -> ModelId_eqb j i = false.
Proof. destruct i, j; cbn; congruence. Qed.

Lemma frame_onModel V (p : bool) (i : ModelId) (f : FilterModel -> outcome FilterModel) :
  V i = false -> frame V p (onModel i f : M Float Skin unit).
Proof.
  intros Hi w _. unfold onModel.
  destruct (f (filterModel i w)) as [m'|e]; cbn [world events out]; [|auto].
  rewrite with_filterModel_pending. split; [auto|]. intros j Hj.
  apply filterModel_with_filterModel_other, (frame_touching V); assumption.
Qed.

Lemma frame_requestInfluenceChange V (p : bool) : frame V p (requestInfluenceChange host).
Proof.
  unfold requestInfluenceChange, validate, activeInfluence.
  apply frame_bind; [apply frame_get|]. intros w.
  destruct (skin_isValid host (_skin w)); [|apply frame_ret].
  apply frame_bind.
  { apply frame_bind; [apply frame_get|]. intros w'.
    destruct (_selectedRows _); [apply frame_raise|apply frame_ret]. }
  intros a. apply frame_bind; [|intros _; apply frame_emit].
  apply frame_modify; [reflexivity|]. intros w' j _. destruct j; reflexivity.
Qed.

Lemma frame_deliver V (p : bool) (slot : ModelId -> M Float Skin unit) (i : ModelId) :
  frame V p (slot i) -> frame V p (deliver slot i).
Proof. intros Hs w Hp. rewrite deliver_run. cbn [world events]. apply Hs, Hp. Qed.

Lemma frame_selectionModel_select V (p : bool) (slot : ModelId -> M Float Skin unit)
    (i : ModelId) (rows : list Z) :
  V i = false -> frame V p (slot i) -> frame V p (selectionModel_select host slot i rows).
Proof.
  intros Hi Hs. unfold selectionModel_select.
  apply frame_bind; [apply frame_get|]. intros w. cbn zeta.
  apply frame_bind; [apply frame_emit|]. intros _.
  apply frame_bind.
  { apply frame_modify; [intros; apply with_filterModel_pending|].
    intros w' j Hj. apply filterModel_with_filterModel_other, (frame_touching V); assumption. }
  intros _. destruct (viewEmits host _ _); [apply frame_deliver, Hs|apply frame_ret].
Qed.

Lemma frame_selectInfluences_body V (p : bool) (slot : ModelId -> M Float Skin unit)
    (i : ModelId) (rows : list pyval) :
  V i = false -> frame V p (slot i) -> frame V p (selectInfluences_body host slot i rows).
Proof.
  intros Hi Hs. unfold selectInfluences_body.
  destruct (negb _); [apply frame_raise|].
  apply frame_bind; [apply frame_get|]. intros w. cbn zeta.
  apply frame_bind.
  { destruct (0 <? length _)%nat; [|apply frame_ret]. apply frame_onModel, Hi. }
  intros _. destruct rows as [|first rest].
  - apply frame_bind; [apply frame_get|]. intros w'.
    destruct (_activeInfluences _); [apply frame_ret|].
    apply frame_bind; [apply frame_selectionModel_select; assumption|]. intros _.
    apply frame_emit.
  - apply frame_bind; [apply frame_selectionModel_select; assumption|]. intros _.
    apply frame_emit.
Qed.

Lemma frame_matchSelection_body_pending V (slot : ModelId -> M Float Skin unit) (i : ModelId) :
  frame V true (matchSelection_body host slot i).
Proof.
  intros w Hp. rewrite matchSelection_body_pending by auto. cbn. auto.
Qed.

Lemma frame_matchSelection_body V (slot : ModelId -> M Float Skin unit) (i : ModelId) :
  V (siblingModel i) = false -> frame V true (slot (siblingModel i)) ->
  frame V false (matchSelection_body host slot i).
Proof.
  intros Hi Hs w _. destruct (__pending__ w) eqn:Hp.
  - pose proof (frame_matchSelection_body_pending V slot i w (fun _ => Hp)) as H.
    rewrite Hp in H. exact H.
  - split; [discriminate|]. intros j Hj.
    rewrite matchSelection_body_start by exact Hp. cbn zeta.
    destruct (frame_selectInfluences_body V true slot (siblingModel i)
                (_selectedRows (filterModel i w)) Hi Hs (with_pending true w)
                (fun _ => eq_refl)) as [_ H].
    specialize (H j Hj).
    assert (E0 : filterModel j (with_pending true w) = filterModel j w)
      by (destruct j; reflexivity).
    destruct (out _); cbn [world events]; [|congruence].
    rewrite <- E0, <- H. destruct j; reflexivity.
Qed.

Lemma frame_onSelectionChanged_body_pending V (slot : ModelId -> M Float Skin unit)
    (i : ModelId) :
  V i = false -> frame V true (onSelectionChanged_body host slot i).
Proof.
  intros Hi. unfold onSelectionChanged_body.
  apply frame_bind; [apply frame_get|]. intros w. cbn zeta.
  destruct (length _ =? 0)%nat; [apply frame_ret|].
  apply frame_bind.
  { apply frame_modify; [intros; apply with_filterModel_pending|].
    intros w' j Hj. apply filterModel_with_filterModel_other, (frame_touching V); assumption. }
  intros _. apply frame_bind; [apply frame_get|]. intros w'.
  apply frame_bind; [|intros _; apply frame_requestInfluenceChange].
  destruct (_autoSelect _); [|apply frame_ret].
  apply frame_matchSelection_body_pending.
Qed.

(** Under a pending matching the slot of a list leaves the other list
    alone. *)
Lemma frame_onSelectionChanged_pending (fuel : nat) (i : ModelId) :
  frame (ModelId_eqb (siblingModel i)) true (onSelectionChanged host fuel i).
Proof.
  destruct fuel; [apply frame_raise|].
  apply frame_onSelectionChanged_body_pending. destruct i; reflexivity.
Qed.

(** A matching leaves the list that starts it alone. *)
Lemma frame_matchSelection (fuel : nat) (i : ModelId) :
  frame (ModelId_eqb i) false (matchSelection_body host (onSelectionChanged host fuel) i).
Proof.
  apply frame_matchSelection_body; [destruct i; reflexivity|].
  intros w Hp.
  destruct (frame_onSelectionChanged_pending fuel (siblingModel i) w Hp) as [H1 H2].
  split; [exact H1|]. intros j Hj. apply H2. destruct i, j; cbn in *; congruence.
Qed.

Lemma omap_as_int_PyInt (rows : list Z) : omap as_int (map PyInt rows) = rows.
Proof. induction rows as [|r rows IH]; [reflexivity|]. cbn. rewrite IH. reflexivity. Qed.

(** The slot on a selection that is not empty, step by step. *)
Lemma onSelectionChanged_body_run (slot : ModelId -> M Float Skin unit) (i : ModelId) w :
  getSelectedRows (setOrder host) (filterModel i w) <> [] ->
  let m1 := invalidateFilter
              (setSelectedRows (map PyInt (getSelectedRows (setOrder host) (filterModel i w)))
                 (filterModel i w)) in
  let w1 := with_filterModel i m1 w in
  onSelectionChanged_body host slot i w
  = bind (if _autoSelect (filterModel i w) then matchSelection_body host slot i else ret tt)
      (fun _ => requestInfluenceChange host) w1.
Proof.
  intros Hrows m1 w1. unfold onSelectionChanged_body. rewrite bind_get. cbn zeta.
  destruct (getSelectedRows (setOrder host) (filterModel i w)) as [|r0 rows'] eqn:E; [congruence|].
  cbn [length Nat.eqb]. rewrite bind_modify, bind_get. fold m1. fold w1.
  assert (Hauto : _autoSelect (filterModel i w1) = _autoSelect (filterModel i w)).
  { unfold w1. rewrite filterModel_with_filterModel. unfold m1.
    destruct (invalidateFilter_fields
                (setSelectedRows (map PyInt (r0 :: rows')) (filterModel i w)))
      as (_ & _ & H & _).
    rewrite H. reflexivity. }
  rewrite Hauto. reflexivity.
Qed.

(** X9. An empty selection in a view changes nothing but the view: the
    cached selection, the filter and the sibling stay as they are and neither
    the sibling nor the skin is told. *)
Theorem empty_selection_is_ignored (fuel : nat) (i : ModelId) w :
  userSelects host (S fuel) i [] w
  = Res (with_filterModel i (with_viewSelection [] (filterModel i w)) w) [] (Ok tt).
Proof.
  unfold userSelects. rewrite bind_modify, deliver_run.
  cbn [onSelectionChanged]. unfold onSelectionChanged_body.
  rewrite bind_get. cbn zeta.
  rewrite filterModel_with_filterModel. unfold getSelectedRows.
  cbn [viewSelection with_viewSelection]. rewrite list_set_nil. reflexivity.
Qed.

(** X10. After a selection change that is not empty the list's own filter
    model caches the rows of the view's selection, each once, in the order
    in which Python's set gives them; the filter has run on it, so that
    every selected row that has a label is shown; the visible rows are as
    before.  Nothing the sibling does in answer changes this. *)
Theorem selection_is_cached_and_shown (fuel : nat) (i : ModelId) (rows : list Z) w :
  rows <> [] ->
  let m' := filterModel i (world (userSelects host fuel i rows w)) in
  (0 < fuel)%nat ->
  _selectedRows m' = map PyInt (getSelectedRows (setOrder host)
                                  (with_viewSelection rows (filterModel i w))) /\
  List.NoDup (_selectedRows m') /\
  (forall r, py_in (PyInt r) (_selectedRows m') = true <-> In r rows) /\
  _visible m' = _visible (filterModel i w) /\
  forall r, In r rows -> isItemNull (filterModel i w) r = false ->
            In r (_activeInfluences m').
Proof.
  intros Hrows m' Hfuel. destruct fuel as [|fuel]; [lia|].
  assert (Hm' : m' = invalidateFilter
                       (setSelectedRows (map PyInt (list_set (setOrder host) rows))
                          (with_viewSelection rows (filterModel i w)))).
  { subst m'. unfold userSelects. rewrite bind_modify, deliver_run. cbn [world].
    set (w0 := with_filterModel i (with_viewSelection rows (filterModel i w)) w).
    assert (Hm0 : filterModel i w0 = with_viewSelection rows (filterModel i w))
      by apply filterModel_with_filterModel.
    cbn [onSelectionChanged].
    rewrite onSelectionChanged_body_run
      by (rewrite Hm0; apply list_set_nonempty, Hrows).
    cbn zeta. rewrite Hm0.
    change (getSelectedRows (setOrder host) (with_viewSelection rows (filterModel i w)))
      with (list_set (setOrder host) rows).
    set (m1 := invalidateFilter _).
    set (w1 := with_filterModel i m1 w0).
    assert (Hframe : frame (ModelId_eqb i) false
              (bind (if _autoSelect (with_viewSelection rows (filterModel i w))
                     then matchSelection_body host (onSelectionChanged host fuel) i
                     else ret tt)
                 (fun _ => requestInfluenceChange host))).
    { apply frame_bind; [|intros _; apply frame_requestInfluenceChange].
      destruct (_autoSelect _); [apply frame_matchSelection|apply frame_ret]. }
    destruct (Hframe w1) as [_ H]; [discriminate|].
    rewrite (H i) by (destruct i; reflexivity).
    apply filterModel_with_filterModel. }
  rewrite Hm'.
  set (m0 := setSelectedRows (map PyInt (list_set (setOrder host) rows))
               (with_viewSelection rows (filterModel i w))).
  destruct (invalidateFilter_fields m0) as (_ & Hs & _ & _).
  rewrite Hs, invalidateFilter_visible.
  split; [reflexivity|]. split.
  { cbn [m0 _selectedRows setSelectedRows with_selectedRows].
    apply Injective_map_NoDup; [intros x y [= E]; exact E|apply list_set_NoDup]. }
  split.
  { intros r. cbn [m0 _selectedRows setSelectedRows with_selectedRows].
    rewrite py_in_map_PyInt. apply list_set_In. }
  split; [reflexivity|].
  intros r Hr Hlabel. rewrite (proj1 (invalidateFilter_lists m0)). apply filter_In. split.
  - apply itemText_sourceRows. exact Hlabel.
  - unfold accepts. change (isItemNull m0 r) with (isItemNull (filterModel i w) r).
    rewrite Hlabel. cbn [negb andb].
    assert (Hsel : py_in (PyInt r) (_selectedRows m0) = true).
    { apply py_in_map_PyInt, list_set_In, Hr. }
    rewrite Hsel. rewrite orb_true_r. reflexivity.
Qed.

End Frames.

(** ** Selecting rows *)

(** X21. Revealing hidden rows can hide others.  When [selectInfluences]
    (or [revealHidden], its first step) finds a hidden row among the
    requested ones, the hidden rows replace the overrides and the filter
    runs: a row that was on display without being visible or selected, shown
    by an override that an earlier pass used up, is rejected by this pass
    and hidden, also when it is itself among the requested rows. *)
Theorem revealing_rows_hides_spent_overrides (rows : list pyval) (m : FilterModel)
    (x : pyval) (r : Z) :
  In x rows -> isRowHidden m x = true ->
  (0 <= r < rowCount m) -> ~ In r (_inactiveInfluences m) ->
  py_in (PyInt r) (_visible m) = false -> py_in (PyInt r) (_selectedRows m) = false ->
  In r (_inactiveInfluences (revealHidden rows m)) /\
  isRowHidden (revealHidden rows m) (PyInt r) = true.
Proof.
  intros Hin Hhid Hrange Hshown Hvis Hsel.
  assert (Hx : In x (List.filter (isRowHidden m) rows)) by (apply filter_In; auto).
  unfold revealHidden. cbn zeta.
  set (hidden := List.filter (isRowHidden m) rows) in *.
  replace (0 <? length hidden)%nat with true
    by (symmetry; apply Nat.ltb_lt; destruct hidden; [destruct Hx|cbn; lia]).
  set (m0 := with_overrides hidden m).
  assert (Hovr : py_in (PyInt r) hidden = false).
  { destruct (py_in (PyInt r) hidden) eqn:E; [|reflexivity]. exfalso.
    apply existsb_exists in E. destruct E as (y & Hy & Heq).
    apply filter_In in Hy. destruct Hy as [_ Hy].
    apply isRowHidden_spec in Hy. destruct Hy as (r' & Hr' & Hin').
    unfold py_eq in Heq. cbn [as_int] in Heq. rewrite Hr' in Heq.
    apply Z.eqb_eq in Heq. subst r'. apply Hshown, Hin'. }
  assert (Hacc : accepts m0 r = false).
  { unfold accepts. cbn [_visible _selectedRows _overrides m0 with_overrides].
    rewrite Hvis, Hsel, Hovr. apply andb_false_r. }
  assert (Hinact : In r (_inactiveInfluences (invalidateFilter m0))).
  { rewrite (proj2 (invalidateFilter_lists m0)). apply filter_In. split.
    - apply (sourceRows_In m0). exact Hrange.
    - rewrite Hacc. reflexivity. }
  split; [exact Hinact|].
  apply isRowHidden_spec. exists r. split; [reflexivity|exact Hinact].
Qed.

Section Mirror.

Context {Float Skin : Type} (host : Host Float Skin).
Implicit Types w : World Float Skin.

(** The first step of [selectInfluences]: the hidden rows among the
    requested ones become the overrides. *)
Lemma reveal_step (i : ModelId) (rows : list pyval) w :
  forallb isinstance_int rows = true ->
  exists w0,
    (if (0 <? length (List.filter (isRowHidden (filterModel i w)) rows))%nat
     then onModel i (setOverrides (List.filter (isRowHidden (filterModel i w)) rows))
     else ret tt) w
    = Res w0 [] (Ok tt) /\
    filterModel i w0 = revealHidden rows (filterModel i w) /\
    __pending__ w0 = __pending__ w /\
    (forall j, ModelId_eqb j i = false -> filterModel j w0 = filterModel j w).
Proof.
  intros Hint. unfold revealHidden. cbn zeta.
  destruct (0 <? length _)%nat.
  - exists (with_filterModel i
              (invalidateFilter
                 (with_overrides (List.filter (isRowHidden (filterModel i w)) rows)
                    (filterModel i w))) w).
    unfold onModel, setOverrides.
    rewrite (forallb_filter_sub _ _ _ Hint). cbn [negb].
    split; [reflexivity|]. split; [apply filterModel_with_filterModel|].
    split; [apply with_filterModel_pending|].
    intros j Hj. apply filterModel_with_filterModel_other, Hj.
  - exists w. repeat split; auto.
Qed.

Lemma revealHidden_shows (rows : list pyval) (m : FilterModel) (x : pyval) (z : Z) :
  In x rows -> as_int x = Some z -> isItemNull m z = false ->
  isRowHidden m x = true ->
  In z (_activeInfluences (revealHidden rows m)) /\
  isRowHidden (revealHidden rows m) x = false.
Proof.
  intros Hin Hz Hlabel Hhid.
  assert (Hx : In x (List.filter (isRowHidden m) rows)) by (apply filter_In; auto).
  unfold revealHidden. cbn zeta.
  destruct (List.filter (isRowHidden m) rows) as [|h hidden] eqn:E; [destruct Hx|].
  rewrite <- E in *. clear E h hidden.
  set (hidden := List.filter (isRowHidden m) rows) in *.
  replace (0 <? length hidden)%nat with true
    by (symmetry; apply Nat.ltb_lt; destruct hidden; [destruct Hx|cbn; lia]).
  set (m0 := with_overrides hidden m).
  assert (Hacc : accepts m0 z = true).
  { unfold accepts. change (isItemNull m0 z) with (isItemNull m z). rewrite Hlabel.
    cbn [negb andb]. apply orb_true_iff. right.
    apply existsb_exists. exists x. split; [exact Hx|].
    unfold py_eq. cbn [as_int]. rewrite Hz. apply Z.eqb_refl. }
  destruct (invalidateFilter_lists m0) as [Hact Hinact].
  assert (Hact' : In z (_activeInfluences (invalidateFilter m0))).
  { rewrite Hact. apply filter_In. split; [|exact Hacc].
    apply (itemText_sourceRows m0). exact Hlabel. }
  split; [exact Hact'|].
  destruct (isRowHidden (invalidateFilter m0) x) eqn:Hh; [|reflexivity].
  apply isRowHidden_spec in Hh. destruct Hh as (r & Hr & Hin').
  assert (r = z) by congruence. subst r.
  rewrite Hinact in Hin'. apply filter_In in Hin'. destruct Hin' as [_ Hn].
  rewrite Hacc in Hn. discriminate.
Qed.

Lemma calm_restrict {A : Type} (V V' : ModelId -> bool) (p : bool) (c : M Float Skin A) :
  (forall j, V' j = true -> V j = true) -> calm V p c -> calm V' p c.
Proof.
  intros HV Hc w Hp. destruct (Hc w Hp) as [H1 H2]. split; [exact H1|].
  intros j Hj. apply H2, HV, Hj.
Qed.

Lemma selectInfluences_body_rows (p : bool) (slot : ModelId -> M Float Skin unit)
    (i : ModelId) (first : pyval) (rest : list pyval) w :
  forallb isinstance_int (first :: rest) = true ->
  good p (slot i) -> calm (ModelId_eqb i) p (slot i) ->
  (p = true -> __pending__ w = true) ->
  out (selectInfluences_body host slot i (first :: rest) w) = Ok tt /\
  viewCalls i (events (selectInfluences_body host slot i (first :: rest) w))
  = [EvSelect i (omap as_int (first :: rest)); EvScrollTo i (default 0 (as_int first))] /\
  viewSelection (filterModel i (world (selectInfluences_body host slot i (first :: rest) w)))
  = viewSelect host (revealHidden (first :: rest) (filterModel i w))
      (omap as_int (first :: rest)).
Proof.
  intros Hint Hgood Hcalm Hp. unfold selectInfluences_body.
  rewrite Hint. cbn [negb]. rewrite bind_get. cbn zeta.
  destruct (reveal_step i (first :: rest) w Hint) as (w0 & Hstep & Hm0 & Hp0 & _).
  rewrite bind_run, Hstep. cbn [out world events app].
  rewrite bind_run, selectionModel_select_run. cbn zeta. rewrite Hm0.
  set (rows := omap as_int (first :: rest)).
  set (m' := revealHidden (first :: rest) (filterModel i w)).
  set (w' := with_filterModel i (with_viewSelection (viewSelect host m' rows) m') w0).
  assert (Hm' : viewSelection (filterModel i w') = viewSelect host m' rows).
  { unfold w'. rewrite filterModel_with_filterModel. reflexivity. }
  destruct (viewEmits host _ _); cbn [world events out emit app].
  - rewrite deliver_run. cbn [world events out].
    assert (Hp' : p = true -> __pending__ w' = true).
    { intros E. unfold w'. rewrite with_filterModel_pending, Hp0. apply Hp, E. }
    destruct (Hcalm w' Hp') as [_ Hc].
    destruct (Hc i) as [E1 E2]; [destruct i; reflexivity|].
    destruct (Hgood w' Hp') as (_ & Hfuel & _).
    assert (Hout : match out (slot i w') with
                   | Raise OutOfFuel => Raise OutOfFuel
                   | _ => Ok tt
                   end = Ok tt).
    { destruct (out (slot i w')) as [[]|e]; [reflexivity|]. destruct e; congruence. }
    rewrite Hout. cbn [world events out emit app].
    split; [reflexivity|]. split; [|rewrite E2; exact Hm'].
    change (EvSelect i rows :: ?l ++ ?s) with ([EvSelect i rows] ++ l ++ s).
    rewrite !viewCalls_app, E1. destruct i; reflexivity.
  - split; [reflexivity|]. split; [destruct i; reflexivity|exact Hm'].
Qed.

(** X11. [selectInfluences] on rows that are all integers and not empty
    returns; on its own view it makes exactly two calls, a clear-and-select of
    the rows and a scroll to the first of them, and the view then holds what
    the selection model made of the rows.  Before the selection the rows that
    were hidden are made overrides and the filter runs, so that every
    requested row that was hidden and has a label is shown when the selection
    is made. *)
Theorem selectInfluences_with_rows (fuel : nat) (i : ModelId)
    (first : pyval) (rest : list pyval) w :
  forallb isinstance_int (first :: rest) = true ->
  let rows := first :: rest in
  let m' := revealHidden rows (filterModel i w) in
  let r := selectInfluences host (S (S fuel)) i rows w in
  out r = Ok tt /\
  viewCalls i (events r)
  = [EvSelect i (omap as_int rows); EvScrollTo i (default 0 (as_int first))] /\
  viewSelection (filterModel i (world r)) = viewSelect host m' (omap as_int rows) /\
  (forall x z, In x rows -> as_int x = Some z ->
     isItemNull (filterModel i w) z = false -> isRowHidden (filterModel i w) x = true ->
     In z (_activeInfluences m') /\ isRowHidden m' x = false).
Proof.
  intros Hint rows m' r.
  destruct (selectInfluences_body_rows false (onSelectionChanged host (S (S fuel))) i
              first rest w Hint (good_onSelectionChanged host fuel i)
              (calm_onSelectionChanged host (S (S fuel)) i))
    as (Hout & Hcalls & Hsel); [discriminate|].
  split; [exact Hout|]. split; [exact Hcalls|]. split; [exact Hsel|].
  intros x z Hin Hz Hlabel Hhid. apply revealHidden_shows; assumption.
Qed.

Lemma filterModel_with_pending (j : ModelId) (b : bool) w :
  filterModel j (with_pending b w) = filterModel j w.
Proof. destruct j; reflexivity. Qed.

Lemma viewCalls_requestInfluenceChange (j : ModelId) w :
  viewCalls j (events (requestInfluenceChange host w)) = [].
Proof.
  destruct (calm_requestInfluenceChange host (fun _ => true) false w) as [_ H];
    [discriminate|].
  apply (H j). reflexivity.
Qed.

Lemma filterModel_requestInfluenceChange (j : ModelId) w :
  filterModel j (world (requestInfluenceChange host w)) = filterModel j w.
Proof.
  destruct (frame_requestInfluenceChange host (fun _ => true) false w) as [_ H];
    [discriminate|].
  apply (H j). reflexivity.
Qed.

(** X12. In single-select mode a selection made in one list is mirrored on
    the other: the sibling's view gets exactly two calls, a clear-and-select
    of the selected rows, each once and in the order in which Python's set
    gives them, and a scroll to the first of them in that order, and then
    holds what its selection model made of them; the list the user selected
    in gets no call on its own view. *)
Theorem selection_is_mirrored (fuel : nat) (i : ModelId) (rows : list Z)
    (first : Z) (rest : list Z) w :
  __pending__ w = false -> _autoSelect (filterModel i w) = true ->
  list_set (setOrder host) rows = first :: rest ->
  let r := userSelects host (S (S fuel)) i rows w in
  let j := siblingModel i in
  viewCalls j (events r) = [EvSelect j (first :: rest); EvScrollTo j first] /\
  viewCalls i (events r) = [] /\
  viewSelection (filterModel j (world r))
  = viewSelect host (revealHidden (map PyInt (first :: rest)) (filterModel j w))
      (first :: rest) /\
  __pending__ (world r) = false.
Proof.
  intros Hpend Hauto Hrows r j.
  assert (Hne : rows <> []) by (intros ->; rewrite list_set_nil in Hrows; discriminate Hrows).
  subst r. unfold userSelects. rewrite bind_modify, deliver_run. cbn [world events].
  set (w0 := with_filterModel i (with_viewSelection rows (filterModel i w)) w).
  assert (Hm0 : filterModel i w0 = with_viewSelection rows (filterModel i w))
    by apply filterModel_with_filterModel.
  assert (Hj0 : filterModel j w0 = filterModel j w).
  { apply filterModel_with_filterModel_other. destruct i; reflexivity. }
  split; [|split; [|split]].
  2: { destruct (calm_onSelectionChanged host (S (S fuel)) i w0) as [_ H]; [discriminate|].
       apply (H i). destruct i; reflexivity. }
  3: { destruct (good_onSelectionChanged host fuel i w0) as (Hre & _); [discriminate|].
       destruct (userSelects_chain host fuel i rows w Hpend Hne Hauto) as (_ & _ & H).
       unfold userSelects in H. rewrite bind_modify, deliver_run in H. exact H. }
  all: change (onSelectionChanged host (S (S fuel)) i)
         with (onSelectionChanged_body host (onSelectionChanged host (S fuel)) i);
       rewrite onSelectionChanged_body_run
         by (rewrite Hm0; apply list_set_nonempty, Hne);
       cbn zeta; rewrite Hm0;
       change (getSelectedRows (setOrder host) (with_viewSelection rows (filterModel i w)))
         with (list_set (setOrder host) rows);
       rewrite Hrows;
       change (_autoSelect (with_viewSelection rows (filterModel i w)))
         with (_autoSelect (filterModel i w));
       rewrite Hauto;
       set (m1 := invalidateFilter _);
       set (w1 := with_filterModel i m1 w0);
       assert (Hp1 : __pending__ w1 = false)
         by (unfold w1, w0; rewrite !with_filterModel_pending; exact Hpend);
       assert (Hj1 : filterModel j w1 = filterModel j w)
         by (unfold w1; rewrite filterModel_with_filterModel_other, Hj0;
             [reflexivity|destruct i; reflexivity]);
       assert (Hs1 : _selectedRows (filterModel i w1) = map PyInt (first :: rest))
         by (unfold w1; rewrite filterModel_with_filterModel; unfold m1;
             destruct (invalidateFilter_fields
                         (setSelectedRows (map PyInt (first :: rest))
                            (with_viewSelection rows (filterModel i w))))
               as (_ & H & _); rewrite H; reflexivity);
       rewrite bind_run, matchSelection_body_start by exact Hp1;
       cbn zeta; rewrite Hs1;
       fold j;
       destruct (selectInfluences_body_rows true (onSelectionChanged host (S fuel)) j
                   (PyInt first) (map PyInt rest) (with_pending true w1)
                   (forallb_isinstance_PyInt (first :: rest))
                   (good_onSelectionChanged_pending host fuel j)
                   (calm_restrict _ _ true _ (fun _ _ => eq_refl)
                      (calm_onSelectionChanged_pending host (S fuel) j))
                   (fun _ => eq_refl))
         as (Hout & Hcalls & Hsel).
  all: assert (Hz : omap as_int (PyInt first :: map PyInt rest) = first :: rest)
         by apply (omap_as_int_PyInt (first :: rest));
       rewrite Hz in *; cbn [map] in *;
       rewrite Hout; cbn [out world events app].
  - change (EvBeginSelectionUpdate :: EvSiblingSelect j ?rs :: ?l)
      with ([EvBeginSelectionUpdate; EvSiblingSelect j rs] ++ l).
    rewrite !viewCalls_app, Hcalls, viewCalls_requestInfluenceChange.
    cbn [as_int default]. unfold j. destruct i; reflexivity.
  - rewrite filterModel_requestInfluenceChange, filterModel_with_pending, Hsel,
      filterModel_with_pending, Hj1.
    reflexivity.
Qed.

End Mirror.

(** ** Precision mode, edits and the cached weights *)

Section Local.

Context {Float Skin : Type} (host : Host Float Skin).
Implicit Types w : World Float Skin.

Lemma skin_with_filterModel (i : ModelId) (m : FilterModel) w :
  _skin (with_filterModel i m w) = _skin w.
Proof. destruct i; reflexivity. Qed.

Lemma out_requestInfluenceChange_fueled w :
  match out (requestInfluenceChange host w) with
  | Raise OutOfFuel => Raise OutOfFuel
  | _ => Ok tt
  end = Ok tt.
Proof.
  destruct (good_requestInfluenceChange host false w) as (_ & H & _); [discriminate|].
  destruct (out _) as [[]|e]; [reflexivity|]. destruct e; congruence.
Qed.

(** X13. With auto-select off (precision mode) a selection change stays in
    its own list: the slot caches the selection and runs the filter, the
    sibling is not asked to select, no view is called, the sibling's filter
    model and the flag are as before.  A selection in the influence list on
    a valid skin is passed to the skin as one row: the first of the selected
    rows in the order in which Python's set gives them. *)
Theorem precision_selection_stays_local (fuel : nat) (i : ModelId) (rows : list Z) w :
  _autoSelect (filterModel i w) = false -> rows <> [] ->
  let r := userSelects host (S fuel) i rows w in
  out r = Ok tt /\
  siblingSelects (events r) = [] /\
  (forall j, viewCalls j (events r) = []) /\
  filterModel (siblingModel i) (world r) = filterModel (siblingModel i) w /\
  __pending__ (world r) = __pending__ w /\
  (i = Influence -> skin_isValid host (_skin w) = true ->
   events r = [EvSkinSelectInfluence (PyInt (hd 0 (list_set (setOrder host) rows)))]).
Proof.
  intros Hauto Hne r. subst r.
  unfold userSelects. rewrite bind_modify, deliver_run.
  set (w0 := with_filterModel i (with_viewSelection rows (filterModel i w)) w).
  assert (Hm0 : filterModel i w0 = with_viewSelection rows (filterModel i w))
    by apply filterModel_with_filterModel.
  cbn [onSelectionChanged].
  rewrite onSelectionChanged_body_run by (rewrite Hm0; apply list_set_nonempty, Hne).
  cbn zeta. rewrite Hm0.
  change (_autoSelect (with_viewSelection rows (filterModel i w)))
    with (_autoSelect (filterModel i w)).
  rewrite Hauto, bind_ret.
  change (getSelectedRows (setOrder host) (with_viewSelection rows (filterModel i w)))
    with (list_set (setOrder host) rows).
  set (m1 := invalidateFilter _).
  set (w1 := with_filterModel i m1 w0).
  cbn [out world events].
  split; [apply out_requestInfluenceChange_fueled|].
  split; [apply requestInfluenceChange_no_sibling|].
  split; [intros j; apply viewCalls_requestInfluenceChange|].
  split.
  { rewrite filterModel_requestInfluenceChange. unfold w1, w0.
    rewrite !filterModel_with_filterModel_other by (destruct i; reflexivity).
    reflexivity. }
  split.
  { rewrite requestInfluenceChange_pending. unfold w1, w0.
    rewrite !with_filterModel_pending. reflexivity. }
  intros -> Hvalid.
  unfold requestInfluenceChange. rewrite validate_run.
  assert (Hs : _skin w1 = _skin w) by reflexivity.
  rewrite Hs, Hvalid. unfold activeInfluence.
  rewrite bind_assoc, bind_get.
  assert (Hrows : _selectedRows (influenceFilterModel w1) = map PyInt (list_set (setOrder host) rows)).
  { change (influenceFilterModel w1) with m1. unfold m1.
    destruct (invalidateFilter_fields
                (setSelectedRows (map PyInt (list_set (setOrder host) rows))
                   (with_viewSelection rows (filterModel Influence w))))
      as (_ & H & _).
    rewrite H. reflexivity. }
  rewrite Hrows.
  destruct (list_set (setOrder host) rows) as [|r0 rest] eqn:E;
    [exfalso; revert E; apply list_set_nonempty, Hne|].
  cbn [map hd]. rewrite bind_ret, bind_modify. reflexivity.
Qed.

(** X15. An edit that cannot resolve its arguments does nothing: on an
    invalid skin it returns at once; without a selected influence, or
    without a selected row in the weight list, it raises [TypeError]; in all
    three cases the window is unchanged and the skin is not called. *)
Theorem edit_without_arguments_is_rejected (e : edit Float) w :
  (skin_isValid host (_skin w) = false -> runEdit host e w = Res w [] (Ok tt)) /\
  (skin_isValid host (_skin w) = true -> _selectedRows (influenceFilterModel w) = [] ->
   runEdit host e w
   = Res w [] (Raise (TypeError "Unable to get active influence from current selection!"))) /\
  (skin_isValid host (_skin w) = true -> _selectedRows (influenceFilterModel w) <> [] ->
   _selectedRows (weightFilterModel w) = [] ->
   runEdit host e w
   = Res w [] (Raise (TypeError "sourceInfluences() expects a valid selection!"))).
Proof.
  rewrite runEdit_unfold, validate_run. split; [|split].
  - intros ->. reflexivity.
  - intros -> Hsel. unfold activeInfluence. rewrite bind_assoc, bind_get, Hsel. reflexivity.
  - intros -> Hsel Hw. unfold activeInfluence. rewrite bind_assoc, bind_get.
    destruct (_selectedRows (influenceFilterModel w)) as [|a rest]; [congruence|].
    rewrite bind_ret. unfold sourceInfluences. rewrite bind_assoc, bind_get. cbn zeta.
    rewrite Hw. reflexivity.
Qed.

(** X16. Once its arguments are resolved and every vertex computes, an edit
    hands the batch to the skin.  If the skin refuses it the edit raises the
    skin's error right there: the window keeps its cached soft selection and
    weights, and the weight list is not refreshed.  If the skin takes it the
    edit ends with [invalidateWeights] on the skin returned. *)
Theorem edit_applies_then_refreshes (e : edit Float) w (a : pyval) (src : list pyval) w1
    (updates : gmap Z (gmap Z Float)) :
  skin_isValid host (_skin w) = true ->
  out (activeInfluence w) = Ok a ->
  sourceInfluences w = Res w1 [] (Ok src) ->
  collectUpdates
    (fun weights falloff =>
       editFunction host e (_skin w1) weights a src (editAmount host e w1) falloff)
    (_vertices w1) (_softSelection w1) ∅ = Ok updates ->
  (forall msg, skin_applyWeights host (_skin w1) updates = Failed msg ->
     runEdit host e w = Res w1 [EvSkinApplyWeights updates] (Raise (HostError msg))) /\
  (forall s, skin_applyWeights host (_skin w1) updates = Returned s ->
     runEdit host e w
     = Res (world (invalidateWeights host (with_skin s w1)))
           [EvSkinApplyWeights updates]
           (out (invalidateWeights host (with_skin s w1)))).
Proof.
  intros Hvalid Ha Hsrc Hupd.
  rewrite (runEdit_resolved host e w a src w1 Hvalid Ha Hsrc).
  unfold submitUpdates. rewrite bind_get, Hupd. cbn [liftOutcome]. rewrite bind_ret.
  unfold applyWeights. rewrite !bind_assoc, bind_emit, bind_assoc, bind_get.
  split.
  - intros msg Hfail. rewrite Hfail. reflexivity.
  - intros s Hs. rewrite Hs. cbn [liftAnswer]. rewrite bind_assoc, bind_ret, bind_modify.
    cbn [world events out]. rewrite invalidateWeights_events. reflexivity.
Qed.

(** X17. [invalidateWeights] at its edges.  On an invalid skin it does
    nothing.  With an empty soft selection it empties the cached weights and
    leaves both filter models alone, so the weight list keeps showing the
    rows of the previous selection.  With one vertex for which the skin
    returns no weights it raises [KeyError] after the soft selection and the
    vertices have already been replaced: the displayed weights stay those of
    the previous selection. *)
Theorem invalidateWeights_edge_cases w :
  let selection := skin_softSelection host (_skin w) in
  let vertices := skin_weights host (_skin w) (map fst selection) in
  (skin_isValid host (_skin w) = false -> invalidateWeights host w = Res w [] (Ok tt)) /\
  (skin_isValid host (_skin w) = true -> selection = [] ->
   invalidateWeights host w
   = Res (with_vertexWeights ∅ (with_vertices vertices (with_softSelection [] w)))
         [] (Ok tt)) /\
  (forall v falloff,
     skin_isValid host (_skin w) = true -> selection = [(v, falloff)] ->
     vertices !! v = None ->
     invalidateWeights host w
     = Res (with_vertices vertices (with_softSelection [(v, falloff)] w))
           [] (Raise (KeyError v))).
Proof.
  cbn zeta. unfold invalidateWeights. rewrite validate_run. split; [|split].
  - intros ->. reflexivity.
  - intros -> Hsel. rewrite bind_modify, bind_get. cbn zeta.
    cbn [_softSelection with_softSelection _skin]. rewrite Hsel. cbn [map].
    rewrite bind_modify, bind_get, bind_modify, bind_get.
    reflexivity.
  - intros v falloff -> Hsel Hnone.
    rewrite bind_modify, bind_get. cbn zeta.
    cbn [_softSelection with_softSelection _skin]. rewrite Hsel in *. cbn [map fst] in *.
    rewrite bind_modify, bind_get.
    cbn [_vertices with_vertices _skin with_softSelection]. rewrite Hnone.
    reflexivity.
Qed.

End Local.

(** ** The flag is given back *)

Section Tidy.

Context {Float Skin : Type} (host : Host Float Skin).
Implicit Types w : World Float Skin.

Lemma cachedRowsValid_model (i : ModelId) w :
  cachedRowsValid w = true -> forallb isinstance_int (_selectedRows (filterModel i w)) = true.
Proof.
  unfold cachedRowsValid. intros H. apply andb_true_iff in H. destruct H, i; assumption.
Qed.

Lemma cachedRowsValid_with_filterModel (i : ModelId) (m : FilterModel) w :
  forallb isinstance_int (_selectedRows m) = true ->
  cachedRowsValid w = true -> cachedRowsValid (with_filterModel i m w) = true.
Proof.
  unfold cachedRowsValid. intros Hm H. apply andb_true_iff in H. destruct H as [H1 H2].
  destruct i; cbn; rewrite Hm, ?H1, ?H2; reflexivity.
Qed.

Lemma tidy_bind {A B : Type} (p : bool) (c : M Float Skin A) (k : A -> M Float Skin B) :
  tidy p c -> (forall a, tidy p (k a)) -> tidy p (bind c k).
Proof.
  intros Hc Hk w Hv Hp. rewrite bind_run. destruct (Hc w Hv Hp) as [Hv1 Hp1].
  destruct (out (c w)) as [a|e]; cbn [world]; [|split; assumption].
  destruct (Hk a (world (c w)) Hv1) as [Hv2 Hp2]; [rewrite Hp1; exact Hp|].
  split; [exact Hv2|]. rewrite Hp2. exact Hp1.
Qed.

Lemma tidy_ret {A : Type} (p : bool) (a : A) : tidy p (ret a : M Float Skin A).
Proof. intros w Hv _. cbn. auto. Qed.

Lemma tidy_raise {A : Type} (p : bool) (e : exn) : tidy p (raise e : M Float Skin A).
Proof. intros w Hv _. cbn. auto. Qed.

Lemma tidy_get (p : bool) : tidy p (get : M Float Skin _).
Proof. intros w Hv _. cbn. auto. Qed.

Lemma tidy_emit (p : bool) (ev : event Float) : tidy p (emit ev : M Float Skin unit).
Proof. intros w Hv _. cbn. auto. Qed.

Lemma tidy_modify (p : bool) (f : World Float Skin -> World Float Skin) :
  (forall w, cachedRowsValid w = true -> cachedRowsValid (f w) = true) ->
  (forall w, __pending__ (f w) = __pending__ w) ->
  tidy p (modify f).
Proof. intros Hf Hpf w Hv _. cbn. auto. Qed.

Lemma tidy_onModel (p : bool) (i : ModelId) (f : FilterModel -> outcome FilterModel) :
  (forall m m', f m = Ok m' -> forallb isinstance_int (_selectedRows m) = true ->
                forallb isinstance_int (_selectedRows m') = true) ->
  tidy p (onModel i f : M Float Skin unit).
Proof.
  intros Hf w Hv _. unfold onModel.
  destruct (f (filterModel i w)) as [m'|e] eqn:E; cbn [world]; [|auto].
  split; [|apply with_filterModel_pending].
  apply cachedRowsValid_with_filterModel; [|exact Hv].
  apply (Hf _ _ E), cachedRowsValid_model, Hv.
Qed.

Lemma setOverrides_selectedRows (args : list pyval) (m m' : FilterModel) :
  setOverrides args m = Ok m' -> _selectedRows m' = _selectedRows m.
Proof.
  unfold setOverrides. destruct (negb _); [discriminate|]. intros [= <-].
  destruct (invalidateFilter_fields (with_overrides args m)) as (_ & H & _). exact H.
Qed.

Lemma setVisible_selectedRows (args : list pyval) (m m' : FilterModel) :
  setVisible args m = Ok m' -> _selectedRows m' = _selectedRows m.
Proof.
  unfold setVisible. destruct (negb _); [discriminate|]. intros [= <-].
  destruct (invalidateFilter_fields (with_visible args m)) as (_ & H & _). exact H.
Qed.

Lemma tidy_setOverrides (p : bool) (i : ModelId) (args : list pyval) :
  tidy p (onModel i (setOverrides args) : M Float Skin unit).
Proof.
  apply tidy_onModel. intros m m' E H. rewrite (setOverrides_selectedRows _ _ _ E). exact H.
Qed.

Lemma tidy_setVisible (p : bool) (i : ModelId) (args : list pyval) :
  tidy p (onModel i (setVisible args) : M Float Skin unit).
Proof.
  apply tidy_onModel. intros m m' E H. rewrite (setVisible_selectedRows _ _ _ E). exact H.
Qed.

Lemma tidy_activeInfluence (p : bool) : tidy p (activeInfluence : M Float Skin _).
Proof.
  unfold activeInfluence. apply tidy_bind; [apply tidy_get|]. intros w.
  destruct (_selectedRows _); [apply tidy_raise|apply tidy_ret].
Qed.

Lemma tidy_validate (p : bool) (body : M Float Skin unit) :
  tidy p body -> tidy p (validate host body).
Proof.
  intros Hb. unfold validate. apply tidy_bind; [apply tidy_get|]. intros w.
  destruct (skin_isValid host (_skin w)); [exact Hb|apply tidy_ret].
Qed.

Lemma tidy_requestInfluenceChange (p : bool) : tidy p (requestInfluenceChange host).
Proof.
  unfold requestInfluenceChange. apply tidy_validate.
  apply tidy_bind; [apply tidy_activeInfluence|]. intros a.
  apply tidy_bind; [|intros _; apply tidy_emit].
  apply tidy_modify; intros w; auto.
Qed.

Lemma tidy_deliver (p : bool) (slot : ModelId -> M Float Skin unit) (i : ModelId) :
  tidy p (slot i) -> tidy p (deliver slot i).
Proof. intros Hs w Hv Hp. rewrite deliver_run. cbn [world]. apply Hs; assumption. Qed.

Lemma tidy_selectionModel_select (p : bool) (slot : ModelId -> M Float Skin unit)
    (i : ModelId) (rows : list Z) :
  tidy p (slot i) -> tidy p (selectionModel_select host slot i rows).
Proof.
  intros Hs w Hv Hp. rewrite selectionModel_select_run. cbn zeta.
  set (w' := with_filterModel i _ w).
  assert (Hv' : cachedRowsValid w' = true).
  { apply cachedRowsValid_with_filterModel; [|exact Hv].
    apply (cachedRowsValid_model i w Hv). }
  assert (Hp' : __pending__ w' = __pending__ w) by apply with_filterModel_pending.
  destruct (viewEmits host _ _); cbn [world]; [|auto].
  destruct (tidy_deliver p slot i Hs w' Hv') as [H1 H2]; [rewrite Hp'; exact Hp|].
  split; [exact H1|]. rewrite H2. exact Hp'.
Qed.

Lemma tidy_selectInfluences_body (p : bool) (slot : ModelId -> M Float Skin unit)
    (i : ModelId) (rows : list pyval) :
  tidy p (slot i) -> tidy p (selectInfluences_body host slot i rows).
Proof.
  intros Hs. unfold selectInfluences_body.
  destruct (negb _); [apply tidy_raise|].
  apply tidy_bind; [apply tidy_get|]. intros w. cbn zeta.
  apply tidy_bind.
  { destruct (0 <? length _)%nat; [apply tidy_setOverrides|apply tidy_ret]. }
  intros _. destruct rows as [|first rest].
  - apply tidy_bind; [apply tidy_get|]. intros w'.
    destruct (_activeInfluences _); [apply tidy_ret|].
    apply tidy_bind; [apply tidy_selectionModel_select, Hs|]. intros _. apply tidy_emit.
  - apply tidy_bind; [apply tidy_selectionModel_select, Hs|]. intros _. apply tidy_emit.
Qed.

Lemma tidy_matchSelection_body_pending (slot : ModelId -> M Float Skin unit) (i : ModelId) :
  tidy true (matchSelection_body host slot i).
Proof.
  intros w Hv Hp. rewrite matchSelection_body_pending by auto. cbn. auto.
Qed.

(** A matching on valid cached rows runs to its end and clears the flag. *)
Lemma matchSelection_body_completes (slot : ModelId -> M Float Skin unit) (i : ModelId) w :
  __pending__ w = false ->
  forallb isinstance_int (_selectedRows (filterModel i w)) = true ->
  good true (slot (siblingModel i)) ->
  out (matchSelection_body host slot i w) = Ok tt /\
  world (matchSelection_body host slot i w)
  = with_pending false
      (world (selectInfluences_body host slot (siblingModel i)
                (_selectedRows (filterModel i w)) (with_pending true w))).
Proof.
  intros Hp Hrows Hgood. rewrite matchSelection_body_start by exact Hp. cbn zeta.
  destruct (returns_selectInfluences_body host slot (siblingModel i)
              (_selectedRows (filterModel i w)) Hrows Hgood (with_pending true w) eq_refl)
    as [[a Ha] _].
  rewrite Ha. split; reflexivity.
Qed.

Lemma tidy_matchSelection_body (slot : ModelId -> M Float Skin unit) (i : ModelId) :
  good true (slot (siblingModel i)) -> tidy true (slot (siblingModel i)) ->
  tidy false (matchSelection_body host slot i).
Proof.
  intros Hgood Hs w Hv _. destruct (__pending__ w) eqn:Hp.
  - pose proof (tidy_matchSelection_body_pending slot i w Hv (fun _ => Hp)) as H.
    rewrite Hp in H. exact H.
  - destruct (matchSelection_body_completes slot i w Hp (cachedRowsValid_model i w Hv) Hgood)
      as [_ Hw].
    rewrite Hw.
    destruct (tidy_selectInfluences_body true slot (siblingModel i)
                (_selectedRows (filterModel i w)) Hs (with_pending true w) Hv
                (fun _ => eq_refl)) as [Hv' _].
    split; [exact Hv'|reflexivity].
Qed.

Lemma tidy_onSelectionChanged_body (p : bool) (slot : ModelId -> M Float Skin unit)
    (i : ModelId) :
  (if p then True
   else good true (slot (siblingModel i)) /\ tidy true (slot (siblingModel i))) ->
  tidy p (onSelectionChanged_body host slot i).
Proof.
  intros Hslot w Hv Hp.
  destruct (getSelectedRows (setOrder host) (filterModel i w)) as [|r0 rest] eqn:E.
  - unfold onSelectionChanged_body. rewrite bind_get. cbn zeta. rewrite E. cbn. auto.
  - rewrite onSelectionChanged_body_run by (rewrite E; discriminate). cbn zeta.
    set (m1 := invalidateFilter _). set (w1 := with_filterModel i m1 w).
    assert (Hv1 : cachedRowsValid w1 = true).
    { apply cachedRowsValid_with_filterModel; [|exact Hv]. unfold m1.
      destruct (invalidateFilter_fields
                  (setSelectedRows (map PyInt (getSelectedRows (setOrder host) (filterModel i w)))
                     (filterModel i w))) as (_ & H & _).
      rewrite H. apply forallb_isinstance_PyInt. }
    assert (Hp1 : __pending__ w1 = __pending__ w) by apply with_filterModel_pending.
    assert (Ht : tidy p (bind (if _autoSelect (filterModel i w)
                               then matchSelection_body host slot i else ret tt)
                           (fun _ => requestInfluenceChange host))).
    { apply tidy_bind; [|intros _; apply tidy_requestInfluenceChange].
      destruct (_autoSelect _); [|apply tidy_ret].
      destruct p; [apply tidy_matchSelection_body_pending|].
      apply tidy_matchSelection_body; apply Hslot. }
    destruct (Ht w1 Hv1) as [H1 H2]; [rewrite Hp1; exact Hp|].
    split; [exact H1|]. rewrite H2. exact Hp1.
Qed.

Lemma tidy_onSelectionChanged_pending (fuel : nat) (i : ModelId) :
  tidy true (onSelectionChanged host fuel i).
Proof.
  destruct fuel; [apply tidy_raise|].
  apply (tidy_onSelectionChanged_body true). exact I.
Qed.

Lemma tidy_onSelectionChanged (p : bool) (fuel : nat) (i : ModelId) :
  tidy p (onSelectionChanged host (S (S fuel)) i).
Proof.
  destruct p; [apply tidy_onSelectionChanged_pending|].
  apply (tidy_onSelectionChanged_body false (onSelectionChanged host (S fuel)) i). split.
  - apply (good_onSelectionChanged_pending host fuel).
  - apply (tidy_onSelectionChanged_pending (S fuel)).
Qed.

Lemma tidy_matchSelection (p : bool) (fuel : nat) (i : ModelId) :
  tidy p (matchSelection host (S (S fuel)) i).
Proof.
  unfold matchSelection. destruct p; [apply tidy_matchSelection_body_pending|].
  apply tidy_matchSelection_body.
  - apply (good_onSelectionChanged_pending host (S fuel)).
  - apply (tidy_onSelectionChanged_pending (S (S fuel))).
Qed.

Lemma tidy_setAutoSelect (p : bool) (fuel : nat) (i : ModelId) (autoSelect : pyval) :
  tidy p (setAutoSelect host (S (S fuel)) i autoSelect).
Proof.
  unfold setAutoSelect. destruct autoSelect; try apply tidy_raise.
  apply tidy_bind.
  - intros w Hv _. cbn [modify world]. split; [|apply with_filterModel_pending].
    apply cachedRowsValid_with_filterModel; [|exact Hv].
    apply (cachedRowsValid_model i w Hv).
  - intros _. destruct b; [apply tidy_matchSelection|apply tidy_ret].
Qed.

Lemma forallb_py_remove (x : pyval) (l : list pyval) :
  forallb isinstance_int l = true -> forallb isinstance_int (py_remove x l) = true.
Proof.
  induction l as [|y l IH]; [reflexivity|]. cbn [forallb py_remove]. intros H.
  apply andb_true_iff in H. destruct H as [H1 H2].
  destruct (py_eq y x); [exact H2|]. cbn [forallb]. rewrite H1, (IH H2). reflexivity.
Qed.

Lemma tidy_sourceInfluences (p : bool) : tidy p (sourceInfluences : M Float Skin _).
Proof.
  intros w Hv Hp. unfold sourceInfluences. rewrite bind_get. cbn zeta.
  destruct (length _ =? 0)%nat; [cbn; auto|].
  destruct (_precision w); [|cbn; auto].
  unfold activeInfluence. rewrite bind_assoc, bind_get.
  destruct (_selectedRows (influenceFilterModel w)) as [|a rest]; [cbn; auto|].
  rewrite bind_ret. destruct (py_in a _); [|cbn; auto].
  rewrite bind_modify. cbn [ret world]. split; [|reflexivity].
  apply (cachedRowsValid_with_filterModel Weight); [|exact Hv].
  cbn [_selectedRows with_selectedRows].
  apply forallb_py_remove, (cachedRowsValid_model Weight w Hv).
Qed.

Lemma tidy_invalidateWeights (p : bool) : tidy p (invalidateWeights host).
Proof.
  unfold invalidateWeights. apply tidy_validate.
  apply tidy_bind; [apply tidy_modify; intros w; auto|]. intros _.
  apply tidy_bind; [apply tidy_get|]. intros w. cbn zeta.
  apply tidy_bind; [apply tidy_modify; intros w'; auto|]. intros _.
  apply tidy_bind; [apply tidy_get|]. intros w'.
  apply tidy_bind.
  { destruct (map fst (_softSelection w)) as [|v [|v' l]].
    - apply tidy_modify; intros w''; auto.
    - destruct (_vertices w' !! v); [apply tidy_modify; intros w''; auto|apply tidy_raise].
    - apply tidy_modify; intros w''; auto. }
  intros _. apply tidy_bind; [apply tidy_get|]. intros w''.
  case_if; [apply tidy_setVisible|apply tidy_ret].
Qed.

Lemma tidy_liftOutcome {A : Type} (p : bool) (o : outcome A) :
  tidy p (liftOutcome o : M Float Skin A).
Proof. destruct o; [apply tidy_ret|apply tidy_raise]. Qed.

Lemma tidy_runEdit (p : bool) (e : edit Float) : tidy p (runEdit host e).
Proof.
  intros w Hv Hp. rewrite runEdit_unfold. revert w Hv Hp.
  change (tidy p (validate host
      (bind activeInfluence (fun a =>
       bind sourceInfluences (fun src =>
       bind get (fun w' =>
       submitUpdates host (editFunction host e) a src (editAmount host e w'))))))).
  apply tidy_validate.
  apply tidy_bind; [apply tidy_activeInfluence|]. intros a.
  apply tidy_bind; [apply tidy_sourceInfluences|]. intros src.
  apply tidy_bind; [apply tidy_get|]. intros w'.
  unfold submitUpdates.
  apply tidy_bind; [apply tidy_get|]. intros w''.
  apply tidy_bind; [apply tidy_liftOutcome|]. intros updates.
  apply tidy_bind; [|intros _; apply tidy_invalidateWeights].
  unfold applyWeights.
  apply tidy_bind; [apply tidy_emit|]. intros _.
  apply tidy_bind; [apply tidy_get|]. intros w3.
  apply tidy_bind.
  { destruct (skin_applyWeights host _ _); [apply tidy_ret|apply tidy_raise]. }
  intros s. apply tidy_modify; intros w4; auto.
Qed.

Lemma tidy_precisionChanged (p : bool) (fuel : nat) (precision : bool) :
  tidy p (precisionChanged host (S (S fuel)) precision).
Proof.
  unfold precisionChanged.
  apply tidy_bind; [apply tidy_modify; intros w; auto|]. intros _.
  destruct precision;
    (apply tidy_bind; [apply tidy_emit|]; intros _);
    (apply tidy_bind; [|intros _]); apply tidy_setAutoSelect.
Qed.

Lemma tidy_userSelects (p : bool) (fuel : nat) (i : ModelId) (rows : list Z) :
  tidy p (userSelects host (S (S fuel)) i rows).
Proof.
  unfold userSelects. apply tidy_bind.
  - intros w Hv _. cbn [modify world]. split; [|apply with_filterModel_pending].
    apply cachedRowsValid_with_filterModel; [|exact Hv].
    apply (cachedRowsValid_model i w Hv).
  - intros _. apply tidy_deliver, tidy_onSelectionChanged.
Qed.

Lemma tidy_runOperation (p : bool) (fuel : nat) (o : operation Float) :
  keepsRowsValid o = true -> tidy p (runOperation host (S (S fuel)) o).
Proof.
  intros Ho. destruct o; cbn [runOperation].
  - apply tidy_userSelects.
  - apply tidy_selectInfluences_body, tidy_onSelectionChanged.
  - apply tidy_matchSelection.
  - apply tidy_setAutoSelect.
  - apply tidy_setVisible.
  - apply tidy_setOverrides.
  - apply tidy_onModel. intros m m' [= <-] _. exact Ho.
  - apply tidy_precisionChanged.
  - apply tidy_bind; [apply tidy_sourceInfluences|]. intros _. apply tidy_ret.
  - apply tidy_invalidateWeights.
  - apply tidy_runEdit.
Qed.

(** X18. The flag cannot get stuck while the cached selections hold row
    numbers: from a window whose cached selections are all integers, whatever
    the views and the skin do, every operation that does not itself store a
    non-integer selection gives the flag back as it found it and keeps the
    cached selections valid; so a session that starts with the flag clear
    ends with the flag clear. *)
Theorem flag_is_restored (fuel : nat) (os : list (operation Float)) w :
  forallb keepsRowsValid os = true ->
  cachedRowsValid w = true ->
  __pending__ (runSession host (S (S fuel)) os w) = __pending__ w /\
  cachedRowsValid (runSession host (S (S fuel)) os w) = true.
Proof.
  revert w. induction os as [|o os IH]; intros w Hos Hv; [cbn; auto|].
  cbn [forallb] in Hos. apply andb_true_iff in Hos. destruct Hos as [Ho Hos].
  destruct (tidy_runOperation false fuel o Ho w Hv) as [Hv1 Hp1]; [discriminate|].
  change (runSession host (S (S fuel)) (o :: os) w)
    with (runSession host (S (S fuel)) os (world (runOperation host (S (S fuel)) o w))).
  destruct (IH _ Hos Hv1) as [H1 H2]. split; [rewrite H1; exact Hp1|exact H2].
Qed.

(** X14. Entering precision mode sets the weight table to extended
    selection and switches auto-select off in both lists; that is the only
    call made, and no selection is matched.  Leaving it, with no matching
    under way and valid cached selections, first sets the weight table to
    single selection, then switches auto-select on and matches twice: the
    weight list is asked to select the rows cached by the influence list,
    then the influence list is asked to select the rows that the weight list
    caches once that first matching is over; the call returns with the flag
    clear. *)
Theorem precision_mode_toggles (fuel : nat) w :
  precisionChanged host fuel true w
  = Res (with_filterModel Weight (with_autoSelect false (weightFilterModel w))
           (with_filterModel Influence (with_autoSelect false (influenceFilterModel w))
              (with_precision true w)))
        [EvSetSelectionMode Weight ExtendedSelection] (Ok tt) /\
  (__pending__ w = false -> cachedRowsValid w = true ->
   let r := precisionChanged host (S (S fuel)) false w in
   let first := setAutoSelect host (S (S fuel)) Influence (PyBool true)
                  (with_precision false w) in
   out r = Ok tt /\ __pending__ (world r) = false /\
   (exists rest, events r = EvSetSelectionMode Weight SingleSelection :: rest) /\
   siblingSelects (events r)
   = [(Weight, _selectedRows (influenceFilterModel w));
      (Influence, _selectedRows (weightFilterModel (world first)))]).
Proof.
  split; [reflexivity|].
  intros Hp Hv r first. subst r first. unfold precisionChanged.
  rewrite bind_modify, bind_emit.
  unfold setAutoSelect. rewrite bind_assoc, !bind_modify.
  set (wA := with_filterModel Influence _ (with_precision false w)).
  assert (HpA : __pending__ wA = false) by exact Hp.
  assert (HvA : cachedRowsValid wA = true) by exact Hv.
  rewrite bind_run.
  destruct (matchSelection_body_completes (onSelectionChanged host (S (S fuel))) Influence wA
              HpA (cachedRowsValid_model Influence wA HvA)
              (good_onSelectionChanged_pending host (S fuel) Weight)) as [Hout1 _].
  fold (matchSelection host (S (S fuel)) Influence wA) in Hout1.
  rewrite Hout1.
  destruct (tidy_matchSelection false fuel Influence wA HvA) as [HvB HpB]; [discriminate|].
  rewrite HpA in HpB.
  set (wB := world (matchSelection host (S (S fuel)) Influence wA)) in *.
  rewrite bind_modify.
  set (wC := with_filterModel Weight _ wB).
  assert (HpC : __pending__ wC = false) by exact HpB.
  assert (HvC : cachedRowsValid wC = true).
  { apply cachedRowsValid_with_filterModel; [|exact HvB].
    apply (cachedRowsValid_model Weight wB HvB). }
  destruct (matchSelection_body_completes (onSelectionChanged host (S (S fuel))) Weight wC
              HpC (cachedRowsValid_model Weight wC HvC)
              (good_onSelectionChanged_pending host (S fuel) Influence)) as [Hout2 _].
  fold (matchSelection host (S (S fuel)) Weight wC) in Hout2.
  destruct (tidy_matchSelection false fuel Weight wC HvC) as [_ HpD]; [discriminate|].
  cbn [out world events]. split; [exact Hout2|]. split; [rewrite HpD; exact HpC|].
  split; [eexists; reflexivity|].
  change (siblingSelects (EvSetSelectionMode Weight SingleSelection :: ?l))
    with (siblingSelects l).
  rewrite siblingSelects_app.
  rewrite (matchSelection_one_sibling_call host (S fuel) Influence wA HpA).
  rewrite (matchSelection_one_sibling_call host (S fuel) Weight wC HpC).
  reflexivity.
Qed.

End Tidy.

(** ** The properties on the example data *)

(** The middle row of [null_row] has no label: although it is visible and
    overridden, the pass puts it among the inactive rows. *)
Lemma filter_pass_accepts_iff_witness :
  In 1 (_inactiveInfluences (invalidateFilter null_row)) /\
  ~ In 1 (_activeInfluences (invalidateFilter null_row)).
Proof.
  destruct (filter_pass_accepts_iff null_row) as (_ & _ & _ & H).
  destruct (H 1) as (_ & _ & Hnull).
  - vm_compute. tauto.
  - apply Hnull. reflexivity.
Defined.

(** In [null_row] the override of the labelled, hidden row 2 is used up;
    the override of the unlabelled row 1 stays. *)
Lemma override_consumed_when_hidden_witness :
  py_in (PyInt 2) (_overrides (invalidateFilter null_row)) = false /\
  py_in (PyInt 1) (_overrides (invalidateFilter null_row)) = true.
Proof.
  destruct (override_consumed_when_hidden null_row 2) as (_ & Hused & _ & _).
  destruct (override_consumed_when_hidden null_row 1) as (_ & _ & Hkept & _).
  split.
  - apply Hused; reflexivity.
  - rewrite Hkept; reflexivity.
Defined.

(** The scenario of the specification: the active rows are 0, 2, 4, yet the
    override of the visible row 4 is still there after the pass. *)
Lemma override_scenario_keeps_override :
  match setOverrides [PyInt 4] five_rows with
  | Ok m => _activeInfluences m = [0; 2; 4] /\
            py_in (PyInt 4) (_overrides m) = true /\ _overrides m <> []
  | Raise _ => False
  end.
Proof. vm_compute. repeat split. discriminate. Qed.

(** [setVisible(True)] stores [True]. *)
Lemma setters_accept_bools_witness :
  setVisible [PyBool true] null_row = Ok (invalidateFilter (with_visible [PyBool true] null_row)) /\
  _visible (invalidateFilter (with_visible [PyBool true] null_row)) = [PyBool true] /\
  setOverrides [PyBool true] null_row
  = Ok (invalidateFilter (with_overrides [PyBool true] null_row)).
Proof.
  apply (setters_accept_bools [PyBool true] null_row).
  constructor; [left; exists true; reflexivity|constructor].
Defined.

(** The pattern scenario on POSIX, a pattern with a class, and a class the
    engine rejects. *)
Lemma filterRowsByPattern_glob_witness :
  filterRowsByPattern demo_runtime Posix (PyStr "*Arm*") arms = Ok [0; 2] /\
  (exists rows,
     filterRowsByPattern demo_runtime Posix (PyStr "[L-R]_Arm") arms = Ok rows /\
     StronglySorted Z.lt rows /\
     (In 2 rows <->
      exists label, itemText arms 2 = Some label /\
        glob_match demo_runtime (codepoints "[L-R]_Arm") (codepoints label))) /\
  filterRowsByPattern demo_runtime Posix (PyStr "[z-a]*") arms = Raise ReError.
Proof.
  destruct (filterRowsByPattern_glob demo_runtime Posix "*Arm*" arms) as (_ & _ & _ & _ & H).
  destruct (filterRowsByPattern_glob demo_runtime Posix "[L-R]_Arm" arms)
    as (_ & Hclass & _).
  destruct (filterRowsByPattern_glob demo_runtime Posix "[z-a]*" arms)
    as (_ & _ & Hbad & _).
  split; [exact H|]. split.
  - destruct (Hclass eq_refl) as (rows & Hrows & Hsorted & Hin).
    exists rows. split; [exact Hrows|]. split; [exact Hsorted|apply Hin].
  - apply Hbad. reflexivity.
Defined.

(** On Windows the lower-case pattern finds the capitalised labels, which
    the case-sensitive glob does not match. *)
Lemma pattern_folds_case_on_windows :
  filterRowsByPattern demo_runtime Windows (PyStr "*arm*") arms = Ok [0; 2] /\
  ~ glob_match demo_runtime (codepoints "*arm*") (codepoints "L_Arm") /\
  ~ glob_match demo_runtime (codepoints "*arm*") (codepoints "R_Arm").
Proof.
  split; [reflexivity|].
  split; intros H;
    apply (re_match_glob demo_runtime 5 (codepoints "*arm*")) in H;
    solve [vm_compute in H; discriminate H | vm_compute; lia].
Qed.

(** No selection raises; then the two scenarios of the specification. *)
Lemma sourceInfluences_result_witness :
  (exists msg, sourceInfluences no_selection_window
               = Res no_selection_window [] (Raise (TypeError msg))) /\
  sourceInfluences single_select_window
  = Res single_select_window [] (Ok [PyInt 0; PyInt 2; PyInt 3]) /\
  out (sourceInfluences precision_window) = Ok [PyInt 0].
Proof.
  destruct (sourceInfluences_result no_selection_window) as (Hnone & _).
  destruct (sourceInfluences_result single_select_window) as (_ & Hsingle & _).
  destruct (sourceInfluences_result precision_window) as (_ & _ & Hprecision).
  split; [apply Hnone; reflexivity|]. split.
  - apply Hsingle; [discriminate|reflexivity].
  - destruct (Hprecision ltac:(discriminate) eq_refl (PyInt 1) [] eq_refl) as [H _].
    exact H.
Defined.

(** C6, which the code breaks.  In precision mode [sourceInfluences]
    removes the active influence from the very list the weight filter model
    caches: after the call the cached selection is one row shorter, and with
    the active influence as the only selected row a second call raises for
    want of a selection. *)
Theorem sourceInfluences_rewrites_cached_selection :
  _selectedRows (weightFilterModel precision_window) = [PyInt 0; PyInt 1] /\
  _selectedRows (weightFilterModel (world (sourceInfluences precision_window))) = [PyInt 0] /\
  out (sourceInfluences precision_window) = Ok [PyInt 0] /\
  out (sourceInfluences precision_single_window) = Ok [] /\
  (exists msg,
     out (sourceInfluences (world (sourceInfluences precision_single_window)))
     = Raise (TypeError msg)).
Proof. repeat split. eexists. reflexivity. Qed.

(** The second of three vertices fails: nothing is applied.  With weights on
    every vertex the one call carries all three. *)
Lemma batch_edit_single_apply_witness :
  appliedUpdates (events (runEdit demo_host SetWeights failing_window)) = [] /\
  (exists ex, out (runEdit demo_host SetWeights failing_window) = Raise ex) /\
  (length (appliedUpdates (events (runEdit demo_host SetWeights single_select_window))) <= 1)%nat /\
  appliedUpdates (events (runEdit demo_host SetWeights single_select_window))
  = [ {[ 10 := {[ 0 := 1; 1 := 1 ]}; 11 := {[ 0 := 1; 1 := 1 ]}; 12 := {[ 1 := 1 ]} ]} ].
Proof.
  destruct (batch_edit_single_apply demo_host SetWeights failing_window) as (_ & _ & Hfail).
  destruct (batch_edit_single_apply demo_host SetWeights single_select_window)
    as (Hone & Hall & _).
  destruct (Hfail (PyInt 1) [PyInt 0; PyInt 2; PyInt 3] failing_window 11 1) as [H1 H2].
  - reflexivity.
  - reflexivity.
  - reflexivity.
  - simpl. tauto.
  - vm_compute. eexists. reflexivity.
  - split; [exact H1|]. split; [exact H2|]. split; [exact Hone|].
    specialize (Hall (PyInt 1) [PyInt 0; PyInt 2; PyInt 3] single_select_window
                  eq_refl eq_refl eq_refl).
    cbv zeta in Hall.
    match type of Hall with
    | match ?c with _ => _ end =>
        assert (Hc : c = Ok {[ 10 := {[ 0 := 1; 1 := 1 ]}; 11 := {[ 0 := 1; 1 := 1 ]};
                               12 := {[ 1 := 1 ]} ]})
          by (vm_compute; reflexivity);
        rewrite Hc in Hall
    end.
    destruct Hall as [Hall _]. exact Hall.
Defined.


(** A cached string stops the matching for good. *)
Lemma failed_matching_blocks_forever_witness :
  (out (matchSelection demo_host 2 Weight bad_rows_window)
   = Raise (TypeError "selectInfluences() expects a sequence of integers!") /\
   __pending__ (world (matchSelection demo_host 2 Weight bad_rows_window)) = true) /\
  (exists msg,
     matchSelection demo_host 2 Weight bad_rows_window
     = Res (with_pending true bad_rows_window)
         [EvBeginSelectionUpdate; EvSiblingSelect Influence [PyStr "spine"]]
         (Raise (TypeError msg))) /\
  __pending__ (runSession demo_host 2 [UserSelects Influence [2]; MatchSelection Weight]
                 (world (matchSelection demo_host 2 Weight bad_rows_window))) = true.
Proof.
  destruct (failed_matching_blocks_forever demo_host 0 Weight bad_rows_window eq_refl)
    as (Hsame & Hraise & Hstuck).
  destruct (Hraise eq_refl) as [msg Hmsg].
  split; [apply Hsame; reflexivity|].
  split; [exists msg; exact Hmsg|].
  apply (Hstuck ltac:(rewrite Hmsg; reflexivity)
           [UserSelects Influence [2]; MatchSelection Weight] Influence).
Defined.

(** Without rows: nothing with no active row, row 0 otherwise. *)
Lemma selectInfluences_without_rows_witness :
  selectInfluences demo_host 2 Weight [] hidden_rows_window
  = Res hidden_rows_window [] (Ok tt) /\
  viewCalls Weight (events (selectInfluences demo_host 2 Weight [] single_select_window))
  = [EvSelect Weight [0]; EvScrollToTop Weight].
Proof.
  destruct (selectInfluences_without_rows demo_host 0 Weight hidden_rows_window) as [Hnone _].
  destruct (selectInfluences_without_rows demo_host 0 Weight single_select_window) as [_ Hsome].
  split.
  - apply Hnone. reflexivity.
  - destruct (Hsome 0 [1; 2; 3] eq_refl) as (_ & H & _). exact H.
Defined.

(** In that chain the slot of the influence list did run: it cached the
    mirrored selection. *)
Example chain_reaches_sibling :
  _selectedRows (influenceFilterModel
                   (world (userSelects demo_host 2 Weight [2] single_select_window)))
  = [PyInt 2].
Proof. vm_compute. reflexivity. Qed.

(** ** Further properties on the example data *)

(** Two passes over [five_rows], the first from the last row to the first,
    the second with the rows shown by then in front. *)
Lemma filter_pass_idempotent_witness :
  (forall row,
     In row (_activeInfluences
               (invalidateFilter_in [4; 2; 0; 1; 3]
                  (invalidateFilter_in [4; 3; 2; 1; 0] five_rows))) <->
     In row (_activeInfluences (invalidateFilter_in [4; 3; 2; 1; 0] five_rows))) /\
  invalidateFilter_in [4; 3; 2; 1; 0] (invalidateFilter_in [4; 3; 2; 1; 0] five_rows)
  = invalidateFilter_in [4; 3; 2; 1; 0] five_rows.
Proof.
  destruct (filter_pass_idempotent five_rows [4; 3; 2; 1; 0] [4; 2; 0; 1; 3])
    as (Hactive & _).
  - apply (bool_decide_unpack _). vm_compute. reflexivity.
  - apply (bool_decide_unpack _). vm_compute. reflexivity.
  - left. reflexivity.
  - destruct (filter_pass_idempotent five_rows [4; 3; 2; 1; 0] [4; 3; 2; 1; 0])
      as (_ & _ & _ & _ & Hsame).
    + apply (bool_decide_unpack _). vm_compute. reflexivity.
    + apply (bool_decide_unpack _). vm_compute. reflexivity.
    + left. reflexivity.
    + split; [exact Hactive|apply Hsame; reflexivity].
Defined.

Lemma override_reveals_once_witness :
  exists m1,
    setOverrides [PyInt 1] five_rows = Ok m1 /\
    In 1 (_activeInfluences m1) /\ isRowHidden m1 (PyInt 1) = false /\
    py_in (PyInt 1) (_overrides m1) = false /\
    In 1 (_inactiveInfluences (invalidateFilter m1)) /\
    isRowHidden (invalidateFilter m1) (PyInt 1) = true.
Proof.
  apply (override_reveals_once [PyInt 1] five_rows 1); reflexivity.
Defined.

Lemma null_row_override_stays_witness :
  py_count (PyInt 1) (_overrides (invalidateFilter_times 3 null_row)) = 1%nat /\
  ~ In 1 (_activeInfluences (invalidateFilter_times 4 null_row)).
Proof.
  apply (null_row_override_stays 3 null_row 1). reflexivity.
Defined.

Lemma isRowHidden_after_pass_witness :
  isRowHidden (invalidateFilter five_rows) (PyStr "spine") = false /\
  isRowHidden (invalidateFilter five_rows) (PyInt 7) = false.
Proof.
  destruct (isRowHidden_after_pass five_rows (PyStr "spine")) as (_ & Hstr & _).
  destruct (isRowHidden_after_pass five_rows (PyInt 7)) as (_ & _ & Hout).
  split; [apply Hstr; reflexivity|].
  apply (Hout 7); [reflexivity|]. vm_compute. intros [_ H]. discriminate H.
Defined.

Lemma search_shows_rows_containing_text_witness :
  (forall row,
     py_in (PyInt row)
       (_visible (influenceFilterModel
                    (world (searchPressed demo_runtime Posix (searchChanged "in")
                              single_select_window)))) = true <->
     exists label,
       itemText (influenceFilterModel single_select_window) row = Some label /\
       exists pre post,
         codepoints label = pre ++ codepoints "in" ++ post) /\
  (forall row,
     In row (_activeInfluences
               (influenceFilterModel
                  (world (searchPressed demo_runtime Posix (searchChanged EmptyString)
                            single_select_window)))) <->
     0 <= row < 4 /\ isItemNull (influenceFilterModel single_select_window) row = false).
Proof.
  destruct (search_shows_rows_containing_text demo_runtime Posix "in" single_select_window)
    as (_ & _ & _ & Hsub & _).
  destruct (search_shows_rows_containing_text demo_runtime Posix EmptyString single_select_window)
    as (_ & _ & _ & _ & Hall).
  split.
  - apply (Hsub eq_refl (or_introl eq_refl) eq_refl).
  - apply (Hall eq_refl).
Defined.

(** Rows 1 and 2 selected in the weight list, under a Python whose sets
    give the rows back in reverse: the cache holds 2 and 1, both shown. *)
Lemma selection_is_cached_and_shown_witness :
  _selectedRows (filterModel Weight
                   (world (userSelects reversing_host 2 Weight [1; 2] precision_mode_window)))
  = [PyInt 2; PyInt 1] /\
  In 2 (_activeInfluences
          (filterModel Weight
             (world (userSelects reversing_host 2 Weight [1; 2] precision_mode_window)))).
Proof.
  destruct (selection_is_cached_and_shown reversing_host 2 Weight [1; 2]
              precision_mode_window)
    as (Hsel & _ & _ & _ & Hshown).
  - discriminate.
  - lia.
  - split; [exact Hsel|]. apply Hshown; [simpl; tauto|reflexivity].
Defined.

(** A pass over [five_rows] that asks about row 4 first. *)
Lemma filter_pass_partitions_rows_witness :
  _activeInfluences (invalidateFilter_in [4; 1; 0; 3; 2] five_rows) = [4; 0; 2] /\
  numActiveInfluences (invalidateFilter_in [4; 1; 0; 3; 2] five_rows)
  + numInactiveInfluences (invalidateFilter_in [4; 1; 0; 3; 2] five_rows) = 5 /\
  ~ In 0 (_inactiveInfluences (invalidateFilter_in [4; 1; 0; 3; 2] five_rows)).
Proof.
  destruct (filter_pass_partitions_rows five_rows [4; 1; 0; 3; 2])
    as (Hactive & _ & _ & _ & Hdisjoint & _ & Hcount).
  - apply (bool_decide_unpack _). vm_compute. reflexivity.
  - split; [exact Hactive|]. split; [exact Hcount|].
    apply Hdisjoint. vm_compute. tauto.
Defined.

Lemma search_before_typing_hides_rows_witness :
  out (searchPressed demo_runtime Posix EmptyString single_select_window) = Ok tt /\
  ~ In 0 (_activeInfluences
            (influenceFilterModel
               (world (searchPressed demo_runtime Posix EmptyString single_select_window)))).
Proof.
  destruct (search_before_typing_hides_rows demo_runtime Posix single_select_window)
    as (Hout & _ & Hactive).
  split; [exact Hout|]. intros H. apply Hactive in H.
  destruct H as (_ & _ & [H|H]); vm_compute in H; discriminate H.
Defined.

(** Row 2 of the weight list is hidden; selecting it reveals it. *)
Lemma selectInfluences_with_rows_witness :
  out (selectInfluences demo_host 2 Weight [PyInt 2] hidden_rows_window) = Ok tt /\
  viewCalls Weight (events (selectInfluences demo_host 2 Weight [PyInt 2] hidden_rows_window))
  = [EvSelect Weight [2]; EvScrollTo Weight 2] /\
  In 2 (_activeInfluences (revealHidden [PyInt 2] (weightFilterModel hidden_rows_window))).
Proof.
  destruct (selectInfluences_with_rows demo_host 0 Weight (PyInt 2) [] hidden_rows_window)
    as (Hout & Hcalls & _ & Hshown).
  - reflexivity.
  - split; [exact Hout|]. split; [exact Hcalls|].
    apply (Hshown (PyInt 2) 2); [simpl; tauto|reflexivity|reflexivity|reflexivity].
Defined.

(** Rows 1 and 2 selected in the influence list, under a Python whose sets
    give the rows back in reverse: the weight list is asked for rows 2 and 1
    and scrolls to row 2. *)
Lemma selection_is_mirrored_witness :
  viewCalls Weight
    (events (userSelects reversing_host 2 Influence [1; 2] single_select_window))
  = [EvSelect Weight [2; 1]; EvScrollTo Weight 2] /\
  viewCalls Influence
    (events (userSelects reversing_host 2 Influence [1; 2] single_select_window))
  = [].
Proof.
  destruct (selection_is_mirrored reversing_host 0 Influence [1; 2] 2 [1]
              single_select_window)
    as (Hsibling & Hown & _).
  - reflexivity.
  - reflexivity.
  - reflexivity.
  - split; [exact Hsibling|exact Hown].
Defined.

(** Row 1 of [five_rows] is shown by an override, which the pass uses up;
    asking then for rows 3 and 1 reveals row 3 and hides row 1. *)
Lemma revealing_rows_hides_spent_overrides_witness :
  In 1 (_activeInfluences (invalidateFilter (with_overrides [PyInt 1] five_rows))) /\
  In 1 (_inactiveInfluences
          (revealHidden [PyInt 3; PyInt 1]
             (invalidateFilter (with_overrides [PyInt 1] five_rows)))).
Proof.
  split; [vm_compute; tauto|].
  apply (revealing_rows_hides_spent_overrides [PyInt 3; PyInt 1]
           (invalidateFilter (with_overrides [PyInt 1] five_rows)) (PyInt 3) 1).
  - simpl. tauto.
  - reflexivity.
  - vm_compute. split; [discriminate|reflexivity].
  - vm_compute. intuition discriminate.
  - reflexivity.
  - reflexivity.
Defined.

(** Rows 1 and 3 selected in the influence list in precision mode, under
    a Python whose sets give the rows back in reverse: row 3 goes to the
    skin. *)
Lemma precision_selection_stays_local_witness :
  siblingSelects
    (events (userSelects reversing_host 1 Influence [1; 3] precision_mode_window)) = [] /\
  weightFilterModel (world (userSelects reversing_host 1 Influence [1; 3] precision_mode_window))
  = weightFilterModel precision_mode_window /\
  events (userSelects reversing_host 1 Influence [1; 3] precision_mode_window)
  = [EvSkinSelectInfluence (PyInt 3)].
Proof.
  destruct (precision_selection_stays_local reversing_host 0 Influence [1; 3]
              precision_mode_window)
    as (_ & Hnone & _ & Hsibling & _ & Hskin).
  - reflexivity.
  - discriminate.
  - split; [exact Hnone|]. split; [exact Hsibling|]. apply Hskin; reflexivity.
Defined.

(** Leaving precision mode with row 2 cached by the influence list and row
    1 by the weight list: the weight list is asked for row 2 and caches it,
    and the influence list is then asked for row 2. *)
Lemma precision_mode_toggles_witness :
  out (precisionChanged demo_host 2 false unmatched_window) = Ok tt /\
  __pending__ (world (precisionChanged demo_host 2 false unmatched_window)) = false /\
  siblingSelects (events (precisionChanged demo_host 2 false unmatched_window))
  = [(Weight, [PyInt 2]); (Influence, [PyInt 2])].
Proof.
  destruct (precision_mode_toggles demo_host 0 unmatched_window) as [_ Hleave].
  destruct (Hleave eq_refl eq_refl) as (Hout & Hflag & _ & Hcalls).
  split; [exact Hout|]. split; [exact Hflag|exact Hcalls].
Defined.

Lemma edit_without_arguments_is_rejected_witness :
  runEdit demo_host SetWeights no_selection_window
  = Res no_selection_window []
      (Raise (TypeError "sourceInfluences() expects a valid selection!")).
Proof.
  destruct (edit_without_arguments_is_rejected demo_host SetWeights no_selection_window)
    as (_ & _ & H).
  apply H; [reflexivity|discriminate|reflexivity].
Defined.

Lemma edit_applies_then_refreshes_witness :
  runEdit refusing_host SetWeights single_select_window
  = Res single_select_window
      [EvSkinApplyWeights
         {[ 10 := {[ 0 := 1; 1 := 1 ]}; 11 := {[ 0 := 1; 1 := 1 ]}; 12 := {[ 1 := 1 ]} ]}]
      (Raise (HostError "locked")).
Proof.
  destruct (edit_applies_then_refreshes refusing_host SetWeights single_select_window
              (PyInt 1) [PyInt 0; PyInt 2; PyInt 3] single_select_window
              {[ 10 := {[ 0 := 1; 1 := 1 ]}; 11 := {[ 0 := 1; 1 := 1 ]}; 12 := {[ 1 := 1 ]} ]})
    as [Hrefused _].
  - reflexivity.
  - reflexivity.
  - reflexivity.
  - vm_compute. reflexivity.
  - apply Hrefused. reflexivity.
Defined.

Lemma invalidateWeights_edge_cases_witness :
  invalidateWeights idle_host single_select_window
  = Res (with_vertexWeights ∅ (with_vertices ∅ (with_softSelection [] single_select_window)))
        [] (Ok tt).
Proof.
  destruct (invalidateWeights_edge_cases idle_host single_select_window) as (_ & H & _).
  apply H; reflexivity.
Defined.

Lemma flag_is_restored_witness :
  __pending__
    (runSession demo_host 2
       [UserSelects Influence [2]; Edit SetWeights; PrecisionChanged true;
        UserSelects Weight [0; 1]; SetSelectedRows Weight [PyInt 3];
        PrecisionChanged false]
       single_select_window) = false.
Proof.
  destruct (flag_is_restored demo_host 0
              [UserSelects Influence [2]; Edit SetWeights; PrecisionChanged true;
               UserSelects Weight [0; 1]; SetSelectedRows Weight [PyInt 3];
               PrecisionChanged false]
              single_select_window) as [H _].
  - reflexivity.
  - reflexivity.
  - exact H.
Defined.

Lemma checked_setters_fail_closed_witness :
  runOperation demo_host 2 (SetVisible Weight [PyInt 1; PyStr "spine"]) single_select_window
  = Res single_select_window []
      (Raise (TypeError "setVisible() expects a sequence of integers!")) /\
  exists msg,
    runOperation demo_host 2 (SetAutoSelect Weight (PyInt 1)) single_select_window
    = Res single_select_window [] (Raise (TypeError msg)).
Proof.
  destruct (checked_setters_fail_closed demo_host 2 Weight [PyInt 1; PyStr "spine"]
              (PyStr "spine") single_select_window) as (Hvisible & _ & _ & Hauto).
  - simpl. tauto.
  - reflexivity.
  - split; [exact Hvisible|]. apply Hauto. reflexivity.
Defined.

Lemma names_lead_back_to_rows_witness :
  getRowsByText (TextsSeq ["neck"%string]) five_rows
  = getSelectedRows reversed_order five_rows /\
  getRowsByText (TextsStr "tail") five_rows = [].
Proof.
  destruct (names_lead_back_to_rows five_rows) as (_ & Hnone & _ & Hback).
  split.
  - apply (Hback reversed_order); [|reflexivity].
    repeat (constructor; [simpl; intuition discriminate|]). constructor.
  - apply Hnone. intros row H. unfold itemText in H.
    destruct (0 <=? row); [|discriminate].
    destruct (Z.to_nat row) as [|[|[|[|[|n]]]]]; simpl in H; try discriminate.
    destruct n; discriminate.
Defined.
